(** * scrap_api: the protected-catalog crawl-and-resolve engine

    A shallow embedding of the two Dontorrent scrapers,
    [src/scrapers/dontorrent_scraper.py] (module [Exhaustive]) and
    [src/scrapers/dontorrent_fast_scraper.py] (module [Fast]), with the
    Python primitives they rely on (module [Py]) and SHA-256 (module
    [Sha256]).  Module [Net] holds the model of the network, [Re] the
    regular expressions, [Props] the vocabulary of the statements and
    [Sites] the concrete sites and requests.

    Modelling conventions.
    - A Python [str] is a Rocq [string] holding its UTF-8 bytes; the
      character classes ([\d], [\s], case folding) are the ASCII ones, bytes
      above 127 are letters of no class.
    - A Python [int] is a [Z].  CPython refuses to convert a literal of
      more than 4300 digits ([ValueError]).  [Py.int_of_digits] is the
      value of a run of ASCII digits within that limit, and so the
      modules [Exhaustive] and [Fast] follow the code on digit runs of
      at most 4300 digits; [Builtins.int_of_str] and
      [Builtins.int_of_group] have the limit, and the statements about
      longer runs are made with them.
    - Network calls go through a [world] of oracles that see the trace of
      the events performed so far; every call appends its event.

    Further modules, after [Sites]: [Builtins] has more of Python,
    [Dontorrent] and [DontorrentFast] the other methods of the two
    scrapers (criteria, series names and search, the quality of a
    page, the link resolver, episode numbers), [Manager] the dispatch
    of [src/scrapers/manager.py], [Terms] more vocabulary and [Servers]
    more sites. *)

From Stdlib Require Import ZArith List String Ascii Bool Lia Arith.
From Stdlib Require Import Permutation Sorted DecimalString.
From stdpp Require Import base option strings gmap.
Import ListNotations.

Local Open Scope string_scope.
Local Open Scope Z_scope.

(* ===================================================================== *)
(** ** Python string and integer primitives                                *)
(* ===================================================================== *)

Module Py.

(** [c.isdigit()] on ASCII. *)
Definition is_digit (c : ascii) : bool :=
  let n := nat_of_ascii c in (48 <=? n)%nat && (n <=? 57)%nat.

(** Whitespace as [str.strip()] and [\s] see it, on ASCII: TAB, LF, VT,
    FF, CR, the separators 28..31 and the space. *)
Definition is_space (c : ascii) : bool :=
  let n := nat_of_ascii c in
  ((9 <=? n)%nat && (n <=? 13)%nat) || ((28 <=? n)%nat && (n <=? 32)%nat).

(** [c.upper()] on ASCII. *)
Definition upper_char (c : ascii) : ascii :=
  let n := nat_of_ascii c in
  if (97 <=? n)%nat && (n <=? 122)%nat then ascii_of_nat (n - 32) else c.

(** [s.upper()] *)
Fixpoint upper (s : string) : string :=
  match s with
  | EmptyString => EmptyString
  | String c r => String (upper_char c) (upper r)
  end.

(** Equality of two characters under [re.IGNORECASE]. *)
Definition eqb_nocase (a b : ascii) : bool :=
  Ascii.eqb (upper_char a) (upper_char b).

(** [s.lstrip()] *)
Fixpoint lstrip (s : string) : string :=
  match s with
  | EmptyString => EmptyString
  | String c r => if is_space c then lstrip r else s
  end.

(** [s.rstrip()] *)
Fixpoint rstrip (s : string) : string :=
  match s with
  | EmptyString => EmptyString
  | String c r =>
      match rstrip r with
      | EmptyString => if is_space c then EmptyString else String c EmptyString
      | r' => String c r'
      end
  end.

(** [s.strip()] *)
Definition strip (s : string) : string := rstrip (lstrip s).

(** [s.startswith(p)] *)
Fixpoint startswith (s p : string) : bool :=
  match p, s with
  | EmptyString, _ => true
  | String _ _, EmptyString => false
  | String a p', String b s' => Ascii.eqb a b && startswith s' p'
  end.

(** [p in s] *)
Fixpoint contains (s p : string) : bool :=
  startswith s p ||
  match s with
  | EmptyString => false
  | String _ r => contains r p
  end.

(** [c * n] for a one-character string; a negative count gives the
    empty string. *)
Definition repeat_char (c : ascii) (n : Z) : string :=
  string_of_list_ascii (List.repeat c (Z.to_nat n)).

(** [str(n)] *)
Definition str_of_int (n : Z) : string :=
  NilZero.string_of_int (Z.to_int n).

(** [s.zfill(w)] for a string without sign. *)
Definition zfill (w : nat) (s : string) : string :=
  string_of_list_ascii (List.repeat "0"%char (w - String.length s)) ++ s.

(** The longest prefix of digits, and what follows it. *)
Fixpoint span_digits (s : string) : string * string :=
  match s with
  | EmptyString => (EmptyString, EmptyString)
  | String c r =>
      if is_digit c
      then let '(d, t) := span_digits r in (String c d, t)
      else (EmptyString, s)
  end.

(** At most [n] leading digits, and what follows them. *)
Fixpoint take_digits (n : nat) (s : string) : string * string :=
  match n, s with
  | S n', String c r =>
      if is_digit c
      then let '(d, t) := take_digits n' r in (String c d, t)
      else (EmptyString, s)
  | _, _ => (EmptyString, s)
  end.

Definition digit_val (c : ascii) : Z := Z.of_nat (nat_of_ascii c) - 48.

Fixpoint int_of_digits_from (acc : Z) (s : string) : Z :=
  match s with
  | EmptyString => acc
  | String c r => int_of_digits_from (10 * acc + digit_val c) r
  end.

(** [int(s)] for a run of decimal digits, of at most 4300 digits: [int]
    converts no longer run. *)
Definition int_of_digits (s : string) : Z := int_of_digits_from 0 s.

(** [s.replace(old, new)] for a non-empty [old]: the occurrences are
    replaced from the left, without overlap.  [fuel] bounds the number of
    characters still to be scanned. *)
Fixpoint replace_from (fuel : nat) (old new s : string) : string :=
  match fuel with
  | O => s
  | S fuel' =>
      if startswith s old
      then new ++ replace_from fuel' old new
                    (substring (String.length old)
                       (String.length s - String.length old) s)
      else match s with
           | EmptyString => EmptyString
           | String c r => String c (replace_from fuel' old new r)
           end
  end.

Definition replace (old new s : string) : string :=
  replace_from (S (String.length s)) old new s.

(** Truth value of an optional string: [None] and the empty string are
    false. *)
Definition truthy (o : option string) : bool :=
  match o with
  | Some (String _ _) => true
  | _ => false
  end.

(** [list.sort(key=...)]: a stable sort, here by insertion.  [le a b]
    says that [a] may stay before [b]. *)
Section Sort.
Context {A : Type} (le : A -> A -> bool).

Fixpoint insert_sorted (x : A) (l : list A) : list A :=
  match l with
  | [] => [x]
  | y :: r => if le x y then x :: l else y :: insert_sorted x r
  end.

Fixpoint stable_sort (l : list A) : list A :=
  match l with
  | [] => []
  | x :: r => insert_sorted x (stable_sort r)
  end.
End Sort.

(** The values a criteria dictionary or a JSON object holds. *)
Inductive value : Type :=
| VNone
| VStr (s : string)
| VInt (n : Z)
| VBool (b : bool).

(** [bool(v)] *)
Definition value_truthy (v : value) : bool :=
  match v with
  | VNone => false
  | VStr s => truthy (Some s)
  | VInt n => negb (n =? 0)%Z
  | VBool b => b
  end.

(** [str(v)], as an f-string renders a value. *)
Definition format_value (v : value) : string :=
  match v with
  | VNone => "None"
  | VStr s => s
  | VInt n => str_of_int n
  | VBool true => "True"
  | VBool false => "False"
  end.

(** [d.get(k)]: a missing key reads as [None]. *)
Definition dict_get (d : gmap string value) (k : string) : value :=
  default VNone (d !! k).

End Py.

(* ===================================================================== *)
(** ** SHA-256 ([hashlib.sha256(...).hexdigest()]), FIPS 180-4             *)
(* ===================================================================== *)

Module Sha256.

Definition mask32 : Z := 4294967295.
Definition trunc32 (x : Z) : Z := Z.land x mask32.
Definition add32 (x y : Z) : Z := trunc32 (x + y).
Definition rotr (n x : Z) : Z :=
  Z.lor (Z.shiftr x n) (trunc32 (Z.shiftl x (32 - n))).
Definition not32 (x : Z) : Z := Z.lxor x mask32.

Definition choose (x y z : Z) : Z :=
  Z.lxor (Z.land x y) (Z.land (not32 x) z).
Definition majority (x y z : Z) : Z :=
  Z.lxor (Z.lxor (Z.land x y) (Z.land x z)) (Z.land y z).
Definition big_sigma0 (x : Z) : Z :=
  Z.lxor (Z.lxor (rotr 2 x) (rotr 13 x)) (rotr 22 x).
Definition big_sigma1 (x : Z) : Z :=
  Z.lxor (Z.lxor (rotr 6 x) (rotr 11 x)) (rotr 25 x).
Definition small_sigma0 (x : Z) : Z :=
  Z.lxor (Z.lxor (rotr 7 x) (rotr 18 x)) (Z.shiftr x 3).
Definition small_sigma1 (x : Z) : Z :=
  Z.lxor (Z.lxor (rotr 17 x) (rotr 19 x)) (Z.shiftr x 10).

(** The first 64 primes. *)
Definition primes : list Z :=
  [2; 3; 5; 7; 11; 13; 17; 19; 23; 29; 31; 37; 41; 43; 47; 53; 59; 61; 67; 71;
   73; 79; 83; 89; 97; 101; 103; 107; 109; 113; 127; 131; 137; 139; 149; 151;
   157; 163; 167; 173; 179; 181; 191; 193; 197; 199; 211; 223; 227; 229; 233;
   239; 241; 251; 257; 263; 269; 271; 277; 281; 283; 293; 307; 311].

(** The integer cube root of [n], for [n] below 2^(3 * bits): its bits are
    settled from the highest down. *)
Fixpoint cube_root_bits (bits : nat) (n root : Z) : Z :=
  match bits with
  | O => root
  | S b =>
      let candidate := root + Z.shiftl 1 (Z.of_nat b) in
      cube_root_bits b n
        (if candidate * candidate * candidate <=? n then candidate else root)
  end.

(** The first 32 bits of the fractional part of the cube root of [p]. *)
Definition cube_root_fraction (p : Z) : Z :=
  trunc32 (cube_root_bits 36 (Z.shiftl p 96) 0).

(** The first 32 bits of the fractional part of the square root of [p]. *)
Definition square_root_fraction (p : Z) : Z :=
  trunc32 (Z.sqrt (Z.shiftl p 64)).

(** The constants K of the 64 rounds (FIPS 180-4, 4.2.2). *)
Definition round_constants : list Z :=
  Eval vm_compute in List.map cube_root_fraction primes.

(** The eight working words. *)
Record state : Type := State {
  wa : Z; wb : Z; wc : Z; wd : Z; we : Z; wf : Z; wg : Z; wh : Z
}.

(** The initial hash value (FIPS 180-4, 5.3.3), from the first 8 primes. *)
Definition initial_state : state :=
  Eval vm_compute in
    match List.map square_root_fraction (List.firstn 8 primes) with
    | [a; b; c; d; e; f; g; h] => State a b c d e f g h
    | _ => State 0 0 0 0 0 0 0 0
    end.

(** Padding: a 1 bit, zeros up to 56 modulo 64 bytes, then the length in
    bits on 8 bytes, big endian. *)
Definition be_bytes (n : nat) (x : Z) : list Z :=
  List.map (fun i => Z.land (Z.shiftr x (8 * Z.of_nat (n - 1 - i))) 255)
           (List.seq 0 n).

Definition pad (msg : list Z) : list Z :=
  let len := Z.of_nat (List.length msg) in
  let zeros := Z.to_nat ((55 - len) mod 64) in
  msg ++ [128] ++ List.repeat 0 zeros ++ be_bytes 8 (8 * len).

Definition word_of_bytes (b3 b2 b1 b0 : Z) : Z :=
  Z.lor (Z.shiftl b3 24) (Z.lor (Z.shiftl b2 16) (Z.lor (Z.shiftl b1 8) b0)).

Fixpoint words_of_bytes (fuel : nat) (bs : list Z) : list Z :=
  match fuel, bs with
  | S fuel', b3 :: b2 :: b1 :: b0 :: r =>
      word_of_bytes b3 b2 b1 b0 :: words_of_bytes fuel' r
  | _, _ => []
  end.

(** The message schedule, most recent word first: [rev_w] holds
    W(t-1), W(t-2), ... *)
Fixpoint extend_schedule (n : nat) (rev_w : list Z) : list Z :=
  match n with
  | O => rev_w
  | S n' =>
      let w := add32 (add32 (small_sigma1 (nth 1 rev_w 0)) (nth 6 rev_w 0))
                     (add32 (small_sigma0 (nth 14 rev_w 0)) (nth 15 rev_w 0)) in
      extend_schedule n' (w :: rev_w)
  end.

Definition schedule (block : list Z) : list Z :=
  List.rev (extend_schedule 48 (List.rev block)).

Definition round (s : state) (kw : Z * Z) : state :=
  let '(k, w) := kw in
  let t1 := add32 (add32 (add32 (wh s) (big_sigma1 (we s)))
                         (add32 (choose (we s) (wf s) (wg s)) k)) w in
  let t2 := add32 (big_sigma0 (wa s)) (majority (wa s) (wb s) (wc s)) in
  State (add32 t1 t2) (wa s) (wb s) (wc s) (add32 (wd s) t1) (we s) (wf s) (wg s).

Definition compress (h : state) (block : list Z) : state :=
  let s := List.fold_left round (List.combine round_constants (schedule block)) h in
  State (add32 (wa h) (wa s)) (add32 (wb h) (wb s))
        (add32 (wc h) (wc s)) (add32 (wd h) (wd s))
        (add32 (we h) (we s)) (add32 (wf h) (wf s))
        (add32 (wg h) (wg s)) (add32 (wh h) (wh s)).

Fixpoint process (fuel : nat) (h : state) (ws : list Z) : state :=
  match fuel with
  | O => h
  | S fuel' =>
      match ws with
      | [] => h
      | _ => process fuel' (compress h (List.firstn 16 ws)) (List.skipn 16 ws)
      end
  end.

Definition digest (msg : list Z) : state :=
  let bs := pad msg in
  let ws := words_of_bytes (List.length bs) bs in
  process (List.length ws) initial_state ws.

Definition hex_char (n : Z) : ascii :=
  if n <? 10 then ascii_of_nat (Z.to_nat (48 + n))
  else ascii_of_nat (Z.to_nat (87 + n)).

Definition nibble (w : Z) (i : Z) : ascii :=
  hex_char (Z.land (Z.shiftr w (4 * i)) 15).

(** Eight hexadecimal characters of a word, then the rest [k]. *)
Definition hex8 (w : Z) (k : string) : string :=
  String (nibble w 7) (String (nibble w 6) (String (nibble w 5)
  (String (nibble w 4) (String (nibble w 3) (String (nibble w 2)
  (String (nibble w 1) (String (nibble w 0) k))))))).

Definition hex_of_state (s : state) : string :=
  hex8 (wa s) (hex8 (wb s) (hex8 (wc s) (hex8 (wd s)
  (hex8 (we s) (hex8 (wf s) (hex8 (wg s) (hex8 (wh s) EmptyString))))))).

Definition bytes_of_string (s : string) : list Z :=
  List.map (fun c => Z.of_nat (nat_of_ascii c)) (list_ascii_of_string s).

(** [hashlib.sha256(s.encode()).hexdigest()] *)
Definition hexdigest (s : string) : string :=
  hex_of_state (digest (bytes_of_string s)).

End Sha256.

(* ===================================================================== *)
(** ** The network: events, traces and oracles                             *)
(* ===================================================================== *)

Module Net.

(** What a crawl does to the outside world, in order. *)
Inductive event : Type :=
| EvSearch (base_url serie_name : Py.value)  (* POST {base_url}/buscar *)
| EvFetch (url : string)                     (* GET of an HTML page *)
| EvResolve (content_id : string) (base_url : Py.value)
                                             (* the PoW exchange for a row *)
| EvChallenge (url : string)                 (* GET of a protected link *)
| EvPow (challenge : string) (difficulty : Z)(* one proof-of-work solve *)
| EvValidate (url : string) (nonce : Z).     (* POST of the nonce *)

Definition trace : Type := list event.

(** A computation that performs events. *)
Definition M (A : Type) : Type := trace -> A * trace.

Definition ret {A} (a : A) : M A := fun tr => (a, tr).

Definition bind {A B} (m : M A) (k : A -> M B) : M B :=
  fun tr => let '(a, tr') := m tr in k a tr'.

(** Ask an oracle: it answers from the trace so far, and the event is
    recorded. *)
Definition ask {A} (oracle : trace -> A) (e : event) : M A :=
  fun tr => (oracle tr, (tr ++ [e])%list).

(** [for x in l: acc = body(acc, x)] *)
Fixpoint for_each {A S} (body : S -> A -> M S) (l : list A) (acc : S) : M S :=
  match l with
  | [] => ret acc
  | x :: r => bind (body acc x) (for_each body r)
  end.

End Net.

#[global] Instance M_ret : MRet Net.M := @Net.ret.
#[global] Instance M_bind : MBind Net.M := fun A B k m => Net.bind m k.

(* ===================================================================== *)
(** ** Regular expressions of the two scrapers                             *)
(* ===================================================================== *)

Module Re.

(** [re.search]: the first position, from the left, where [at_pos]
    matches; the end of the string is a position too. *)
Fixpoint search {A} (at_pos : string -> option A) (s : string) : option A :=
  match at_pos s with
  | Some r => Some r
  | None =>
      match s with
      | EmptyString => None
      | String _ r => search at_pos r
      end
  end.

Definition nonempty (s : string) : bool :=
  match s with EmptyString => false | String _ _ => true end.

(** [(\d{1,2})c] under IGNORECASE, at the head of [s]: two digits and
    [c], or else one digit and [c].  The group and what follows [c]. *)
Definition digits12_then (c : ascii) (s : string) : option (string * string) :=
  match s with
  | String a (String b t) =>
      if Py.is_digit a && Py.is_digit b
      then match t with
           | String x t' =>
               if Py.eqb_nocase x c
               then Some (String a (String b EmptyString), t') else None
           | EmptyString => None
           end
      else if Py.is_digit a && Py.eqb_nocase b c
           then Some (String a EmptyString, t) else None
  | _ => None
  end.

(** [(\d{1,3})], greedy, at the head of [s]. *)
Definition digits13 (s : string) : option string :=
  let '(d, _) := Py.take_digits 3 s in
  if nonempty d then Some d else None.

(** [S(\d{1,2})E(\d{1,3})], IGNORECASE, at the head of [s]. *)
Definition season_episode_at (s : string) : option (string * string) :=
  match s with
  | String c r =>
      if Py.eqb_nocase c "S"
      then match digits12_then "E" r with
           | Some (g1, t) =>
               match digits13 t with
               | Some g2 => Some (g1, g2)
               | None => None
               end
           | None => None
           end
      else None
  | EmptyString => None
  end.

(** [(\d{1,2})x(\d{1,3})], IGNORECASE, at the head of [s]. *)
Definition cross_at (s : string) : option (string * string) :=
  match digits12_then "x" s with
  | Some (g1, t) =>
      match digits13 t with
      | Some g2 => Some (g1, g2)
      | None => None
      end
  | None => None
  end.

(** [S(\d+)E(\d+)], IGNORECASE, at the head of [s]: each [\d+] takes the
    whole run of digits (a shorter run would be followed by a digit). *)
Definition season_episode_long_at (s : string) : option (string * string) :=
  match s with
  | String c r =>
      if Py.eqb_nocase c "S"
      then let '(g1, t) := Py.span_digits r in
           match t with
           | String e t' =>
               if nonempty g1 && Py.eqb_nocase e "E"
               then let '(g2, _) := Py.span_digits t' in
                    if nonempty g2 then Some (g1, g2) else None
               else None
           | EmptyString => None
           end
      else None
  | EmptyString => None
  end.

(** [(?:HD|SD)] at the head of [s]; [nocase] is IGNORECASE. *)
Definition quality_prefix (nocase : bool) (s : string) : option string :=
  match s with
  | String a (String b t) =>
      let eq := if nocase then Py.eqb_nocase else Ascii.eqb in
      if (eq a "H"%char || eq a "S"%char) && eq b "D"%char then Some t else None
  | _ => None
  end.

(** [(?:HD|SD)?S(\d+)E(\d+)], IGNORECASE, at the head of [s]: with the
    prefix first, without it when that fails. *)
Definition prefixed_season_episode_at (s : string) : option (string * string) :=
  match quality_prefix true s with
  | Some t =>
      match season_episode_long_at t with
      | Some g => Some g
      | None => season_episode_long_at s
      end
  | None => season_episode_long_at s
  end.

(** [re.sub(r'^(HD|SD)', '', s)] *)
Definition strip_quality_prefix (s : string) : string :=
  match quality_prefix false s with
  | Some t => t
  | None => s
  end.

(** [(\d{3,4})p?], at the head of [s]: group 1. *)
Definition resolution_at (s : string) : option string :=
  let '(d, _) := Py.take_digits 4 s in
  if (3 <=? String.length d)%nat then Some d else None.

(** [(\d+)[pP]?], at the head of [s]: group 1. *)
Definition number_at (s : string) : option string :=
  let '(d, _) := Py.span_digits s in
  if nonempty d then Some d else None.

End Re.

(* ===================================================================== *)
(** ** The two comparisons of [_is_in_range], the same in both scrapers    *)
(* ===================================================================== *)

Module Range.

(** The check against [start]: [false] is the early [return False];
    a bound that does not parse excludes nothing. *)
Definition after_start (current_season current_episode : Z)
    (bound : option (string * string)) : bool :=
  match bound with
  | Some (g1, g2) =>
      let start_season := Py.int_of_digits g1 in
      let start_episode_num := Py.int_of_digits g2 in
      if current_season <? start_season then false
      else if (current_season =? start_season)
              && (current_episode <? start_episode_num) then false
      else true
  | None => true
  end.

(** The check against [end]. *)
Definition before_end (current_season current_episode : Z)
    (bound : option (string * string)) : bool :=
  match bound with
  | Some (g1, g2) =>
      let end_season := Py.int_of_digits g1 in
      let end_episode_num := Py.int_of_digits g2 in
      if current_season >? end_season then false
      else if (current_season =? end_season)
              && (current_episode >? end_episode_num) then false
      else true
  | None => true
  end.

End Range.

(* ===================================================================== *)
(** ** [dontorrent_scraper.py]: the exhaustive scraper                     *)
(* ===================================================================== *)

Module Exhaustive.

(** A candidate, the dictionary [_get_episodes] builds for a row. *)
Record torrent : Type := Torrent {
  status : string;
  format : string;
  title : string;
  title_original : string;
  link : string;
  episode_code : string
}.

(** What [scrape] returns: one of its three dictionaries. *)
Inductive result : Type :=
| Failure (error : string) (torrents : list torrent)
| NotFound (message : string) (torrents : list torrent) (count : nat)
| Success (torrents torrents_rest : list torrent)
          (count count_total count_rest : nat)
          (serie_name source : Py.value).

(** *** Proof of work *)

Definition pow_hit (challenge target : string) (nonce : Z) : bool :=
  Py.startswith (Sha256.hexdigest (challenge ++ Py.str_of_int nonce)) target.

(** The [while True] loop of [_compute_proof_of_work]: one iteration per
    unit of fuel, [None] when the fuel runs out before a [return].  The
    [time.sleep] every 1000 nonces changes no value. *)
Fixpoint pow_loop (fuel : nat) (challenge target : string) (nonce : Z)
  : option Z :=
  match fuel with
  | O => None
  | S fuel' =>
      if pow_hit challenge target nonce then Some nonce
      else pow_loop fuel' challenge target (nonce + 1)
  end.

Definition _compute_proof_of_work (fuel : nat) (challenge : string)
    (difficulty : Z) : option Z :=
  pow_loop fuel challenge (Py.repeat_char "0" difficulty) 0.

(** *** Episode codes *)

(** The groups of the first pattern of [patterns] that is found. *)
Definition episode_groups (title : string) : option (string * string) :=
  match Re.search Re.season_episode_at title with
  | Some g => Some g
  | None => Re.search Re.cross_at title
  end.

Definition _extract_episode_code (title : string) : option string :=
  match episode_groups title with
  | Some (season, episode) =>
      Some ("S" ++ Py.zfill 2 season ++ "E" ++ Py.zfill 2 episode)
  | None => None
  end.

(** [re.match(r'^(HD|SD)S\d{2}E\d{2}$', status)]; [$] also matches before
    a final newline. *)
Definition _is_valid_status_format (status : string) : bool :=
  match Re.quality_prefix false status with
  | Some (String s (String d1 (String d2 (String e (String d3 (String d4 r)))))) =>
      Ascii.eqb s "S" && Py.is_digit d1 && Py.is_digit d2 &&
      Ascii.eqb e "E" && Py.is_digit d3 && Py.is_digit d4 &&
      (String.eqb r EmptyString || String.eqb r (String "010" EmptyString))
  | _ => false
  end.

(** *** Quality *)

Definition valid_formats (k : string) : option string :=
  if String.eqb k "4K" then Some "4K"
  else if String.eqb k "2160P" then Some "4K"
  else if String.eqb k "1080P" then Some "1080p"
  else if String.eqb k "720P" then Some "720p"
  else None.

Definition resolution_bucket (resolution : Z) : option string :=
  if resolution >=? 2160 then Some "4K"
  else if resolution >=? 1080 then Some "1080p"
  else if resolution >=? 720 then Some "720p"
  else None.

Definition _normalize_format (raw_format : option string) : string :=
  if negb (Py.truthy raw_format) then "SD"
  else
    let raw_format := Py.strip (Py.upper (default EmptyString raw_format)) in
    match valid_formats raw_format with
    | Some v => v
    | None =>
        let bucket :=
          match Re.search Re.resolution_at raw_format with
          | Some g => resolution_bucket (Py.int_of_digits g)
          | None => None
          end in
        match bucket with
        | Some v => v
        | None =>
            if Py.contains raw_format "4K" || Py.contains raw_format "UHD"
            then "4K" else "SD"
        end
    end.

(** [_extract_series_format_category], from the raw format that
    [_extract_series_format] found in the page ([None] when none). *)
Definition _extract_series_format_category (raw_format : option string)
  : string * string :=
  let format_string := _normalize_format raw_format in
  if String.eqb format_string "4K" || String.eqb format_string "1080p"
     || String.eqb format_string "720p"
  then ("HD", format_string)
  else ("SD", format_string).

Definition _get_format_priority (format_str : string) : Z :=
  if negb (Py.truthy (Some format_str)) then 0
  else
    let format_str := Py.strip (Py.upper format_str) in
    if String.eqb format_str "720P" then 4
    else if String.eqb format_str "1080P" then 3
    else if String.eqb format_str "4K" then 2
    else if String.eqb format_str "SD" then 1
    else 0.

(** *** Range filter *)

(** [start] and [end] come from the criteria: [re.sub] raises on a value
    that is not a string, and the bare [except] returns [False]. *)
Definition _is_in_range (episode_code : string) (start end_ : Py.value)
  : bool :=
  match start, end_ with
  | Py.VStr start, Py.VStr end_ =>
      let clean_code := Re.strip_quality_prefix episode_code in
      let clean_start := Re.strip_quality_prefix start in
      let clean_end := Re.strip_quality_prefix end_ in
      match Re.search Re.season_episode_long_at clean_code with
      | None => false
      | Some (g1, g2) =>
          let current_season := Py.int_of_digits g1 in
          let current_episode := Py.int_of_digits g2 in
          if negb (Range.after_start current_season current_episode
                     (Re.search Re.season_episode_long_at clean_start))
          then false
          else Range.before_end current_season current_episode
                 (Re.search Re.season_episode_long_at clean_end)
      end
  | _, _ => false
  end.

(** *** The crawl *)

(** A [td]: its text, and its first [a] with the [data-content-id]
    attribute of that anchor. *)
Record cell : Type := Cell {
  cell_text : string;
  cell_anchor : option (option string)
}.

(** A series page: the raw format [_extract_series_format] finds in it,
    and the rows of the [tbody] of its first [table]. *)
Record series_page : Type := SeriesPage {
  raw_format : option string;
  table_rows : option (option (list (list cell)))
}.

(** An entry of [series_found]. *)
Record serie : Type := Serie {
  serie_title : string;
  serie_title_original : string;
  serie_url : string;
  serie_href : string
}.

(** The site: [_search_series], the GET of a series page ([None]: the
    request raised) and [_get_protected_download_url] ([None]: it
    raised). *)
Record world : Type := World {
  search_series : Net.trace -> Py.value -> Py.value -> list serie;
  fetch_page : Net.trace -> string -> option series_page;
  protected_download_url : Net.trace -> string -> Py.value -> option string
}.

Section Crawl.
Variable w : world.

(** The body of [for fila in filas]: the candidate of the row, if
    any. *)
Definition episode_of_row (serie_data : serie) (base_url start_episode
    end_episode : Py.value) (episode_format format_string_original : string)
    (columnas : list cell) : Net.M (option torrent) :=
  match columnas with
  | c0 :: c1 :: _ =>
      match _extract_episode_code (Py.strip (cell_text c0)) with
      | None => mret None
      | Some code =>
          let episode_code := episode_format ++ code in
          let status := episode_code in
          if negb (_is_valid_status_format status) then mret None
          else if negb (_is_in_range episode_code start_episode end_episode)
          then mret None
          else
            match cell_anchor c1 with
            | Some (Some content_id) =>
                if negb (Py.truthy (Some content_id)) then mret None
                else
                  r ← Net.ask (fun tr => protected_download_url w tr content_id base_url)
                        (Net.EvResolve content_id base_url);
                  match r with
                  | Some protected_url =>
                      mret (Some (Torrent status format_string_original
                                    (serie_title serie_data)
                                    (serie_title_original serie_data)
                                    (Py.format_value base_url ++ protected_url)
                                    episode_code))
                  | None => mret None
                  end
            | _ => mret None
            end
      end
  | _ => mret None
  end.

Definition _get_episodes (serie_data : serie) (base_url start_episode
    end_episode calidad : Py.value) : Net.M (list torrent) :=
  page ← Net.ask (fun tr => fetch_page w tr (serie_url serie_data))
           (Net.EvFetch (serie_url serie_data));
  match page with
  | None => mret []
  | Some page =>
      let '(episode_format, format_string_original) :=
        _extract_series_format_category (raw_format page) in
      match table_rows page with
      | Some (Some filas) =>
          Net.for_each
            (fun torrents fila =>
               t ← episode_of_row serie_data base_url start_episode
                     end_episode episode_format format_string_original fila;
               mret (match t with
                     | Some t => (torrents ++ [t])%list
                     | None => torrents
                     end))
            filas []
      | _ => mret []
      end
  end.

(** The dictionary [unique_torrents], in insertion order. *)
Definition dict_mem (k : string) (d : list (string * torrent)) : bool :=
  existsb (fun kv => String.eqb (fst kv) k) d.

(** [for torrent in all_torrents]: first of its status or duplicate. *)
Fixpoint split_by_status (all_torrents : list torrent)
    (unique_torrents : list (string * torrent)) (rest_torrents : list torrent)
  : list (string * torrent) * list torrent :=
  match all_torrents with
  | [] => (unique_torrents, rest_torrents)
  | t :: r =>
      if negb (dict_mem (status t) unique_torrents)
      then split_by_status r (unique_torrents ++ [(status t, t)])%list rest_torrents
      else split_by_status r unique_torrents (rest_torrents ++ [t])%list
  end.

(** [all_torrents.sort(key=priority, reverse=True)]: stable, the
    higher priority first. *)
Definition sort_by_priority (all_torrents : list torrent) : list torrent :=
  Py.stable_sort
    (fun a b => _get_format_priority (format b) <=? _get_format_priority (format a))
    all_torrents.

(** Steps 3 and 4 of [scrape], on the candidates gathered. *)
Definition select (all_torrents : list torrent) (serie_name base_url : Py.value)
  : result :=
  let all_torrents := sort_by_priority all_torrents in
  let '(unique_torrents, rest_torrents) := split_by_status all_torrents [] [] in
  let filtered_torrents := List.map snd unique_torrents in
  Success filtered_torrents rest_torrents
          (List.length filtered_torrents) (List.length all_torrents)
          (List.length rest_torrents) serie_name base_url.

(** Step 2 of [scrape]: the candidates of every series found. *)
Definition gather (series_found : list serie) (base_url start_episode
    end_episode calidad : Py.value) : Net.M (list torrent) :=
  Net.for_each
    (fun all_torrents serie_data =>
       episodes ← _get_episodes serie_data base_url start_episode
                    end_episode calidad;
       mret (all_torrents ++ episodes)%list)
    series_found [].

(** No call of the [try] block lets an exception out, so the final
    [except] clause of [scrape] has no case here. *)
Definition scrape (criteria : gmap string Py.value) : Net.M result :=
  let base_url := Py.dict_get criteria "base_url" in
  let serie_name := Py.dict_get criteria "serie_name" in
  let start_episode := Py.dict_get criteria "start_episode" in
  let end_episode := Py.dict_get criteria "end_episode" in
  let calidad := Py.dict_get criteria "calidad" in
  if negb (forallb Py.value_truthy
             [base_url; serie_name; start_episode; end_episode])
  then mret (Failure
               "Faltan parámetros requeridos: base_url, serie_name, start_episode, end_episode"
               [])
  else
    series_found ← Net.ask (fun tr => search_series w tr base_url serie_name)
                     (Net.EvSearch base_url serie_name);
    match series_found with
    | [] =>
        mret (NotFound ("No se encontraron series para '"
                        ++ Py.format_value serie_name ++ "'") [] 0)
    | _ =>
        all_torrents ← gather series_found base_url start_episode
                         end_episode calidad;
        mret (select all_torrents serie_name base_url)
    end.
End Crawl.

End Exhaustive.

(* ===================================================================== *)
(** ** [dontorrent_fast_scraper.py]: the early-exit scraper                *)
(* ===================================================================== *)

Module Fast.

(** The dictionary [_get_best_torrent_for_episode] returns. *)
Record torrent : Type := Torrent {
  episode_code : string;
  title : string;
  link : string;
  format : string;
  category : string;
  status : string
}.

Record result : Type := Result {
  torrents : list torrent;
  count : nat;
  serie_name : Py.value;
  source : Py.value
}.

Inductive exn : Type :=
| ValueError (msg : string)
| AttributeError
| TypeError.

(** A call returns or raises. *)
Inductive outcome (A : Type) : Type :=
| Returned (a : A)
| Raised (e : exn).
Arguments Returned {A} a.
Arguments Raised {A} e.

(** *** Proof of work *)

Definition pow_hit (challenge target : string) (nonce : Z) : bool :=
  Py.startswith (Sha256.hexdigest (challenge ++ Py.str_of_int nonce)) target.

Definition safety_limit : Z := 10000000.

(** The [while True] loop of [_compute_proof_of_work]: one iteration per
    unit of fuel, [None] when the fuel runs out before a [return]. *)
Fixpoint pow_loop (fuel : nat) (challenge target : string) (nonce : Z)
  : option Z :=
  match fuel with
  | O => None
  | S fuel' =>
      if pow_hit challenge target nonce then Some nonce
      else
        let nonce := nonce + 1 in
        if nonce >? safety_limit then Some (-1)
        else pow_loop fuel' challenge target nonce
  end.

Definition _compute_proof_of_work_fuel (fuel : nat) (challenge : string)
    (difficulty : Z) : option Z :=
  pow_loop fuel challenge (Py.repeat_char "0" difficulty) 0.

(** The loop returns within [safety_limit + 1] iterations
    ([pow_loop_returns] below), so this much fuel gives its value. *)
Definition _compute_proof_of_work (challenge : string) (difficulty : Z) : Z :=
  default (-1)
    (_compute_proof_of_work_fuel (Z.to_nat (safety_limit + 1)) challenge difficulty).

(** *** Quality *)

Definition formats : list string :=
  ["4K"; "2160p"; "1080p"; "720p"; "HDRip"; "WEBRip"; "BluRay"].

(** [_extract_series_format], on [soup.get_text()]. *)
Definition _extract_series_format (text : string) : option string :=
  List.find (fun fmt => Py.contains text fmt) formats.

Definition _extract_series_format_category (text : string) : string * string :=
  match _extract_series_format text with
  | Some format_found =>
      if Py.truthy (Some format_found)
      then
        let format_str := format_found in
        let u := Py.upper format_str in
        if String.eqb u "720P" || String.eqb u "1080P" || String.eqb u "4K"
           || String.eqb u "2160P"
        then ("HD", format_str) else ("SD", format_str)
      else ("HD", "SD")
  | None => ("HD", "SD")
  end.

Definition _normalize_format (format_str : string) : string :=
  if negb (Py.truthy (Some format_str)) then "SD"
  else
    let format_upper := Py.upper format_str in
    if Py.contains format_upper "4K" || Py.contains format_upper "2160P"
    then "4K"
    else if Py.contains format_upper "1080P" || Py.contains format_upper "1080"
    then "1080p"
    else if Py.contains format_upper "720P" || Py.contains format_upper "720"
    then "720p"
    else
      match Re.search Re.number_at format_str with
      | Some g =>
          let resolution := Py.int_of_digits g in
          if resolution >=? 2160 then "4K"
          else if resolution >=? 1080 then "1080p"
          else if resolution >=? 720 then "720p"
          else "SD"
      | None => "SD"
      end.

(** *** Range filter *)

Definition _is_in_range (episode_code : string)
    (start_episode end_episode : option string) : bool :=
  if negb (Py.truthy start_episode) && negb (Py.truthy end_episode) then true
  else
    match Re.search Re.prefixed_season_episode_at episode_code with
    | None => false
    | Some (g1, g2) =>
        let current_season := Py.int_of_digits g1 in
        let current_episode := Py.int_of_digits g2 in
        let start_ok :=
          if Py.truthy start_episode
          then Range.after_start current_season current_episode
                 (Re.search Re.prefixed_season_episode_at
                    (default EmptyString start_episode))
          else true in
        if negb start_ok then false
        else if Py.truthy end_episode
        then Range.before_end current_season current_episode
               (Re.search Re.prefixed_season_episode_at
                  (default EmptyString end_episode))
        else true
    end.

(** [re.match] of [(?:HD|SD)?S(\d+)E\d+] on the upper-cased code; on an
    upper-cased string the case-insensitive matcher of [Re] finds what the
    case-sensitive pattern finds. *)
Definition _extract_season_from_episode (episode_code : Py.value) : outcome Z :=
  if negb (Py.value_truthy episode_code)
  then Raised (ValueError "El código de episodio no puede estar vacío")
  else
    match episode_code with
    | Py.VStr code =>
        match Re.prefixed_season_episode_at (Py.upper code) with
        | Some (g1, _) => Returned (Py.int_of_digits g1)
        | None =>
            Raised (ValueError ("Formato de episodio inválido: " ++ code
                                ++ ". Debe ser SxxExx o [HD|SD]SxxExx"))
        end
    | _ => Raised AttributeError
    end.

(** *** The crawl *)

(** A page as the selectors see it: [soup.get_text()], the [href] of
    the series links of the search results, the [href] and text of the
    episode links, the [href] of the download buttons. *)
Record page : Type := Page {
  page_text : string;
  portfolio_links : list string;
  episode_links : list (string * string);
  download_links : list string
}.

(** The JSON of a challenge: its [challenge] and [difficulty] keys. *)
Record challenge_data : Type := ChallengeData {
  challenge : option string;
  difficulty : option Z
}.

(** The JSON of a validation: its [status] and [download_url] keys. *)
Record validate_data : Type := ValidateData {
  validate_status : option string;
  validate_download_url : option string
}.

(** The site.  [None] is a request that raised, or for [get_html] a
    page that could not be had. *)
Record world : Type := World {
  get_html : Net.trace -> string -> option page;
  get_json : Net.trace -> string -> option challenge_data;
  post_json : Net.trace -> string -> Z -> option validate_data
}.

Section Crawl.
Variable w : world.

Definition _get_protected_download_url (download_url : string)
  : Net.M (option string) :=
  data ← Net.ask (fun tr => get_json w tr download_url)
           (Net.EvChallenge download_url);
  match data with
  | Some (ChallengeData (Some challenge) difficulty) =>
      let difficulty := default 4 difficulty in
      nonce ← Net.ask (fun _ => _compute_proof_of_work challenge difficulty)
                (Net.EvPow challenge difficulty);
      let validate_url := Py.replace "/generate/" "/validate/" download_url in
      validate_data ← Net.ask (fun tr => post_json w tr validate_url nonce)
                        (Net.EvValidate validate_url nonce);
      match validate_data with
      | Some (ValidateData (Some st) download_url) =>
          if String.eqb st "success" then mret download_url else mret None
      | _ => mret None
      end
  | _ => mret None
  end.

Definition candidate (soup : page) (episode_code episode_text final_link : string)
  : torrent :=
  let '(category, format_str) := _extract_series_format_category (page_text soup) in
  let normalized_format := _normalize_format format_str in
  Torrent episode_code (episode_text ++ " " ++ normalized_format) final_link
          normalized_format category episode_text.

(** [for download_link in download_links], for one [target_format]:
    the candidate returned from inside the loop, if any. *)
Fixpoint scan_links (soup : page) (episode_code episode_text base_url
    target_format : string) (links : list string) : Net.M (option torrent) :=
  match links with
  | [] => mret None
  | download_link :: rest =>
      let download_url := base_url ++ download_link in
      let '(category, format_str) :=
        _extract_series_format_category (page_text soup) in
      let normalized_format := _normalize_format format_str in
      if String.eqb (Py.upper normalized_format) target_format
      then
        final_link ← _get_protected_download_url download_url;
        match final_link with
        | Some (String c l) =>
            mret (Some (candidate soup episode_code episode_text (String c l)))
        | _ => scan_links soup episode_code episode_text base_url
                 target_format rest
        end
      else scan_links soup episode_code episode_text base_url
             target_format rest
  end.

(** [for target_format in priority_order] *)
Fixpoint scan_formats (soup : page) (episode_code episode_text base_url : string)
    (priority_order : list string) : Net.M (option torrent) :=
  match priority_order with
  | [] => mret None
  | target_format :: rest =>
      r ← scan_links soup episode_code episode_text base_url target_format
            (download_links soup);
      match r with
      | Some t => mret (Some t)
      | None => scan_formats soup episode_code episode_text base_url rest
      end
  end.

Definition _get_best_torrent_for_episode (episode_url episode_code
    episode_text base_url : string) (priority_order : list string)
  : Net.M (option torrent) :=
  soup ← Net.ask (fun tr => get_html w tr episode_url) (Net.EvFetch episode_url);
  match soup with
  | None => mret None
  | Some soup =>
      match download_links soup with
      | [] => mret None
      | download_link :: _ =>
          r ← scan_formats soup episode_code episode_text base_url priority_order;
          match r with
          | Some t => mret (Some t)
          | None =>
              let download_url := base_url ++ download_link in
              final_link ← _get_protected_download_url download_url;
              match final_link with
              | Some (String c l) =>
                  mret (Some (candidate soup episode_code episode_text (String c l)))
              | _ => mret None
              end
          end
      end
  end.

Definition PRIORITY_ORDER : list string := ["720P"; "1080P"; "4K"; "SD"].

(** [torrents.sort(key=lambda x: x['episode_code'])] *)
Definition sort_by_episode (l : list torrent) : list torrent :=
  Py.stable_sort (fun a b => String.leb (episode_code a) (episode_code b)) l.

(** The body of [for link in episode_links]. *)
Definition episode_of_link (start_episode end_episode : option string)
    (base_url : string) (link : string * string) : Net.M (option torrent) :=
  let '(href, episode_text) := link in
  let episode_url := base_url ++ href in
  match Re.search Re.season_episode_long_at episode_text with
  | None => mret None
  | Some (g1, g2) =>
      let episode_code := "S" ++ Py.zfill 2 g1 ++ "E" ++ Py.zfill 2 g2 in
      if negb (_is_in_range episode_code start_episode end_episode)
      then mret None
      else _get_best_torrent_for_episode episode_url episode_code
             episode_text base_url PRIORITY_ORDER
  end.

Definition _get_episodes (series_url : string) (season : Z)
    (start_episode end_episode : option string) (base_url : string)
  : Net.M (list torrent) :=
  let season_str := Py.zfill 2 (Py.str_of_int season) in
  let season_url := series_url ++ "/temporada-" ++ season_str in
  soup ← Net.ask (fun tr => get_html w tr season_url) (Net.EvFetch season_url);
  match soup with
  | None => mret []
  | Some soup =>
      torrents ←
        Net.for_each
          (fun torrents link =>
             best_torrent ← episode_of_link start_episode end_episode base_url link;
             mret (match best_torrent with
                   | Some t => (torrents ++ [t])%list
                   | None => torrents
                   end))
          (episode_links soup) [];
      mret (sort_by_episode torrents)
  end.

(** [for link in links] of [_search_series]; [base_url + href] raises
    on a [base_url] that is not a string, which the outer [except]
    turns into [None]. *)
Fixpoint first_series (base_url calidad : Py.value) (links : list string)
  : Net.M (option string) :=
  match links with
  | [] => mret None
  | href :: rest =>
      match base_url with
      | Py.VStr b =>
          let series_url := b ++ href in
          if negb (Py.value_truthy calidad) then mret (Some series_url)
          else
            series_soup ← Net.ask (fun tr => get_html w tr series_url)
                            (Net.EvFetch series_url);
            match series_soup, calidad with
            | Some series_soup, Py.VStr calidad_str =>
                let '(category, _) :=
                  _extract_series_format_category (page_text series_soup) in
                if String.eqb (Py.upper category) (Py.upper calidad_str)
                then mret (Some series_url)
                else first_series base_url calidad rest
            | _, _ => first_series base_url calidad rest
            end
      | _ => mret None
      end
  end.

Definition _search_series (serie_name base_url calidad : Py.value)
  : Net.M (outcome (option string)) :=
  match serie_name with
  | Py.VStr name =>
      let search_url :=
        Py.format_value base_url ++ "/buscar/" ++ Py.replace " " "+" name in
      soup ← Net.ask (fun tr => get_html w tr search_url) (Net.EvFetch search_url);
      match soup with
      | None => mret (Returned None)
      | Some soup =>
          r ← first_series base_url calidad (portfolio_links soup);
          mret (Returned r)
      end
  | _ => mret (Raised AttributeError)
  end.

Definition as_str (v : Py.value) : option string :=
  match v with
  | Py.VStr s => Some s
  | _ => None
  end.

(** [range(a, b + 1)] *)
Definition seasons (a b : Z) : list Z :=
  List.map (fun i => a + Z.of_nat i) (List.seq 0 (Z.to_nat (b + 1 - a))).

Definition scrape (criteria : gmap string Py.value) : Net.M (outcome result) :=
  let base_url := Py.dict_get criteria "base_url" in
  let serie_name := Py.dict_get criteria "serie_name" in
  let start_episode := Py.dict_get criteria "start_episode" in
  let end_episode := Py.dict_get criteria "end_episode" in
  let calidad := Py.dict_get criteria "calidad" in
  if negb (forallb Py.value_truthy
             [base_url; serie_name; start_episode; end_episode])
  then mret (Raised (ValueError
         "Se requieren 'base_url', 'serie_name', 'start_episode' y 'end_episode'"))
  else
    match _extract_season_from_episode start_episode with
    | Raised e => mret (Raised e)
    | Returned start_season =>
        match (if Py.value_truthy end_episode
               then _extract_season_from_episode end_episode
               else Returned start_season) with
        | Raised e => mret (Raised e)
        | Returned end_season =>
            series_url ← _search_series serie_name base_url calidad;
            match series_url with
            | Raised e => mret (Raised e)
            | Returned None => mret (Returned (Result [] 0 serie_name base_url))
            | Returned (Some EmptyString) =>
                mret (Returned (Result [] 0 serie_name base_url))
            | Returned (Some series_url) =>
                torrents ←
                  Net.for_each
                    (fun torrents season =>
                       season_torrents ←
                         _get_episodes series_url season (as_str start_episode)
                           (as_str end_episode) (Py.format_value base_url);
                       mret (torrents ++ season_torrents)%list)
                    (seasons start_season end_season) [];
                let torrents := sort_by_episode torrents in
                mret (Returned (Result torrents (List.length torrents)
                                  serie_name base_url))
            end
        end
    end.
End Crawl.

End Fast.

(* ===================================================================== *)
(** ** Vocabulary of the statements                                        *)
(* ===================================================================== *)

Module Props.

(** The outcomes of the fast loop from [start]: the first hit at or below
    the limit, or [-1] when there is none. *)
Definition fast_pow_spec (challenge target : string) (start r : Z) : Prop :=
  (start <= r <= Fast.safety_limit /\
   Fast.pow_hit challenge target r = true /\
   forall m, start <= m < r -> Fast.pow_hit challenge target m = false)
  \/
  (r = -1 /\
   forall m, start <= m <= Fast.safety_limit ->
             Fast.pow_hit challenge target m = false).

(** A non-empty run of decimal digits. *)
Fixpoint all_digits (s : string) : bool :=
  match s with
  | EmptyString => true
  | String c r => Py.is_digit c && all_digits r
  end.

Definition digits (s : string) : bool := Re.nonempty s && all_digits s.

(** An episode code in its parts: the optional quality prefix, the
    digits of the season and those of the episode. *)
Record code : Type := Code {
  quality : string;
  season : string;
  episode : string
}.

Definition render (c : code) : string :=
  quality c ++ "S" ++ season c ++ "E" ++ episode c.

Definition quality_ok (q : string) : bool :=
  String.eqb q EmptyString || String.eqb q "HD" || String.eqb q "SD".

(** Optional HD/SD, then SxxEyy. *)
Definition well_formed (c : code) : bool :=
  quality_ok (quality c) && digits (season c) && digits (episode c).

Definition season_number (c : code) : Z := Py.int_of_digits (season c).
Definition episode_number (c : code) : Z := Py.int_of_digits (episode c).

(** The four reasons to leave a code out of a range. *)
Definition excluded (c start end_ : code) : Prop :=
  season_number c < season_number start
  \/ season_number c > season_number end_
  \/ (season_number c = season_number start
      /\ episode_number c < episode_number start)
  \/ (season_number c = season_number end_
      /\ episode_number c > episode_number end_).

(** The four canonical qualities. *)
Definition canonical (s : string) : Prop :=
  s = "4K" \/ s = "1080p" \/ s = "720p" \/ s = "SD".

(** The shapes [(\d{1,2})] can take. *)
Definition one_or_two (g : string) : Prop :=
  (exists a, g = String a EmptyString /\ Py.is_digit a = true)
  \/ (exists a b, g = String a (String b EmptyString)
                  /\ Py.is_digit a = true /\ Py.is_digit b = true).

(** The shape of [(\d{1,3})] when it is not one of the above. *)
Definition three (g : string) : Prop :=
  exists a b c, g = String a (String b (String c EmptyString))
                /\ Py.is_digit a = true /\ Py.is_digit b = true
                /\ Py.is_digit c = true.

(** The key of the exhaustive sort. *)
Definition priority (t : Exhaustive.torrent) : Z :=
  Exhaustive._get_format_priority (Exhaustive.format t).


(** The canonical code of a row of the exhaustive crawl, when the row
    has one. *)
Definition row_code (episode_format : string) (columnas : list Exhaustive.cell)
  : option string :=
  match columnas with
  | c0 :: _ :: _ =>
      match Exhaustive._extract_episode_code (Py.strip (Exhaustive.cell_text c0)) with
      | Some code => Some (episode_format ++ code)
      | None => None
      end
  | _ => None
  end.

(** The content identifier of the anchor of the second cell. *)
Definition row_content_id (columnas : list Exhaustive.cell) : option string :=
  match columnas with
  | _ :: c1 :: _ =>
      match Exhaustive.cell_anchor c1 with
      | Some (Some content_id) => Some content_id
      | _ => None
      end
  | _ => None
  end.

(** The code of an episode link of the early-exit crawl. *)
Definition link_code (link : string * string) : option string :=
  match Re.search Re.season_episode_long_at (snd link) with
  | Some (g1, g2) => Some ("S" ++ Py.zfill 2 g1 ++ "E" ++ Py.zfill 2 g2)
  | None => None
  end.

(** The quality the early-exit scan compares with each tier: that of
    the page. *)
Definition page_format (soup : Fast.page) : string :=
  Fast._normalize_format
    (snd (Fast._extract_series_format_category (Fast.page_text soup))).

(** The protected links the early-exit scan resolves, in this order,
    until one resolution gives a link: every download link of the page,
    once for each tier equal to the quality of the page; then the first
    download link. *)
Definition attempt_order (soup : Fast.page) (base_url : string)
    (priority_order : list string) : list string :=
  (List.concat
     (List.map
        (fun target_format =>
           if String.eqb (Py.upper (page_format soup)) target_format
           then List.map (String.append base_url) (Fast.download_links soup)
           else [])
        priority_order)
   ++ List.map (String.append base_url)
        (List.firstn 1 (Fast.download_links soup)))%list.

Section Resolution.
Variable w : Fast.world.

(** Resolve the links in order; stop at the first that gives a link. *)
Fixpoint first_resolved (urls : list string) : Net.M (option string) :=
  match urls with
  | [] => mret None
  | u :: r =>
      x ← Fast._get_protected_download_url w u;
      match x with
      | Some (String c l) => mret (Some (String c l))
      | _ => first_resolved r
      end
  end.
End Resolution.

(** The fields [scrape] requires. *)
Definition required : list string :=
  ["base_url"; "serie_name"; "start_episode"; "end_episode"].

(** A computation only adds events to the trace. *)
Definition grows {A} (m : Net.M A) : Prop :=
  forall tr, exists evs, snd (m tr) = (tr ++ evs)%list.

(** The events of a row of the exhaustive crawl: none, or the one call
    of the link resolver, for a row whose code is valid and in range. *)
Definition row_events (start_episode end_episode base_url : Py.value)
    (episode_format : string) (columnas : list Exhaustive.cell)
    (evs : list Net.event) : Prop :=
  evs = []
  \/ exists code content_id,
       evs = [Net.EvResolve content_id base_url]
       /\ row_code episode_format columnas = Some code
       /\ Exhaustive._is_valid_status_format code = true
       /\ Exhaustive._is_in_range code start_episode end_episode = true
       /\ row_content_id columnas = Some content_id.

(** The events of an episode link of the early-exit crawl: none, unless
    the code of the link is in range. *)
Definition link_events (start_episode end_episode : option string)
    (link : string * string) (evs : list Net.event) : Prop :=
  evs = []
  \/ exists code,
       link_code link = Some code
       /\ Fast._is_in_range code start_episode end_episode = true.

(** The events of one resolution that gets its challenge. *)
Definition resolution_events (download_url challenge : string) (difficulty : Z)
  : list Net.event :=
  [Net.EvChallenge download_url;
   Net.EvPow challenge difficulty;
   Net.EvValidate (Py.replace "/generate/" "/validate/" download_url)
     (Fast._compute_proof_of_work challenge difficulty)].

End Props.

(* ===================================================================== *)
(** ** Sites and requests used as concrete inputs                          *)
(* ===================================================================== *)

Module Sites.

Definition base_url : string := "https://site.example".

(** A server that answers every challenge request with the challenge
    [abc] and accepts every nonce; the link it releases names the
    validation endpoint it was asked at. *)
Definition challenge_always (tr : Net.trace) (url : string)
  : option Fast.challenge_data :=
  Some (Fast.ChallengeData (Some "abc") None).

Definition accept_always (tr : Net.trace) (url : string) (nonce : Z)
  : option Fast.validate_data :=
  Some (Fast.ValidateData (Some "success") (Some ("released:" ++ url))).

(** An episode page offering S01E01 in 4K and in 720p, the 4K button
    first. *)
Definition two_formats_page : Fast.page :=
  Fast.Page "Serie S01E01 Descargar 4K Descargar 720p" [] []
    ["/download-torrent/generate/4k/11"; "/download-torrent/generate/720p/12"].

Definition two_formats_site : Fast.world :=
  Fast.World (fun _ _ => Some two_formats_page) challenge_always accept_always.

(** An episode page in 720p with two download buttons, on a site whose
    challenge endpoint fails for the first of them. *)
Definition two_links_page : Fast.page :=
  Fast.Page "Serie S01E01 Descargar 720p" [] []
    ["/download-torrent/generate/1"; "/download-torrent/generate/2"].

Definition flaky_site : Fast.world :=
  Fast.World
    (fun _ _ => Some two_links_page)
    (fun tr url =>
       if String.eqb url (base_url ++ "/download-torrent/generate/1")
       then None else challenge_always tr url)
    accept_always.

(** A site without pages. *)
Definition empty_site : Fast.world :=
  Fast.World (fun _ _ => None) (fun _ _ => None) (fun _ _ _ => None).

(** A request that lacks [start_episode]. *)
Definition no_start_episode : gmap string Py.value :=
  <["base_url" := Py.VStr base_url]>
    (<["serie_name" := Py.VStr "Serie"]>
       (<["end_episode" := Py.VStr "S01E02"]> ∅)).

Definition full_request : gmap string Py.value :=
  <["start_episode" := Py.VStr "S01E01"]> no_start_episode.

(** A catalogue with one series page: S01E01 twice (two rows), S01E02
    and, out of the range of [full_request], S01E03. *)
Definition row (label content_id : string) : list Exhaustive.cell :=
  [Exhaustive.Cell label None; Exhaustive.Cell "Descargar" (Some (Some content_id))].

Definition catalogue_page : Exhaustive.series_page :=
  Exhaustive.SeriesPage (Some "720P")
    (Some (Some [row "1x01" "101"; row "1x01" "102"; row "1x02" "103";
                 row "1x03" "104"])).

Definition catalogue : Exhaustive.world :=
  Exhaustive.World
    (fun _ _ _ => [Exhaustive.Serie "Serie" "Serie - 1 Temporada"
                     (base_url ++ "/serie/1") "/serie/1"])
    (fun _ _ => Some catalogue_page)
    (fun _ content_id _ => Some ("/torrents/" ++ content_id)).

End Sites.

(* ===================================================================== *)
(** ** More of Python: [lower], [split], [int], [in]                       *)
(* ===================================================================== *)

Module Builtins.

(** [c.lower()] on ASCII. *)
Definition lower_char (c : ascii) : ascii :=
  let n := nat_of_ascii c in
  if (65 <=? n)%nat && (n <=? 90)%nat then ascii_of_nat (n + 32) else c.

(** [s.lower()] *)
Fixpoint lower (s : string) : string :=
  match s with
  | EmptyString => EmptyString
  | String c r => String (lower_char c) (lower r)
  end.

(** [s.split(sep)] for a one-character [sep]: the pieces between its
    occurrences, at least one piece. *)
Fixpoint split_char (sep : ascii) (s : string) : list string :=
  match s with
  | EmptyString => [EmptyString]
  | String c r =>
      if Ascii.eqb c sep then EmptyString :: split_char sep r
      else match split_char sep r with
           | p :: ps => String c p :: ps
           | [] => [String c EmptyString]
           end
  end.

(** [l[i]] where the index is known to exist. *)
Definition item (i : nat) (l : list string) : string :=
  List.nth i l EmptyString.

(** [s.split(sep, 1)] for a non-empty [sep]: what precedes and what
    follows the first occurrence; [None] when there is none, the list
    then has the one element [s]. *)
Fixpoint split_once (sep s : string) : option (string * string) :=
  if Py.startswith s sep
  then Some (EmptyString,
             substring (String.length sep)
               (String.length s - String.length sep) s)
  else match s with
       | EmptyString => None
       | String c r =>
           match split_once sep r with
           | Some (a, b) => Some (String c a, b)
           | None => None
           end
       end.

(** The digits of a literal given to [int]: single underscores may
    separate them.  [after_digit] says that the character before is a
    digit; [None] is [ValueError]. *)
Fixpoint digits_value (after_digit : bool) (acc : Z) (s : string) : option Z :=
  match s with
  | EmptyString => if after_digit then Some acc else None
  | String c r =>
      if Py.is_digit c then digits_value true (10 * acc + Py.digit_val c) r
      else if Ascii.eqb c "_" && after_digit then digits_value false acc r
      else None
  end.

(** [sys.get_int_max_str_digits()], as CPython starts: [int] raises
    [ValueError] on a literal that has more digits, the zeros in front
    counted. *)
Definition int_max_str_digits : nat := 4300.

(** The number of digits of a literal. *)
Fixpoint count_digits (s : string) : nat :=
  match s with
  | EmptyString => 0%nat
  | String c r => if Py.is_digit c then S (count_digits r) else count_digits r
  end.

(** The digits of a literal within the limit; [None] is [ValueError]. *)
Definition limited_digits (s : string) : option Z :=
  if (int_max_str_digits <? count_digits s)%nat then None
  else digits_value false 0 s.

(** [int(s)] for a string: the whitespace around is dropped, a sign may
    come first; [None] is [ValueError]. *)
Definition int_of_str (s : string) : option Z :=
  match Py.strip s with
  | EmptyString => None
  | String c r =>
      if Ascii.eqb c "+" then limited_digits r
      else if Ascii.eqb c "-" then option_map Z.opp (limited_digits r)
      else limited_digits (String c r)
  end.

(** [int(g)] for a group [(\d+)] of a match: a run of digits; [None] is
    the [ValueError] of a run beyond the limit. *)
Definition int_of_group (g : string) : option Z :=
  if (int_max_str_digits <? String.length g)%nat then None
  else Some (Py.int_of_digits g).

(** [k in d] *)
Definition has_key {V} (d : gmap string V) (k : string) : bool :=
  match d !! k with
  | Some _ => true
  | None => false
  end.

(** [\w] on ASCII: a letter, a digit or the underscore. *)
Definition is_word (c : ascii) : bool :=
  let n := nat_of_ascii c in
  Py.is_digit c || ((65 <=? n)%nat && (n <=? 90)%nat)
  || ((97 <=? n)%nat && (n <=? 122)%nat) || Ascii.eqb c "_".

(** All the characters of an ASCII string are below 128. *)
Fixpoint is_ascii (s : string) : bool :=
  match s with
  | EmptyString => true
  | String c r => (nat_of_ascii c <? 128)%nat && is_ascii r
  end.

End Builtins.

(* ===================================================================== *)
(** ** [dontorrent_scraper.py]: criteria, series search, link resolver     *)
(* ===================================================================== *)

Module Dontorrent.

Definition required : list string :=
  ["base_url"; "serie_name"; "start_episode"; "end_episode"].

(** [all(key in criteria for key in required)] *)
Definition validate_criteria (criteria : gmap string Py.value) : bool :=
  forallb (Builtins.has_key criteria) required.

(** [_episode_to_number]; [None] is the [ValueError] of [int]. *)
Definition _episode_to_number (episode_code : string) : option Z :=
  let clean_code := Re.strip_quality_prefix episode_code in
  if Py.contains clean_code "S" && Py.contains clean_code "E"
  then
    season ← Builtins.int_of_str
               (Builtins.item 0
                  (Builtins.split_char "E"
                     (Builtins.item 1 (Builtins.split_char "S" clean_code))));
    episode ← Builtins.int_of_str
                (Builtins.item 1 (Builtins.split_char "E" clean_code));
    Some (season * 1000 + episode)
  else Some 0.

(** *** Series names *)

Definition separators : list string :=
  [" - "; " – "; " | "; " : "; " temporada "; " season "].

(** A character that [re.sub(r'[^\w\sÀ-ÿ]', '', ...)] keeps.  On ASCII
    these are the letters, the digits, the underscore and the whitespace;
    the bytes of a character beyond ASCII are kept. *)
Definition kept (c : ascii) : bool :=
  Builtins.is_word c || Py.is_space c || (128 <=? nat_of_ascii c)%nat.

(** [re.sub(r'[^\w\sÀ-ÿ]', '', s)] *)
Fixpoint clean (s : string) : string :=
  match s with
  | EmptyString => EmptyString
  | String c r => if kept c then String c (clean r) else clean r
  end.

(** [for separator in separators]: the name cut at the first separator
    that is in the title, when the cut succeeds. *)
Fixpoint name_before (title : string) (separators : list string)
  : option string :=
  match separators with
  | [] => None
  | separator :: rest =>
      if Py.contains (Builtins.lower title) (Builtins.lower separator)
      then match Builtins.split_once separator title with
           | Some (head, _) => Some (Py.strip (clean (Py.strip head)))
           | None => name_before title rest
           end
      else name_before title rest
  end.

Definition _extract_series_name_from_title (title : string) : string :=
  match name_before title separators with
  | Some series_name => series_name
  | None => Py.strip (clean title)
  end.

Definition _matches_series_name (title search_name : string) : bool * string :=
  let series_name_from_title := _extract_series_name_from_title title in
  let title_norm :=
    Py.replace " " EmptyString (Builtins.lower series_name_from_title) in
  let search_norm := Py.replace " " EmptyString (Builtins.lower search_name) in
  (String.eqb title_norm search_norm
   || Py.startswith title_norm search_norm
   || Py.startswith search_norm title_norm,
   series_name_from_title).

(** *** The search *)

(** The search page: for the POST of [valor] to [search_url], the [href]
    and the text of the anchors whose [href] has [/serie/]; [None] when
    the request raised. *)
Record search_site : Type := SearchSite {
  post_search : Net.trace -> string -> Py.value -> option (list (string * string))
}.

(** [for link in series_links] *)
Fixpoint series_loop (base_url : Py.value) (serie_name : string)
    (series_links : list (string * string))
    (series_found : list Exhaustive.serie) : list Exhaustive.serie :=
  match series_links with
  | [] => series_found
  | (href, text) :: rest =>
      let title := Py.strip text in
      let '(match_serie, series_name_extracted) :=
        _matches_series_name title serie_name in
      series_loop base_url serie_name rest
        (if match_serie
         then (series_found
               ++ [Exhaustive.Serie series_name_extracted title
                     (Py.format_value base_url ++ href) href])%list
         else series_found)
  end.

(** [_search_series]: a [serie_name] that is no string makes
    [search_name.lower()] raise at the first link, and the [except]
    clause returns the empty list. *)
Definition _search_series (s : search_site) (base_url serie_name : Py.value)
  : Net.M (list Exhaustive.serie) :=
  let search_url := Py.format_value base_url ++ "/buscar" in
  series_links ← Net.ask (fun tr => post_search s tr search_url serie_name)
                   (Net.EvSearch base_url serie_name);
  match series_links, serie_name with
  | Some series_links, Py.VStr name =>
      mret (series_loop base_url name series_links [])
  | _, _ => mret []
  end.

(** *** The quality shown by a series page *)

(** [(\d{3,4}p|4K)], IGNORECASE, at the head of [s]: the group and what
    follows it.  Four digits that no p follows leave no match to three
    of them, the fourth is a digit. *)
Definition resolution_tag_at (s : string) : option (string * string) :=
  let '(d, t) := Py.take_digits 4 s in
  let digits_p :=
    match t with
    | String p t' =>
        if (3 <=? String.length d)%nat && Py.eqb_nocase p "p"
        then Some (d ++ String p EmptyString, t') else None
    | EmptyString => None
    end in
  match digits_p with
  | Some r => Some r
  | None =>
      match s with
      | String a (String k t') =>
          if Ascii.eqb a "4" && Py.eqb_nocase k "K"
          then Some (String a (String k EmptyString), t') else None
      | _ => None
      end
  end.

(** [\[(\d{3,4}p|4K)\]], IGNORECASE, at the head of [s]: group 1. *)
Definition bracketed_tag_at (s : string) : option string :=
  match s with
  | String b r =>
      if Ascii.eqb b "["
      then match resolution_tag_at r with
           | Some (g, String c _) => if Ascii.eqb c "]" then Some g else None
           | _ => None
           end
      else None
  | EmptyString => None
  end.

(** The longest prefix without whitespace and without [<]. *)
Fixpoint span_value (s : string) : string :=
  match s with
  | EmptyString => EmptyString
  | String c r =>
      if Py.is_space c || Ascii.eqb c "<" then EmptyString
      else String c (span_value r)
  end.

(** [Formato:\s*([^\s<]+)] at the head of [s]: group 1. *)
Definition formato_at (s : string) : option string :=
  if Py.startswith s "Formato:"
  then
    let v := span_value (Py.lstrip (substring 8 (String.length s - 8) s)) in
    if Re.nonempty v then Some v else None
  else None.

(** A word character for [\b]: [\w] on ASCII; the bytes of a character
    beyond ASCII count as letters. *)
Definition word_char (c : ascii) : bool :=
  Builtins.is_word c || (128 <=? nat_of_ascii c)%nat.

(** [s] starts with [p], without regard to case. *)
Fixpoint startswith_nocase (s p : string) : bool :=
  match p, s with
  | EmptyString, _ => true
  | String _ _, EmptyString => false
  | String a p', String b s' => Py.eqb_nocase a b && startswith_nocase s' p'
  end.

Definition resolution_words : list string := ["4K"; "2160p"; "1080p"; "720p"].

(** [(4K|2160p|1080p|720p)\b], IGNORECASE, at the head of [s]: the text
    matched. *)
Definition resolution_word_at (s : string) : option string :=
  match List.find (startswith_nocase s) resolution_words with
  | Some word =>
      let matched := substring 0 (String.length word) s in
      match substring (String.length word) 1 s with
      | String c _ => if word_char c then None else Some matched
      | EmptyString => Some matched
      end
  | None => None
  end.

(** [re.search] of [\b(4K|2160p|1080p|720p)\b]; [after_word] says that
    the character before [s] is a word character. *)
Fixpoint search_resolution_word (after_word : bool) (s : string)
  : option string :=
  match (if after_word then None else resolution_word_at s) with
  | Some g => Some g
  | None =>
      match s with
      | EmptyString => None
      | String c r => search_resolution_word (word_char c) r
      end
  end.

(** What [_extract_series_format] reads of a page: the text of the
    [title], of the [h2] of class [descargarTitulo] and of the first [p]
    whose string has [Formato:], when the page has them, and the text of
    the whole page. *)
Record format_sources : Type := FormatSources {
  title_text : option string;
  h2_text : option string;
  formato_text : option string;
  body_text : string
}.

Definition bracketed_tag (text : option string) : option string :=
  match text with
  | Some text => Re.search bracketed_tag_at text
  | None => None
  end.

Definition _extract_series_format (soup : format_sources) : option string :=
  match bracketed_tag (title_text soup) with
  | Some g => Some (Py.upper g)
  | None =>
      match bracketed_tag (h2_text soup) with
      | Some g => Some (Py.upper g)
      | None =>
          let res_match :=
            match formato_text soup with
            | Some text =>
                match Re.search formato_at text with
                | Some formato_full =>
                    option_map fst (Re.search resolution_tag_at formato_full)
                | None => None
                end
            | None => None
            end in
          match res_match with
          | Some g => Some (Py.upper g)
          | None =>
              match search_resolution_word false (body_text soup) with
              | Some g =>
                  let found := Py.upper g in
                  if String.eqb found "2160P" then Some "4K" else Some found
              | None => None
              end
          end
      end
  end.

(** *** The link resolver *)

(** The two requests of the exchange, both POSTs to
    [{base_url}/api_validate_pow.php]. *)
Inductive request : Type :=
| Generate (url : string) (content_id : Z) (tabla : string)
| Validate (url : string) (challenge : string) (nonce : Z).

(** The JSON object of an answer, with [response.ok]: its [success],
    [challenge] and [download_url] keys, the last two strings when
    present. *)
Record answer : Type := Answer {
  ok : bool;
  success : Py.value;
  challenge : option string;
  download_url : option string
}.

(** The endpoint; [None] is a request that raised, or an answer that is
    no JSON object. *)
Record pow_site : Type := PowSite {
  post : list request -> request -> option answer
}.

(** How a call ends: it returns, it raises, or it is still running when
    the fuel is spent. *)
Inductive ending (A : Type) : Type :=
| Returns (a : A)
| Raises
| Running.
Arguments Returns {A} a.
Arguments Raises {A}.
Arguments Running {A}.

(** [_get_protected_download_url]; [fuel] bounds the iterations of the
    proof-of-work loop. *)
Definition _get_protected_download_url (s : pow_site) (fuel : nat)
    (content_id tabla : string) (base_url : Py.value) (tr : list request)
  : ending string * list request :=
  let generate_url := Py.format_value base_url ++ "/api_validate_pow.php" in
  match Builtins.int_of_str content_id with
  | None => (Raises, tr)
  | Some id =>
      let generate := Generate generate_url id tabla in
      let tr1 := (tr ++ [generate])%list in
      match post s tr generate with
      | None => (Raises, tr1)
      | Some result =>
          if negb (ok result) || negb (Py.value_truthy (success result))
          then (Raises, tr1)
          else
            match challenge result with
            | None => (Raises, tr1)
            | Some challenge =>
                match Exhaustive._compute_proof_of_work fuel challenge 4 with
                | None => (Running, tr1)
                | Some nonce =>
                    let validate := Validate generate_url challenge nonce in
                    let tr2 := (tr1 ++ [validate])%list in
                    match post s tr1 validate with
                    | None => (Raises, tr2)
                    | Some result =>
                        if negb (ok result)
                           || negb (Py.value_truthy (success result))
                        then (Raises, tr2)
                        else
                          match download_url result with
                          | None => (Raises, tr2)
                          | Some url => (Returns url, tr2)
                          end
                    end
                end
            end
      end
  end.

End Dontorrent.

(* ===================================================================== *)
(** ** [dontorrent_fast_scraper.py]: criteria and episode numbers          *)
(* ===================================================================== *)

Module DontorrentFast.

Definition required : list string :=
  ["base_url"; "serie_name"; "start_episode"; "end_episode"].

(** [all(k in criteria for k in required)] *)
Definition validate_criteria (criteria : gmap string Py.value) : bool :=
  forallb (Builtins.has_key criteria) required.

(** [_episode_to_number]; [None] is the [ValueError] of [int]. *)
Definition _episode_to_number (episode_code : string) : option Z :=
  match Re.search Re.prefixed_season_episode_at episode_code with
  | Some (g1, g2) =>
      season ← Builtins.int_of_group g1;
      episode ← Builtins.int_of_group g2;
      Some (season * 1000 + episode)
  | None => Some 0
  end.

End DontorrentFast.

(* ===================================================================== *)
(** ** [manager.py]: the registry and the dispatch                         *)
(* ===================================================================== *)

Module Manager.

(** The values of the dictionaries that go through the manager. *)
Inductive item : Type :=
| Str (s : string)
| Num (n : nat)
| Val (v : Py.value)
| Names (l : list string)
| Criteria (c : gmap string Py.value)
| Torrents (l : list Exhaustive.torrent).

Definition dict : Type := gmap string item.

(** A call returns, or raises an exception [e]; the manager reads
    [str(e)]. *)
Inductive outcome (A : Type) : Type :=
| Returned (a : A)
| Raised (message : string).
Arguments Returned {A} a.
Arguments Raised {A} message.

(** What the manager uses of a [BaseScraper]. *)
Record scraper : Type := Scraper {
  validate_criteria : gmap string Py.value -> outcome bool;
  scrape_with : gmap string Py.value -> Net.M (outcome dict)
}.

(** [self._scrapers], in insertion order. *)
Definition registry : Type := list (string * scraper).

Definition has_scraper (scrapers : registry) (site : string) : bool :=
  existsb (fun kv => String.eqb (fst kv) site) scrapers.

Definition get_scraper (scrapers : registry) (site : string) : option scraper :=
  option_map snd (List.find (fun kv => String.eqb (fst kv) site) scrapers).

(** [self._scrapers[site] = scraper]: a key already there keeps its
    place.  Every [scraper] here is a [BaseScraper]: the [ValueError] of
    [register_scraper] has no case. *)
Fixpoint register_scraper (site : string) (s : scraper) (scrapers : registry)
  : registry :=
  match scrapers with
  | [] => [(site, s)]
  | (k, v) :: rest =>
      if String.eqb k site then (k, s) :: rest
      else (k, v) :: register_scraper site s rest
  end.

Definition unregister_scraper (site : string) (scrapers : registry)
  : bool * registry :=
  if has_scraper scrapers site
  then (true, List.filter (fun kv => negb (String.eqb (fst kv) site)) scrapers)
  else (false, scrapers).

Definition get_scraper_count (scrapers : registry) : nat := List.length scrapers.

Definition failed : item := Str "failed".

Definition scrape (scrapers : registry) (site : string)
    (criteria : gmap string Py.value) : Net.M dict :=
  match get_scraper scrapers site with
  | None =>
      mret (<["error" := Str ("Scraper '" ++ site ++ "' not found")]>
              (<["available_scrapers" := Names (List.map fst scrapers)]>
                 (<["status" := failed]> ∅)))
  | Some scraper =>
      match validate_criteria scraper criteria with
      | Raised e =>
          mret (<["error" := Str ("Validation error: " ++ e)]>
                  (<["status" := failed]> ∅))
      | Returned false =>
          mret (<["error" := Str ("Invalid criteria for scraper '" ++ site ++ "'")]>
                  (<["criteria" := Criteria criteria]>
                     (<["status" := failed]> ∅)))
      | Returned true =>
          r ← scrape_with scraper criteria;
          match r with
          | Raised e =>
              mret (<["error" := Str ("Scraping error: " ++ e)]>
                      (<["site" := Str site]>
                         (<["status" := failed]> ∅)))
          | Returned result =>
              let status :=
                match result !! "status" with
                | Some status => status
                | None =>
                    Str (if negb (Builtins.has_key result "error")
                         then "success" else "failed")
                end in
              mret (<["site" := Str site]> (<["status" := status]> result))
          end
      end
  end.

(** The dictionary [DontorrentScraper.scrape] returns. *)
Definition result_dict (r : Exhaustive.result) : dict :=
  match r with
  | Exhaustive.Failure error torrents =>
      <["error" := Str error]> (<["torrents" := Torrents torrents]> ∅)
  | Exhaustive.NotFound message torrents count =>
      <["message" := Str message]>
        (<["torrents" := Torrents torrents]> (<["count" := Num count]> ∅))
  | Exhaustive.Success torrents torrents_rest count count_total count_rest
      serie_name source =>
      <["torrents" := Torrents torrents]>
        (<["torrents_rest" := Torrents torrents_rest]>
           (<["count" := Num count]>
              (<["count_total" := Num count_total]>
                 (<["count_rest" := Num count_rest]>
                    (<["serie_name" := Val serie_name]>
                       (<["source" := Val source]> ∅))))))
  end.

(** [DontorrentScraper()] on a site, as the manager sees it. *)
Definition dontorrent (w : Exhaustive.world) : scraper :=
  Scraper
    (fun criteria => Returned (Dontorrent.validate_criteria criteria))
    (fun criteria =>
       r ← Exhaustive.scrape w criteria;
       mret (Returned (result_dict r))).

End Manager.

(* ===================================================================== *)
(** ** More vocabulary for the statements                                  *)
(* ===================================================================== *)

Module Terms.

(** The episode of [a] is not after that of [b]: a lower season, or the
    same season and an episode number that is not higher. *)
Definition not_after (a b : Props.code) : Prop :=
  Props.season_number a < Props.season_number b
  \/ (Props.season_number a = Props.season_number b
      /\ Props.episode_number a <= Props.episode_number b).

(** The same season and episode numbers. *)
Definition same_episode (a b : Props.code) : Prop :=
  Props.season_number a = Props.season_number b
  /\ Props.episode_number a = Props.episode_number b.

Definition is_search (e : Net.event) : bool :=
  match e with Net.EvSearch _ _ => true | _ => false end.

Definition is_fetch (e : Net.event) : bool :=
  match e with Net.EvFetch _ => true | _ => false end.

Definition is_resolve (e : Net.event) : bool :=
  match e with Net.EvResolve _ _ => true | _ => false end.

(** What the exhaustive crawl of a series page promises of a candidate:
    the status is the episode code, in the form the scraper calls valid
    and within the range asked for; the quality is canonical, and the
    status starts with HD exactly when the quality is not SD; the titles
    are those of the series; the link starts with the base address. *)
Definition listed (serie_data : Exhaustive.serie)
    (base_url start_episode end_episode : Py.value) (t : Exhaustive.torrent)
  : Prop :=
  Exhaustive.status t = Exhaustive.episode_code t
  /\ Exhaustive._is_valid_status_format (Exhaustive.status t) = true
  /\ Exhaustive._is_in_range (Exhaustive.status t) start_episode end_episode
     = true
  /\ Props.canonical (Exhaustive.format t)
  /\ (Py.startswith (Exhaustive.status t) "HD" = true
      <-> Exhaustive.format t <> "SD")
  /\ Exhaustive.title t = Exhaustive.serie_title serie_data
  /\ Exhaustive.title_original t = Exhaustive.serie_title_original serie_data
  /\ Py.startswith (Exhaustive.link t) (Py.format_value base_url) = true.

(** What the early-exit crawl promises of a candidate: a code within
    the range asked for, a link that is not empty, a canonical quality,
    and a title made of the text of the episode link and the quality. *)
Definition offered (start_episode end_episode : option string)
    (t : Fast.torrent) : Prop :=
  Fast._is_in_range (Fast.episode_code t) start_episode end_episode = true
  /\ Py.truthy (Some (Fast.link t)) = true
  /\ Props.canonical (Fast.format t)
  /\ Fast.title t = Fast.status t ++ " " ++ Fast.format t.

(** The order of [torrents.sort(key=lambda x: x['episode_code'])]. *)
Definition by_code (a b : Fast.torrent) : Prop :=
  String.leb (Fast.episode_code a) (Fast.episode_code b) = true.

(** A string of spaces only. *)
Fixpoint only_spaces (s : string) : bool :=
  match s with
  | EmptyString => true
  | String c r => Ascii.eqb c " " && only_spaces r
  end.

(** A string in which the cleaning of names would remove nothing. *)
Fixpoint all_kept (s : string) : bool :=
  match s with
  | EmptyString => true
  | String c r => Dontorrent.kept c && all_kept r
  end.

(** The entry of [series_found] made for a link of the search page. *)
Definition series_of_link (base_url : Py.value) (link : string * string)
  : Exhaustive.serie :=
  let title := Py.strip (snd link) in
  Exhaustive.Serie (Dontorrent._extract_series_name_from_title title) title
    (Py.format_value base_url ++ fst link) (fst link).

(** The text of the link matches the name searched. *)
Definition link_matches (serie_name : string) (link : string * string) : bool :=
  fst (Dontorrent._matches_series_name (Py.strip (snd link)) serie_name).

(** The raw format of a page: 4K, or three or four digits and a P. *)
Definition raw_shape (raw : string) : Prop :=
  raw = "4K"
  \/ exists d, Props.all_digits d = true
               /\ (3 <= String.length d <= 4)%nat
               /\ raw = d ++ "P".

(** The number [_episode_to_number] is meant to give. *)
Definition episode_rank (c : Props.code) : Z :=
  Props.season_number c * 1000 + Props.episode_number c.

(** The season and the episode of a code have no more digits than [int]
    converts: on such a code [int] returns, and returns what
    [Py.int_of_digits] says. *)
Definition int_sized (c : Props.code) : Prop :=
  (String.length (Props.season c) <= Builtins.int_max_str_digits)%nat
  /\ (String.length (Props.episode c) <= Builtins.int_max_str_digits)%nat.

(** A byte that may belong to a run of digits: an ASCII digit, or a byte
    of a character beyond ASCII, where the digits of other scripts
    are. *)
Definition may_be_digit (c : ascii) : bool :=
  Py.is_digit c || (128 <=? nat_of_ascii c)%nat.

(** No run of digits in the string is longer than [int] converts; [run]
    is the length of the run that ends where the string begins. *)
Fixpoint digit_runs_within (run : nat) (s : string) : bool :=
  match s with
  | EmptyString => true
  | String c r =>
      if may_be_digit c
      then (S run <=? Builtins.int_max_str_digits)%nat
           && digit_runs_within (S run) r
      else digit_runs_within 0 r
  end.

Definition int_sized_str (s : string) : Prop := digit_runs_within 0 s = true.

(** The same of a bound, which need not be a string. *)
Definition int_sized_value (v : Py.value) : Prop :=
  match v with
  | Py.VStr s => int_sized_str s
  | _ => True
  end.

(** The fetches of the series pages of a list of links. *)
Definition fetches (base : string) (hrefs : list string) : list Net.event :=
  List.map (fun href => Net.EvFetch (base ++ href)) hrefs.

End Terms.

(* ===================================================================== *)
(** ** More sites                                                          *)
(* ===================================================================== *)

Module Servers.

(** A site of two series.  The page of [/serie/0] shows HDRip, a format
    of the category SD.  Every other page is the same: it lists the two
    series, three episodes that are not in the order of their codes and
    one download button, and it shows 720p.  The challenge asks for no
    work. *)
Definition plain_page : Fast.page := Fast.Page "Serie HDRip" [] [] [].

Definition listing_page : Fast.page :=
  Fast.Page "Serie 720p" ["/serie/0"; "/serie/1"]
    [("/episodio/2", "Serie S01E02"); ("/episodio/1", "Serie S01E01");
     ("/episodio/3", "Serie S01E03")]
    ["/download-torrent/generate/7"].

Definition listing_site : Fast.world :=
  Fast.World
    (fun _ url =>
       if String.eqb url (Sites.base_url ++ "/serie/0") then Some plain_page
       else Some listing_page)
    (fun _ _ => Some (Fast.ChallengeData (Some "abc") (Some 0)))
    Sites.accept_always.

(** The request of [Sites.full_request], for the category HD. *)
Definition hd_request : gmap string Py.value :=
  <["calidad" := Py.VStr "hd"]> Sites.full_request.

(** An endpoint that gives the challenge [ch5795], whose first nonce
    with four zeros is 3, and releases a link whatever the nonce. *)
Definition pow_endpoint : Dontorrent.pow_site :=
  Dontorrent.PowSite
    (fun _ r =>
       match r with
       | Dontorrent.Generate _ _ _ =>
           Some (Dontorrent.Answer true (Py.VBool true) (Some "ch5795") None)
       | Dontorrent.Validate _ _ _ =>
           Some (Dontorrent.Answer true (Py.VBool true) None
                   (Some "/torrents/101.torrent"))
       end).

End Servers.

Example sha256_abc :
  Sha256.hexdigest "abc"
  = "ba7816bf8f01cfea414140de5dae2223b00361a396177a9cb410ff61f20015ad".
Proof. vm_compute. reflexivity. Qed.

Example sha256_empty :
  Sha256.hexdigest EmptyString
  = "e3b0c44298fc1c149afbf4c8996fb92427ae41e4649b934ca495991b7852b855".
Proof. vm_compute. reflexivity. Qed.

Example sha256_two_blocks :
  Sha256.hexdigest
    "aaaaaaaaaaaaaaaaaaaaaaaaaaaaaaaaaaaaaaaaaaaaaaaaaaaaaaaaaaaaaaaaaaaaaa"
  = "6bd5e5034855a11241f0dee8fc72850ffd9955b28347a86428b5fa19119f6ad0".
Proof. vm_compute. reflexivity. Qed.

(* ===================================================================== *)
(** ** Strings: lengths and prefixes                                       *)
(* ===================================================================== *)

Section StringFacts.

Lemma startswith_length (s p : string) :
  Py.startswith s p = true -> (String.length p <= String.length s)%nat.
Proof.
  revert s. induction p as [|a p IH]; intros s H; simpl in *.
  - lia.
  - destruct s as [|b s]; [discriminate|].
    apply andb_prop in H as [_ H]. apply IH in H. simpl. lia.
Qed.

Lemma length_string_of_list_ascii (l : list ascii) :
  String.length (string_of_list_ascii l) = List.length l.
Proof. induction l; simpl; auto. Qed.

Lemma repeat_char_length (c : ascii) (n : Z) :
  String.length (Py.repeat_char c n) = Z.to_nat n.
Proof.
  unfold Py.repeat_char.
  now rewrite length_string_of_list_ascii, List.repeat_length.
Qed.

(** A digest is 64 hexadecimal characters, whatever was hashed. *)
Lemma hexdigest_length (s : string) :
  String.length (Sha256.hexdigest s) = 64%nat.
Proof. reflexivity. Qed.

Lemma startswith_nil (s : string) : Py.startswith s EmptyString = true.
Proof. destruct s; reflexivity. Qed.

End StringFacts.

(** From here on a digest is only known by its length. *)
#[global] Opaque Sha256.hexdigest.

(* ===================================================================== *)
(** ** Proof of work                                                       *)
(* ===================================================================== *)

Section ProofOfWork.

(** No digest starts with more than 64 zeros. *)
Lemma pow_hit_long_target (challenge : string) (difficulty nonce : Z) :
  64 < difficulty ->
  Exhaustive.pow_hit challenge (Py.repeat_char "0" difficulty) nonce = false.
Proof.
  intros Hd. unfold Exhaustive.pow_hit.
  destruct (Py.startswith _ _) eqn:E; [|reflexivity].
  apply startswith_length in E.
  rewrite repeat_char_length, hexdigest_length in E. lia.
Qed.

(** The exhaustive loop: what it returns is a hit, and the first one. *)
Lemma exhaustive_pow_loop_sound (fuel : nat) (challenge target : string)
    (start n : Z) :
  Exhaustive.pow_loop fuel challenge target start = Some n ->
  start <= n /\
  Exhaustive.pow_hit challenge target n = true /\
  forall m, start <= m < n -> Exhaustive.pow_hit challenge target m = false.
Proof.
  revert start.
  induction fuel as [|fuel IH]; intros start H; cbn [Exhaustive.pow_loop] in H.
  - discriminate.
  - destruct (Exhaustive.pow_hit challenge target start) eqn:E.
    + injection H as <-. split; [lia|]. split; [exact E|]. intros m Hm. lia.
    + apply IH in H as (Hle & Hhit & Hmin).
      split; [lia|]. split; [exact Hhit|].
      intros m Hm. destruct (Z.eq_dec m start) as [->|Hne]; [exact E|].
      apply Hmin. lia.
Qed.



(** Without a hit the exhaustive loop uses up any fuel. *)
Lemma exhaustive_pow_loop_no_hit (fuel : nat) (challenge target : string) :
  (forall n, Exhaustive.pow_hit challenge target n = false) ->
  forall start, Exhaustive.pow_loop fuel challenge target start = None.
Proof.
  intros Hno. induction fuel as [|fuel IH]; intros start; cbn [Exhaustive.pow_loop];
    [reflexivity|].
  rewrite Hno. apply IH.
Qed.

(** The fast loop returns within [safety_limit + 1 - start] iterations. *)
Lemma fast_pow_loop_returns (challenge target : string) (fuel : nat) :
  forall start : Z,
  0 <= start <= Fast.safety_limit ->
  Fast.safety_limit + 1 - start <= Z.of_nat fuel ->
  exists r, Fast.pow_loop fuel challenge target start = Some r /\
            Props.fast_pow_spec challenge target start r.
Proof.
  induction fuel as [|fuel IH]; intros start Hs Hf.
  - lia.
  - cbn [Fast.pow_loop]. destruct (Fast.pow_hit challenge target start) eqn:E.
    + exists start. split; [reflexivity|]. left.
      split; [lia|]. split; [exact E|]. intros m Hm. lia.
    + destruct (start + 1 >? Fast.safety_limit) eqn:G.
      * exists (-1). split; [reflexivity|]. right. split; [reflexivity|].
        intros m Hm. apply Z.gtb_lt in G.
        replace m with start by lia. exact E.
      * assert (start + 1 <= Fast.safety_limit).
        { destruct (Z.gtb_spec (start + 1) Fast.safety_limit); [discriminate|lia]. }
        destruct (IH (start + 1)) as (r & Hr & Hspec); try lia.
        exists r. split; [exact Hr|].
        destruct Hspec as [(Hb & Hh & Hmin)|(-> & Hno)]; [left|right].
        -- split; [lia|]. split; [exact Hh|]. intros m Hm.
           destruct (Z.eq_dec m start) as [->|]; [exact E|]. apply Hmin. lia.
        -- split; [reflexivity|]. intros m Hm.
           destruct (Z.eq_dec m start) as [->|]; [exact E|]. apply Hno. lia.
Qed.

(** [Fast._compute_proof_of_work] is the value of its loop: the fuel it is
    given is enough. *)
Theorem fast_pow_correct (challenge : string) (difficulty : Z) :
  Fast._compute_proof_of_work_fuel (Z.to_nat (Fast.safety_limit + 1))
    challenge difficulty
  = Some (Fast._compute_proof_of_work challenge difficulty)
  /\ Props.fast_pow_spec challenge (Py.repeat_char "0" difficulty) 0
       (Fast._compute_proof_of_work challenge difficulty).
Proof.
  destruct (fast_pow_loop_returns challenge (Py.repeat_char "0" difficulty)
              (Z.to_nat (Fast.safety_limit + 1)) 0) as (r & Hr & Hspec).
  - unfold Fast.safety_limit. lia.
  - rewrite Z2Nat.id; unfold Fast.safety_limit; lia.
  - unfold Fast._compute_proof_of_work, Fast._compute_proof_of_work_fuel.
    rewrite Hr. split; [reflexivity | exact Hspec].
Qed.

(** The sentinel [-1] is no nonce: a returned nonce is never negative. *)
Corollary fast_pow_failure_distinct (challenge : string) (difficulty : Z) :
  let r := Fast._compute_proof_of_work challenge difficulty in
  r = -1 \/ 0 <= r.
Proof.
  destruct (fast_pow_correct challenge difficulty) as [_ [(H & _)|(H & _)]];
    [right; lia|left; exact H].
Qed.

Example exhaustive_pow_abc_1 :
  Exhaustive._compute_proof_of_work 30 "abc" 1 = Some 26.
Proof. vm_compute. reflexivity. Qed.

Example fast_pow_abc_2 :
  Fast._compute_proof_of_work_fuel 300 "abc" 2 = Some 252.
Proof. vm_compute. reflexivity. Qed.

(** C1 (code at the failing input).  With a difficulty of 65 no digest
    qualifies: the solver of [dontorrent_scraper.py], which has no
    iteration ceiling, returns nothing however long it runs, while the
    solver of [dontorrent_fast_scraper.py] stops at its ceiling and
    returns the sentinel [-1]. *)
Theorem C1_exhaustive_pow_has_no_ceiling (challenge : string) (fuel : nat) :
  Exhaustive._compute_proof_of_work fuel challenge 65 = None
  /\ Fast._compute_proof_of_work challenge 65 = -1.
Proof.
  split.
  - apply exhaustive_pow_loop_no_hit. intros n.
    apply pow_hit_long_target. lia.
  - destruct (fast_pow_correct challenge 65) as [_ [(Hb & Hhit & _)|[H _]]];
      [|exact H].
    change (Fast.pow_hit challenge (Py.repeat_char "0" 65)
              (Fast._compute_proof_of_work challenge 65))
      with (Exhaustive.pow_hit challenge (Py.repeat_char "0" 65)
              (Fast._compute_proof_of_work challenge 65)) in Hhit.
    rewrite pow_hit_long_target in Hhit by lia. discriminate.
Qed.

End ProofOfWork.

(* ===================================================================== *)
(** ** The range filter                                                    *)
(* ===================================================================== *)

Section RangeFilter.

Lemma digit_is_not_D (d : ascii) :
  Py.is_digit d = true ->
  Ascii.eqb d "D" = false /\ Py.eqb_nocase d "D" = false.
Proof.
  destruct d as [b0 b1 b2 b3 b4 b5 b6 b7].
  destruct b0, b1, b2, b3, b4, b5, b6, b7; intros H;
    try discriminate H; split; reflexivity.
Qed.

Lemma digit_is_not_E (d : ascii) :
  Py.is_digit d = true -> Py.eqb_nocase d "E" = false.
Proof.
  destruct d as [b0 b1 b2 b3 b4 b5 b6 b7].
  destruct b0, b1, b2, b3, b4, b5, b6, b7; intros H;
    try discriminate H; reflexivity.
Qed.

(** A run of digits followed by something that is not a digit is taken
    whole. *)
Lemma span_digits_run (s t : string) :
  Props.all_digits s = true ->
  match t with EmptyString => True | String c _ => Py.is_digit c = false end ->
  Py.span_digits (s ++ t) = (s, t).
Proof.
  intros Hs Ht. induction s as [|c s IH]; simpl in *.
  - destruct t as [|c t]; [reflexivity|]. simpl. now rewrite Ht.
  - apply andb_prop in Hs as [Hc Hs]. rewrite Hc, (IH Hs). reflexivity.
Qed.

Lemma span_digits_all (s : string) :
  Props.all_digits s = true -> Py.span_digits s = (s, EmptyString).
Proof.
  intros Hs. induction s as [|c s IH]; simpl in *; [reflexivity|].
  apply andb_prop in Hs as [Hc Hs]. rewrite Hc, (IH Hs). reflexivity.
Qed.

(** [S(\d+)E(\d+)] matches a bare code at its head, with its digits. *)
Lemma long_at_bare (s e : string) :
  Props.digits s = true -> Props.digits e = true ->
  Re.season_episode_long_at ("S" ++ s ++ "E" ++ e) = Some (s, e).
Proof.
  unfold Props.digits. intros Hs He.
  apply andb_prop in Hs as [Hs1 Hs2]. apply andb_prop in He as [He1 He2].
  change ("S" ++ s ++ "E" ++ e) with (String "S" (s ++ String "E" e)).
  unfold Re.season_episode_long_at.
  change (Py.eqb_nocase "S" "S") with true. cbn iota.
  rewrite (span_digits_run s (String "E" e) Hs2) by reflexivity.
  rewrite Hs1. change (Py.eqb_nocase "E" "E") with true. cbn [andb].
  rewrite (span_digits_all e He2), He1. reflexivity.
Qed.

Lemma search_head {A} (at_pos : string -> option A) (s : string) (r : A) :
  at_pos s = Some r -> Re.search at_pos s = Some r.
Proof. intros H. destruct s; simpl; now rewrite H. Qed.

Lemma first_digit (s : string) :
  Props.digits s = true ->
  exists d r, s = String d r /\ Py.is_digit d = true.
Proof.
  unfold Props.digits. destruct s as [|d r]; simpl; [discriminate|].
  intros H. apply andb_prop in H as [H _]. eauto.
Qed.

Lemma quality_cases (q : string) :
  Props.quality_ok q = true -> q = EmptyString \/ q = "HD" \/ q = "SD".
Proof.
  unfold Props.quality_ok. intros H.
  apply orb_prop in H as [H|H]; [apply orb_prop in H as [H|H]|];
    apply String.eqb_eq in H; auto.
Qed.

(** What the exhaustive filter reads in a well-formed code. *)
Lemma exhaustive_reads (c : Props.code) :
  Props.well_formed c = true ->
  Re.search Re.season_episode_long_at (Re.strip_quality_prefix (Props.render c))
  = Some (Props.season c, Props.episode c).
Proof.
  destruct c as [q s e]. unfold Props.well_formed, Props.render. simpl.
  intros H. apply andb_prop in H as [H He]. apply andb_prop in H as [Hq Hs].
  assert (Re.strip_quality_prefix (q ++ "S" ++ s ++ "E" ++ e)
          = "S" ++ s ++ "E" ++ e) as ->.
  { destruct (quality_cases q Hq) as [->|[->| ->]]; try reflexivity.
    destruct (first_digit s Hs) as (d & r & -> & Hd).
    unfold Re.strip_quality_prefix, Re.quality_prefix. simpl.
    destruct (digit_is_not_D d Hd) as [-> _]. reflexivity. }
  apply search_head, long_at_bare; assumption.
Qed.

(** What the fast filter reads in a well-formed code. *)
Lemma fast_reads (c : Props.code) :
  Props.well_formed c = true ->
  Re.search Re.prefixed_season_episode_at (Props.render c)
  = Some (Props.season c, Props.episode c).
Proof.
  destruct c as [q s e]. unfold Props.well_formed, Props.render. simpl.
  intros H. apply andb_prop in H as [H He]. apply andb_prop in H as [Hq Hs].
  apply search_head. unfold Re.prefixed_season_episode_at.
  pose proof (long_at_bare s e Hs He) as Hbare.
  destruct (quality_cases q Hq) as [->|[->| ->]].
  - destruct (first_digit s Hs) as (d & r & -> & Hd).
    assert (Re.quality_prefix true (EmptyString ++ "S" ++ String d r ++ "E" ++ e)
            = None) as ->.
    { unfold Re.quality_prefix. simpl.
      destruct (digit_is_not_D d Hd) as [_ ->]. reflexivity. }
    exact Hbare.
  - replace (Re.quality_prefix true ("HD" ++ "S" ++ s ++ "E" ++ e))
      with (Some ("S" ++ s ++ "E" ++ e)) by reflexivity.
    now rewrite Hbare.
  - replace (Re.quality_prefix true ("SD" ++ "S" ++ s ++ "E" ++ e))
      with (Some ("S" ++ s ++ "E" ++ e)) by reflexivity.
    now rewrite Hbare.
Qed.

(** The two comparisons say no exactly for the four reasons. *)
Lemma bounds_excluded (c start end_ : Props.code) :
  (if negb (Range.after_start (Props.season_number c) (Props.episode_number c)
              (Some (Props.season start, Props.episode start)))
   then false
   else Range.before_end (Props.season_number c) (Props.episode_number c)
          (Some (Props.season end_, Props.episode end_))) = false
  <-> Props.excluded c start end_.
Proof.
  unfold Range.after_start, Range.before_end, Props.excluded,
    Props.season_number, Props.episode_number.
  rewrite !Z.gtb_ltb.
  destruct (Z.ltb_spec (Py.int_of_digits (Props.season c))
              (Py.int_of_digits (Props.season start)));
  destruct (Z.eqb_spec (Py.int_of_digits (Props.season c))
              (Py.int_of_digits (Props.season start)));
  destruct (Z.ltb_spec (Py.int_of_digits (Props.episode c))
              (Py.int_of_digits (Props.episode start)));
  destruct (Z.ltb_spec (Py.int_of_digits (Props.season end_))
              (Py.int_of_digits (Props.season c)));
  destruct (Z.eqb_spec (Py.int_of_digits (Props.season c))
              (Py.int_of_digits (Props.season end_)));
  destruct (Z.ltb_spec (Py.int_of_digits (Props.episode end_))
              (Py.int_of_digits (Props.episode c)));
  cbn; split; intros; try discriminate; try lia; try reflexivity.
Qed.

Lemma render_truthy (c : Props.code) : Py.truthy (Some (Props.render c)) = true.
Proof.
  destruct c as [q s e]. unfold Props.render. simpl.
  destruct q; reflexivity.
Qed.

Lemma exhaustive_in_range_excluded (c start end_ : Props.code) :
  Props.well_formed c = true ->
  Props.well_formed start = true ->
  Props.well_formed end_ = true ->
  Exhaustive._is_in_range (Props.render c) (Py.VStr (Props.render start))
    (Py.VStr (Props.render end_)) = false
  <-> Props.excluded c start end_.
Proof.
  intros Hc Hs He. unfold Exhaustive._is_in_range.
  rewrite (exhaustive_reads c Hc), (exhaustive_reads start Hs),
    (exhaustive_reads end_ He).
  apply bounds_excluded.
Qed.

Lemma fast_in_range_excluded (c start end_ : Props.code) :
  Props.well_formed c = true ->
  Props.well_formed start = true ->
  Props.well_formed end_ = true ->
  Fast._is_in_range (Props.render c) (Some (Props.render start))
    (Some (Props.render end_)) = false
  <-> Props.excluded c start end_.
Proof.
  intros Hc Hs He. unfold Fast._is_in_range.
  rewrite !render_truthy. cbn [negb andb from_option id].
  rewrite (fast_reads c Hc), (fast_reads start Hs), (fast_reads end_ He).
  apply bounds_excluded.
Qed.

(** C2.  On codes of the form optional HD/SD then SxxEyy, both
    [_is_in_range] exclude a code exactly when its season is below the
    season of [start], or above that of [end], or it is in the season of
    [start] with a lower episode, or in the season of [end] with a higher
    one; a season strictly between the two is always included; and for
    start = S01E10, end = S02E02 the codes S01E10, S01E11, S02E01 and
    S02E02 are included, S01E09 and S02E03 are not. *)
Theorem C2_is_in_range_exact (c start end_ : Props.code) :
  Props.well_formed c = true ->
  Props.well_formed start = true ->
  Props.well_formed end_ = true ->
  (Exhaustive._is_in_range (Props.render c) (Py.VStr (Props.render start))
     (Py.VStr (Props.render end_)) = false
   <-> Props.excluded c start end_)
  /\ (Fast._is_in_range (Props.render c) (Some (Props.render start))
        (Some (Props.render end_)) = false
      <-> Props.excluded c start end_)
  /\ (Props.season_number start < Props.season_number c < Props.season_number end_ ->
      Exhaustive._is_in_range (Props.render c) (Py.VStr (Props.render start))
        (Py.VStr (Props.render end_)) = true
      /\ Fast._is_in_range (Props.render c) (Some (Props.render start))
           (Some (Props.render end_)) = true)
  /\ (let inside := ["S01E10"; "S01E11"; "S02E01"; "S02E02"] in
      let outside := ["S01E09"; "S02E03"] in
      forallb (fun x => Exhaustive._is_in_range x (Py.VStr "S01E10") (Py.VStr "S02E02"))
        inside = true
      /\ forallb (fun x => Fast._is_in_range x (Some "S01E10") (Some "S02E02"))
           inside = true
      /\ forallb (fun x => negb (Exhaustive._is_in_range x (Py.VStr "S01E10")
                                   (Py.VStr "S02E02"))) outside = true
      /\ forallb (fun x => negb (Fast._is_in_range x (Some "S01E10") (Some "S02E02")))
           outside = true).
Proof.
  intros Hc Hs He.
  pose proof (exhaustive_in_range_excluded c start end_ Hc Hs He) as HX.
  pose proof (fast_in_range_excluded c start end_ Hc Hs He) as HF.
  split; [exact HX|]. split; [exact HF|]. split.
  - intros Hmid. split.
    + destruct (Exhaustive._is_in_range _ _ _); [reflexivity|].
      destruct HX as [HX _]. specialize (HX eq_refl).
      unfold Props.excluded in HX. lia.
    + destruct (Fast._is_in_range _ _ _); [reflexivity|].
      destruct HF as [HF _]. specialize (HF eq_refl).
      unfold Props.excluded in HF. lia.
  - vm_compute. tauto.
Qed.

Lemma C2_is_in_range_exact_witness :
  let c := Props.Code "HD" "02" "01" in
  let start := Props.Code EmptyString "01" "10" in
  let end_ := Props.Code "SD" "03" "02" in
  Props.well_formed c = true /\
  Props.well_formed start = true /\
  Props.well_formed end_ = true /\
  Exhaustive._is_in_range (Props.render c) (Py.VStr (Props.render start))
    (Py.VStr (Props.render end_)) = true /\
  Fast._is_in_range (Props.render c) (Some (Props.render start))
    (Some (Props.render end_)) = true.
Proof.
  intros c start end_.
  split; [reflexivity|]. split; [reflexivity|]. split; [reflexivity|].
  destruct (C2_is_in_range_exact c start end_ eq_refl eq_refl eq_refl)
    as (_ & _ & Hbetween & _).
  apply Hbetween. vm_compute. split; reflexivity.
Defined.

End RangeFilter.

(* ===================================================================== *)
(** ** The quality normalizer                                              *)
(* ===================================================================== *)

Section Normalizer.

Lemma exhaustive_normalize_canonical (x : option string) :
  Props.canonical (Exhaustive._normalize_format x).
Proof.
  unfold Props.canonical, Exhaustive._normalize_format.
  destruct (negb (Py.truthy x)); [tauto|].
  destruct (Exhaustive.valid_formats _) as [v|] eqn:V.
  - unfold Exhaustive.valid_formats in V.
    repeat match type of V with
           | (if ?b then _ else _) = _ => destruct b
           end; inversion V; tauto.
  - destruct (Re.search Re.resolution_at _) as [g|].
    + unfold Exhaustive.resolution_bucket.
      repeat match goal with
             | |- context [if ?b then _ else _] => destruct b
             end; tauto.
    + destruct (_ || _); tauto.
Qed.

Lemma fast_normalize_canonical (x : string) :
  Props.canonical (Fast._normalize_format x).
Proof.
  unfold Props.canonical, Fast._normalize_format.
  destruct (negb (Py.truthy (Some x))); [tauto|].
  repeat match goal with
         | |- context [if ?b then _ else _] => destruct b; try tauto
         | |- context [match ?o with Some _ => _ | None => _ end] =>
             destruct o; try tauto
         end.
Qed.


End Normalizer.

(* ===================================================================== *)
(** ** Episode codes                                                       *)
(* ===================================================================== *)

Section EpisodeCodes.

Lemma search_found {A} (at_pos : string -> option A) (s : string) (r : A) :
  Re.search at_pos s = Some r -> exists t, at_pos t = Some r.
Proof.
  induction s as [|c s IH]; simpl; intros H.
  - destruct (at_pos EmptyString) eqn:E; [|discriminate].
    injection H as ->. eauto.
  - destruct (at_pos (String c s)) eqn:E; [injection H as ->; eauto|]. auto.
Qed.

Lemma take_digits_spec (n : nat) (s d t : string) :
  Py.take_digits n s = (d, t) ->
  Props.all_digits d = true /\ (String.length d <= n)%nat.
Proof.
  revert s d t. induction n as [|n IH]; intros s d t H; simpl in H.
  - destruct s; injection H as <- <-; simpl; split; auto; lia.
  - destruct s as [|c s]; [injection H as <- <-; simpl; split; auto; lia|].
    destruct (Py.is_digit c) eqn:C.
    + destruct (Py.take_digits n s) as [d' t'] eqn:E.
      injection H as <- <-. apply IH in E as [E1 E2].
      simpl. rewrite C, E1. split; auto. lia.
    + injection H as <- <-. simpl. split; auto. lia.
Qed.

Lemma digits12_then_shape (c : ascii) (s g t : string) :
  Re.digits12_then c s = Some (g, t) -> Props.one_or_two g.
Proof.
  unfold Re.digits12_then, Props.one_or_two.
  destruct s as [|a [|b u]]; try discriminate.
  destruct (Py.is_digit a) eqn:A, (Py.is_digit b) eqn:B; simpl.
  - destruct u as [|x u]; [discriminate|].
    destruct (Py.eqb_nocase x c); [|discriminate].
    intros H; injection H as <- <-. right. eauto.
  - destruct (Py.eqb_nocase b c); [|discriminate].
    intros H; injection H as <- <-. left. eauto.
  - discriminate.
  - discriminate.
Qed.

Lemma digits13_shape (s g : string) :
  Re.digits13 s = Some g -> Props.one_or_two g \/ Props.three g.
Proof.
  unfold Re.digits13. destruct (Py.take_digits 3 s) as [d t] eqn:E.
  apply take_digits_spec in E as [E1 E2].
  destruct d as [|a [|b [|c [|x d]]]]; simpl in *; try discriminate;
    try lia; intros H; injection H as <-.
  - left. left. rewrite andb_true_r in E1. eauto.
  - left. right. apply andb_prop in E1 as [Ha E1].
    rewrite andb_true_r in E1. eauto.
  - right. apply andb_prop in E1 as [Ha E1]. apply andb_prop in E1 as [Hb E1].
    rewrite andb_true_r in E1. unfold Props.three. eauto 8.
Qed.

(** What the two patterns of [_extract_episode_code] capture. *)
Lemma episode_groups_shape (title g1 g2 : string) :
  Exhaustive.episode_groups title = Some (g1, g2) ->
  Props.one_or_two g1 /\ (Props.one_or_two g2 \/ Props.three g2).
Proof.
  unfold Exhaustive.episode_groups.
  destruct (Re.search Re.season_episode_at title) as [g|] eqn:E.
  - intros H; injection H as ->. apply search_found in E as [t E].
    unfold Re.season_episode_at in E.
    destruct t as [|c r]; [discriminate|].
    destruct (Py.eqb_nocase c "S"); [|discriminate].
    destruct (Re.digits12_then "E" r) as [[h1 u]|] eqn:D; [|discriminate].
    destruct (Re.digits13 u) as [h2|] eqn:D3; [|discriminate].
    injection E as <- <-. split.
    + eapply digits12_then_shape; eauto.
    + eapply digits13_shape; eauto.
  - intros H. apply search_found in H as [t H].
    unfold Re.cross_at in H.
    destruct (Re.digits12_then "x" t) as [[h1 u]|] eqn:D; [|discriminate].
    destruct (Re.digits13 u) as [h2|] eqn:D3; [|discriminate].
    injection H as <- <-. split.
    + eapply digits12_then_shape; eauto.
    + eapply digits13_shape; eauto.
Qed.

Lemma digit_is_not_newline (d : ascii) :
  Py.is_digit d = true -> Ascii.eqb d "010" = false.
Proof.
  destruct d as [b0 b1 b2 b3 b4 b5 b6 b7].
  destruct b0, b1, b2, b3, b4, b5, b6, b7; intros H;
    try discriminate H; reflexivity.
Qed.

(** C5 as stated fails: the label S01E100 matches the first pattern, its
    code is S01E100, and HDS01E100 does not satisfy the invariant. *)
Lemma C5_three_digit_episode_counterexample :
  Exhaustive.episode_groups "S01E100" = Some ("01", "100")
  /\ Exhaustive._extract_episode_code "S01E100" = Some "S01E100"
  /\ Exhaustive._is_valid_status_format ("HD" ++ "S01E100") = false.
Proof. vm_compute. auto. Qed.

(** C5, amended.  For a raw label in which one of the two patterns is
    found, with season group [g1] and episode group [g2], and a quality
    tag HD or SD: the code is S, [g1] zero-padded, E, [g2] zero-padded;
    the season field has width 2; the tagged code satisfies the invariant
    exactly when [g2] has at most two digits, and then the episode field
    has width 2 as well. *)
Theorem C5_canonical_code_amended (title g1 g2 tag : string) :
  Exhaustive.episode_groups title = Some (g1, g2) ->
  tag = "HD" \/ tag = "SD" ->
  Exhaustive._extract_episode_code title
  = Some ("S" ++ Py.zfill 2 g1 ++ "E" ++ Py.zfill 2 g2)
  /\ String.length (Py.zfill 2 g1) = 2%nat
  /\ Exhaustive._is_valid_status_format
       (tag ++ "S" ++ Py.zfill 2 g1 ++ "E" ++ Py.zfill 2 g2)
     = (String.length g2 <=? 2)%nat
  /\ ((String.length g2 <= 2)%nat -> String.length (Py.zfill 2 g2) = 2%nat).
Proof.
  intros Hg Htag. split.
  { unfold Exhaustive._extract_episode_code. now rewrite Hg. }
  apply episode_groups_shape in Hg as [H1 H2].
  assert (Hq : forall r, Re.quality_prefix false (tag ++ r) = Some r)
    by (destruct Htag as [-> | ->]; reflexivity).
  unfold Exhaustive._is_valid_status_format. rewrite Hq.
  destruct H1 as [(a & -> & Ha)|(a & b & -> & Ha & Hb)];
  destruct H2 as [[(c & -> & Hc)|(c & d & -> & Hc & Hd)]
                 |(c & d & e & -> & Hc & Hd & He)];
    unfold Py.zfill; simpl; rewrite ?Ha, ?Hb, ?Hc, ?Hd, ?He; simpl;
    try rewrite (digit_is_not_newline e He);
    (split; [reflexivity|]); (split; [reflexivity|]); intros; try reflexivity;
    lia.
Qed.

Lemma C5_canonical_code_amended_witness :
  Exhaustive.episode_groups "Capitulo 3x07 final" = Some ("3", "07")
  /\ Exhaustive._extract_episode_code "Capitulo 3x07 final" = Some "S03E07"
  /\ Exhaustive._is_valid_status_format "SDS03E07" = true.
Proof.
  destruct (C5_canonical_code_amended "Capitulo 3x07 final" "3" "07" "SD"
              eq_refl (or_intror eq_refl)) as (H1 & _ & H3 & _).
  split; [reflexivity|]. split; [exact H1 | exact H3].
Defined.

End EpisodeCodes.

(* ===================================================================== *)
(** ** The exhaustive selection: sort, then first of each status           *)
(* ===================================================================== *)

Section StableSort.
Context {A : Type} (key : A -> Z).

(** Descending on [key], as [sort(key=..., reverse=True)]. *)
Let le (a b : A) : bool := key b <=? key a.

Lemma insert_sorted_perm (x : A) (l : list A) :
  Permutation (Py.insert_sorted le x l) (x :: l).
Proof.
  induction l as [|y l IH]; simpl; [reflexivity|].
  destruct (le x y); [reflexivity|].
  rewrite IH. apply perm_swap.
Qed.

Lemma stable_sort_perm (l : list A) : Permutation (Py.stable_sort le l) l.
Proof.
  induction l as [|x l IH]; simpl; [reflexivity|].
  rewrite insert_sorted_perm. now constructor.
Qed.


End StableSort.

Section Selection.


Lemma dict_mem_keys (k : string) (u : list (string * Exhaustive.torrent)) :
  Exhaustive.dict_mem k u = true <-> List.In k (List.map fst u).
Proof.
  unfold Exhaustive.dict_mem. rewrite existsb_exists. split.
  - intros ((k' & t) & Hin & Heq). apply String.eqb_eq in Heq. simpl in Heq.
    subst. apply in_map_iff. exists (k, t). auto.
  - intros Hin. apply in_map_iff in Hin as ((k' & t) & Heq & Hin).
    simpl in Heq. subst. exists (k, t). split; auto. apply String.eqb_refl.
Qed.

(** The loop keeps the dictionary keyed by status, without repetition,
    and moves every candidate to exactly one side. *)
Lemma split_by_status_spec (l : list Exhaustive.torrent) :
  forall u r u' r',
  Exhaustive.split_by_status l u r = (u', r') ->
  List.NoDup (List.map fst u) ->
  (forall k t, List.In (k, t) u -> k = Exhaustive.status t) ->
  List.NoDup (List.map fst u')
  /\ (forall k t, List.In (k, t) u' -> k = Exhaustive.status t)
  /\ Permutation (List.map snd u' ++ r') (List.map snd u ++ r ++ l)
  /\ (forall k, List.In k (List.map fst u') <->
                List.In k (List.map fst u)
                \/ List.In k (List.map Exhaustive.status l))
  /\ (exists u2 r2, u' = u ++ u2 /\ r' = r ++ r2)%list.
Proof.
  induction l as [|t l IH]; intros u r u' r' H Hnd Hkey; simpl in H.
  - injection H as <- <-. split; [exact Hnd|]. split; [exact Hkey|].
    split; [now rewrite app_nil_r|]. split; [simpl; tauto|].
    exists [], []. now rewrite !app_nil_r.
  - destruct (Exhaustive.dict_mem (Exhaustive.status t) u) eqn:M; simpl in H.
    + apply IH in H as (H1 & H2 & H3 & H4 & (u2 & r2 & -> & ->)); auto.
      split; [exact H1|]. split; [exact H2|]. split.
      * rewrite H3. rewrite <- !app_assoc. simpl. reflexivity.
      * split.
        -- intros k. rewrite H4. simpl. apply dict_mem_keys in M.
           split; [tauto|]. intros [?|[<-|?]]; tauto.
        -- exists u2, ([t] ++ r2)%list. now rewrite <- app_assoc.
    + assert (Hnot : ~ List.In (Exhaustive.status t) (List.map fst u)).
      { intros Hin. apply dict_mem_keys in Hin. congruence. }
      apply IH in H as (H1 & H2 & H3 & H4 & (u2 & r2 & -> & ->)).
      * split; [exact H1|]. split; [exact H2|]. split.
        -- rewrite H3. rewrite !map_app. simpl. rewrite <- !app_assoc. simpl.
           apply Permutation_app_head.
           first [apply Permutation_middle | symmetry; apply Permutation_middle].
        -- split.
           ++ intros k. rewrite H4, map_app, in_app_iff. simpl. tauto.
           ++ exists ([(Exhaustive.status t, t)] ++ u2)%list, r2.
              now rewrite <- app_assoc.
      * rewrite map_app. simpl. apply List.NoDup_app; [exact Hnd| |].
        -- constructor; [simpl; tauto|constructor].
        -- intros k Hk [<-|[]]. contradiction.
      * intros k x Hin. apply in_app_iff in Hin as [Hin|[Heq|[]]]; auto.
        now injection Heq as <- <-.
Qed.



End Selection.

Section ExhaustivePolicy.

Lemma keyed_by_status (u : list (string * Exhaustive.torrent)) :
  (forall k t, List.In (k, t) u -> k = Exhaustive.status t) ->
  List.map fst u = List.map Exhaustive.status (List.map snd u).
Proof.
  induction u as [|[k t] u IH]; intros H; simpl; [reflexivity|].
  rewrite (H k t) by now left. f_equal. apply IH.
  intros k' t' Hin. apply H. now right.
Qed.

Lemma sort_by_priority_perm (l : list Exhaustive.torrent) :
  Permutation (Exhaustive.sort_by_priority l) l.
Proof. apply (stable_sort_perm Props.priority). Qed.


(** Steps 3 and 4 of [scrape] on any list of candidates. *)
Lemma select_spec (all_torrents : list Exhaustive.torrent)
    (serie_name base_url : Py.value) :
  exists torrents rest,
    Exhaustive.select all_torrents serie_name base_url
    = Exhaustive.Success torrents rest (List.length torrents)
        (List.length torrents + List.length rest) (List.length rest)
        serie_name base_url
    /\ Exhaustive.split_by_status (Exhaustive.sort_by_priority all_torrents) [] []
       = (List.combine (List.map Exhaustive.status torrents) torrents, rest)
    /\ Permutation (torrents ++ rest) all_torrents
    /\ List.NoDup (List.map Exhaustive.status torrents)
    /\ (forall k, List.In k (List.map Exhaustive.status all_torrents) ->
                  List.In k (List.map Exhaustive.status torrents)).
Proof.
  unfold Exhaustive.select.
  destruct (Exhaustive.split_by_status
              (Exhaustive.sort_by_priority all_torrents) [] [])
    as [u r] eqn:E.
  pose proof (split_by_status_spec _ _ _ _ _ E (List.NoDup_nil _)
                (fun k t (H : List.In (k, t) []) => match H with end))
    as (H1 & H2 & H3 & H4 & _).
  simpl in H3.
  pose proof (keyed_by_status u H2) as Hk.
  exists (List.map snd u), r.
  assert (Hlen : List.length (Exhaustive.sort_by_priority all_torrents)
                 = (List.length (List.map snd u) + List.length r)%nat).
  { rewrite <- List.length_app. apply Permutation_length. now symmetry. }
  rewrite Hlen. split; [reflexivity|]. split.
  { f_equal. rewrite <- Hk. clear. induction u as [|[k t] u IH]; simpl;
      [reflexivity|]. now rewrite <- IH. }
  split; [rewrite H3; apply sort_by_priority_perm|].
  split; [now rewrite <- Hk|].
  intros k Hin. rewrite <- Hk. apply H4. right.
  eapply Permutation_in; [|exact Hin].
  apply Permutation_map. symmetry. apply sort_by_priority_perm.
Qed.



(** C9.  In a successful result of the exhaustive [scrape], [torrents]
    and [torrents_rest] together are a rearrangement of the candidates
    gathered in this run, from the series the search of this run found
    (each occurrence goes to exactly one of the two lists), no two
    candidates of [torrents] have the same status, every status gathered
    has its candidate in [torrents], and the counts are the lengths,
    [count_total] their sum. *)
Theorem C9_exhaustive_result_partition (w : Exhaustive.world)
    (criteria : gmap string Py.value) (tr tr' : Net.trace)
    (torrents rest : list Exhaustive.torrent) (count count_total count_rest : nat)
    (serie_name source : Py.value) :
  Exhaustive.scrape w criteria tr
  = (Exhaustive.Success torrents rest count count_total count_rest
       serie_name source, tr') ->
  let base_url := Py.dict_get criteria "base_url" in
  let name := Py.dict_get criteria "serie_name" in
  let run :=
    Exhaustive.gather w (Exhaustive.search_series w tr base_url name) base_url
      (Py.dict_get criteria "start_episode")
      (Py.dict_get criteria "end_episode")
      (Py.dict_get criteria "calidad")
      (tr ++ [Net.EvSearch base_url name])%list in
  let gathered := fst run in
  snd run = tr'
  /\ Permutation (torrents ++ rest) gathered
  /\ List.NoDup (List.map Exhaustive.status torrents)
  /\ (forall t, List.In t gathered ->
        exists t', List.In t' torrents
                   /\ Exhaustive.status t' = Exhaustive.status t)
  /\ count = List.length torrents
  /\ count_rest = List.length rest
  /\ count_total = (count + count_rest)%nat.
Proof.
  intros H base_url name run gathered.
  assert (Hrun : Exhaustive.select gathered name base_url
                 = Exhaustive.Success torrents rest count count_total
                     count_rest serie_name source
                 /\ snd run = tr').
  { subst gathered run name base_url. revert H. unfold Exhaustive.scrape.
    destruct (negb _); [discriminate|].
    unfold mbind, M_bind, Net.bind, Net.ask, mret, M_ret, Net.ret.
    destruct (Exhaustive.search_series w tr _ _) as [|s0 l];
      [discriminate|].
    destruct (Exhaustive.gather w (s0 :: l) _ _ _ _ _) as [g tr1].
    intros H; injection H as H <-. split; [exact H|reflexivity]. }
  destruct Hrun as [Hsel Htr]. split; [exact Htr|].
  destruct (select_spec gathered name base_url)
    as (ts & rs & Hs & _ & Hperm & Hnd & Hall).
  rewrite Hs in Hsel. symmetry in Hsel. injection Hsel as -> -> -> -> -> _ _.
  split; [exact Hperm|]. split; [exact Hnd|]. split.
  - intros t Hin.
    assert (Hk : List.In (Exhaustive.status t) (List.map Exhaustive.status ts))
      by (apply Hall, in_map, Hin).
    apply in_map_iff in Hk as (t' & Heq & Hin'). eauto.
  - auto.
Qed.

End ExhaustivePolicy.

(* ===================================================================== *)
(** ** The early-exit resolution                                           *)
(* ===================================================================== *)

Section EarlyExit.
Variable w : Fast.world.

Ltac run := unfold mbind, M_bind, Net.bind, mret, M_ret, Net.ret, Net.ask.

(** A resolution gives [None] or a link; what matters below is whether
    the link is a non-empty string. *)
Lemma first_resolved_app (l1 l2 : list string) (tr : Net.trace) :
  Props.first_resolved w (l1 ++ l2) tr
  = let '(r, tr1) := Props.first_resolved w l1 tr in
    match r with
    | Some x => (Some x, tr1)
    | None => Props.first_resolved w l2 tr1
    end.
Proof.
  revert tr. induction l1 as [|u l1 IH]; intros tr; simpl; [reflexivity|].
  run. destruct (Fast._get_protected_download_url w u tr) as [[[|c l]|] tr1];
    auto.
Qed.

Lemma scan_links_resolves (soup : Fast.page)
    (episode_code episode_text base_url target_format : string)
    (links : list string) (tr : Net.trace) :
  Fast.scan_links w soup episode_code episode_text base_url target_format links tr
  = if String.eqb (Py.upper (Props.page_format soup)) target_format
    then let '(r, tr1) :=
           Props.first_resolved w (List.map (String.append base_url) links) tr in
         (option_map (Fast.candidate soup episode_code episode_text) r, tr1)
    else (None, tr).
Proof.
  unfold Props.page_format.
  revert tr. induction links as [|download_link rest IH]; intros tr; simpl.
  - destruct (Fast._extract_series_format_category _) as [category format_str].
    simpl. destruct (String.eqb _ _); reflexivity.
  - destruct (Fast._extract_series_format_category (Fast.page_text soup))
      as [category format_str] eqn:E. simpl in *.
    destruct (String.eqb _ target_format) eqn:T.
    + run.
      destruct (Fast._get_protected_download_url w _ tr) as [[[|c l]|] tr1];
        try reflexivity; rewrite IH; reflexivity.
    + rewrite IH. reflexivity.
Qed.

Lemma scan_formats_resolves (soup : Fast.page)
    (episode_code episode_text base_url : string)
    (priority_order : list string) (tr : Net.trace) :
  Fast.scan_formats w soup episode_code episode_text base_url priority_order tr
  = let '(r, tr1) :=
      Props.first_resolved w
        (List.concat
           (List.map
              (fun target_format =>
                 if String.eqb (Py.upper (Props.page_format soup)) target_format
                 then List.map (String.append base_url) (Fast.download_links soup)
                 else [])
              priority_order)) tr in
    (option_map (Fast.candidate soup episode_code episode_text) r, tr1).
Proof.
  revert tr. induction priority_order as [|target rest IH]; intros tr; simpl.
  - reflexivity.
  - run. rewrite scan_links_resolves.
    destruct (String.eqb _ target).
    + rewrite first_resolved_app.
      destruct (Props.first_resolved w _ tr) as [[x|] tr1]; simpl.
      * reflexivity.
      * apply IH.
    + simpl. apply IH.
Qed.

(** [_get_best_torrent_for_episode] is the resolution, in the order of
    [attempt_order], of the protected links of the page, with the
    quality of the page as the quality of the candidate. *)
Theorem best_torrent_refines (episode_url episode_code episode_text base_url
    : string) (priority_order : list string) (tr : Net.trace) (soup : Fast.page) :
  Fast.get_html w tr episode_url = Some soup ->
  Fast.download_links soup <> [] ->
  Fast._get_best_torrent_for_episode w episode_url episode_code episode_text
    base_url priority_order tr
  = let '(r, tr1) :=
      Props.first_resolved w (Props.attempt_order soup base_url priority_order)
        (tr ++ [Net.EvFetch episode_url])%list in
    (option_map (Fast.candidate soup episode_code episode_text) r, tr1).
Proof.
  intros Hpage Hlinks. unfold Fast._get_best_torrent_for_episode. run.
  rewrite Hpage.
  destruct (Fast.download_links soup) as [|download_link others] eqn:L;
    [contradiction|].
  rewrite scan_formats_resolves. unfold Props.attempt_order. rewrite L.
  rewrite first_resolved_app.
  destruct (Props.first_resolved w _ _) as [[x|] tr1]; simpl; [reflexivity|].
  run.
  destruct (Fast._get_protected_download_url w _ tr1) as [[[|c l]|] tr2];
    reflexivity.
Qed.

(** With the order of [_get_episodes], the page's quality is one tier
    and one only. *)
Lemma page_format_tier (soup : Fast.page) (base_url : string) :
  Props.attempt_order soup base_url Fast.PRIORITY_ORDER
  = (List.map (String.append base_url) (Fast.download_links soup)
     ++ List.map (String.append base_url)
          (List.firstn 1 (Fast.download_links soup)))%list.
Proof.
  unfold Props.attempt_order, Props.page_format. f_equal.
  destruct (fast_normalize_canonical
              (snd (Fast._extract_series_format_category (Fast.page_text soup))))
    as [H|[H|[H|H]]]; rewrite H; simpl; now rewrite app_nil_r.
Qed.

(** A page whose text shows 4K has the quality 4K, whatever else it
    shows. *)
Lemma page_format_4K (soup : Fast.page) :
  Py.contains (Fast.page_text soup) "4K" = true ->
  Props.page_format soup = "4K".
Proof.
  intros H. unfold Props.page_format, Fast._extract_series_format_category,
    Fast._extract_series_format. simpl. rewrite H. reflexivity.
Qed.

End EarlyExit.

Section EarlyExitClaims.

Ltac run := unfold mbind, M_bind, Net.bind, mret, M_ret, Net.ret, Net.ask.

(** The candidate carries the quality of the page. *)
Lemma candidate_format (soup : Fast.page) (episode_code episode_text l : string) :
  Fast.format (Fast.candidate soup episode_code episode_text l)
  = Props.page_format soup.
Proof.
  unfold Fast.candidate, Props.page_format.
  destruct (Fast._extract_series_format_category _); reflexivity.
Qed.

Lemma candidate_link (soup : Fast.page) (episode_code episode_text l : string) :
  Fast.link (Fast.candidate soup episode_code episode_text l) = l.
Proof.
  unfold Fast.candidate.
  destruct (Fast._extract_series_format_category _); reflexivity.
Qed.

(** What the early-exit scan does on the page that offers 4K and 720p. *)
Lemma two_formats_run :
  Fast._get_best_torrent_for_episode Sites.two_formats_site
    (Sites.base_url ++ "/episodio/1") "S01E01" "Serie S01E01"
    Sites.base_url Fast.PRIORITY_ORDER []
  = (Some (Fast.Torrent "S01E01" "Serie S01E01 4K"
             "released:https://site.example/download-torrent/validate/4k/11"
             "4K" "HD" "Serie S01E01"),
     Net.EvFetch "https://site.example/episodio/1"
     :: Props.resolution_events
          "https://site.example/download-torrent/generate/4k/11" "abc" 4).
Proof.
  cbv -[Fast._compute_proof_of_work]. reflexivity.
Qed.

(** C4 (code at the failing input).  Whatever the site, when the text of
    the episode page shows 4K the candidate returned is labelled 4K, also
    when a 720p rendition is offered; and on the page that offers 4K and
    720p, the 4K button first, the scan returns the 4K candidate after
    one resolution (one proof-of-work solve), that of the 4K link. *)
Theorem C4_early_exit_takes_page_quality (w : Fast.world)
    (episode_url episode_code episode_text base_url : string)
    (tr tr' : Net.trace) (soup : Fast.page) (t : Fast.torrent) :
  Fast.get_html w tr episode_url = Some soup ->
  Fast.download_links soup <> [] ->
  Py.contains (Fast.page_text soup) "4K" = true ->
  Fast._get_best_torrent_for_episode w episode_url episode_code episode_text
    base_url Fast.PRIORITY_ORDER tr = (Some t, tr') ->
  Fast.format t = "4K"
  /\ Fast._get_best_torrent_for_episode Sites.two_formats_site
       (Sites.base_url ++ "/episodio/1") "S01E01" "Serie S01E01"
       Sites.base_url Fast.PRIORITY_ORDER []
     = (Some (Fast.Torrent "S01E01" "Serie S01E01 4K"
                "released:https://site.example/download-torrent/validate/4k/11"
                "4K" "HD" "Serie S01E01"),
        Net.EvFetch "https://site.example/episodio/1"
        :: Props.resolution_events
             "https://site.example/download-torrent/generate/4k/11" "abc" 4).
Proof.
  intros Hpage Hlinks H4K Hrun. split; [|exact two_formats_run].
  rewrite (best_torrent_refines w _ _ _ _ _ _ soup Hpage Hlinks) in Hrun.
  destruct (Props.first_resolved w _ _) as [[x|] tr1]; simpl in Hrun;
    [|discriminate].
  injection Hrun as <- <-. rewrite candidate_format.
  now apply page_format_4K.
Qed.

Lemma C4_early_exit_takes_page_quality_witness :
  Py.contains (Fast.page_text Sites.two_formats_page) "720p" = true
  /\ Py.contains (Fast.page_text Sites.two_formats_page) "4K" = true
  /\ Fast.format
       (Fast.Torrent "S01E01" "Serie S01E01 4K"
          "released:https://site.example/download-torrent/validate/4k/11"
          "4K" "HD" "Serie S01E01") = "4K".
Proof.
  split; [reflexivity|]. split; [reflexivity|].
  apply (C4_early_exit_takes_page_quality Sites.two_formats_site
           (Sites.base_url ++ "/episodio/1") "S01E01" "Serie S01E01"
           Sites.base_url [] _ Sites.two_formats_page _
           eq_refl ltac:(discriminate) eq_refl two_formats_run).
Defined.

(** C10 as stated fails: on a page with two download buttons, when the
    resolution of the first fails at its challenge, the candidate
    returned carries the link released for the second. *)
Lemma C10_later_link_counterexample :
  Fast._get_best_torrent_for_episode Sites.flaky_site
    (Sites.base_url ++ "/episodio/1") "S01E01" "Serie S01E01"
    Sites.base_url Fast.PRIORITY_ORDER []
  = (Some (Fast.Torrent "S01E01" "Serie S01E01 720p"
             "released:https://site.example/download-torrent/validate/2"
             "720p" "HD" "Serie S01E01"),
     Net.EvFetch "https://site.example/episodio/1"
     :: Net.EvChallenge "https://site.example/download-torrent/generate/1"
     :: Props.resolution_events
          "https://site.example/download-torrent/generate/2" "abc" 4).
Proof.
  cbv -[Fast._compute_proof_of_work]. reflexivity.
Qed.

(** C10, amended.  The quality that ranks the links is that of the whole
    page, the same for every link, and it is the quality of any
    candidate returned.  The protected links are resolved in page order,
    the first download link first, a later one only when every earlier
    resolution gave no link, and after the last the first once more; the
    candidate carries the first link a resolution gives.  Hence it
    carries the link of the first download link whenever the resolution
    of that link gives one, and then nothing else is resolved. *)
Theorem C10_first_link_unless_it_fails (w : Fast.world)
    (episode_url episode_code episode_text base_url : string)
    (tr : Net.trace) (soup : Fast.page) (first : string) (others : list string) :
  Fast.get_html w tr episode_url = Some soup ->
  Fast.download_links soup = first :: others ->
  let fetched := (tr ++ [Net.EvFetch episode_url])%list in
  let result :=
    Fast._get_best_torrent_for_episode w episode_url episode_code
      episode_text base_url Fast.PRIORITY_ORDER tr in
  result
  = (let '(r, tr1) :=
       Props.first_resolved w
         (List.map (String.append base_url) (first :: others)
          ++ [String.append base_url first])%list fetched in
     (option_map (Fast.candidate soup episode_code episode_text) r, tr1))
  /\ (forall t, fst result = Some t -> Fast.format t = Props.page_format soup)
  /\ (forall c l tr1,
        Fast._get_protected_download_url w (base_url ++ first) fetched
        = (Some (String c l), tr1) ->
        result
        = (Some (Fast.candidate soup episode_code episode_text (String c l)),
           tr1)).
Proof.
  intros Hpage Hlinks fetched result.
  assert (Hne : Fast.download_links soup <> []) by (rewrite Hlinks; discriminate).
  assert (Hrun := best_torrent_refines w episode_url episode_code episode_text
                    base_url Fast.PRIORITY_ORDER tr soup Hpage Hne).
  rewrite page_format_tier, Hlinks in Hrun. fold result fetched in Hrun.
  change (List.map (String.append base_url) (List.firstn 1 (first :: others)))
    with [base_url ++ first] in Hrun.
  split; [exact Hrun|]. split.
  - intros t Ht. rewrite Hrun in Ht.
    destruct (Props.first_resolved w _ fetched) as [[x|] tr1]; simpl in Ht;
      [|discriminate].
    injection Ht as <-. apply candidate_format.
  - intros c l tr1 Hfirst. rewrite Hrun.
    cbn [List.map app Props.first_resolved]. run.
    change (String.append base_url first) with (base_url ++ first).
    rewrite Hfirst. reflexivity.
Qed.

Lemma C10_first_link_unless_it_fails_witness :
  Fast.get_html Sites.two_formats_site [] "https://site.example/episodio/1"
  = Some Sites.two_formats_page
  /\ Fast.download_links Sites.two_formats_page
     = ["/download-torrent/generate/4k/11"; "/download-torrent/generate/720p/12"]
  /\ (forall t,
        fst (Fast._get_best_torrent_for_episode Sites.two_formats_site
               "https://site.example/episodio/1" "S01E01" "Serie S01E01"
               Sites.base_url Fast.PRIORITY_ORDER []) = Some t ->
        Fast.format t = Props.page_format Sites.two_formats_page).
Proof.
  split; [reflexivity|]. split; [reflexivity|].
  apply (C10_first_link_unless_it_fails Sites.two_formats_site
           "https://site.example/episodio/1" "S01E01" "Serie S01E01"
           Sites.base_url [] Sites.two_formats_page
           "/download-torrent/generate/4k/11"
           ["/download-torrent/generate/720p/12"] eq_refl eq_refl).
Defined.

End EarlyExitClaims.

(* ===================================================================== *)
(** ** Missing criteria                                                    *)
(* ===================================================================== *)

Section Criteria.

Lemma guard_rejects (criteria : gmap string Py.value) (k : string) :
  List.In k Props.required ->
  criteria !! k = None ->
  forallb Py.value_truthy
    [Py.dict_get criteria "base_url"; Py.dict_get criteria "serie_name";
     Py.dict_get criteria "start_episode"; Py.dict_get criteria "end_episode"]
  = false.
Proof.
  intros Hk Hnone. unfold Props.required in Hk. simpl in Hk.
  destruct Hk as [<-|[<-|[<-|[<-|[]]]]];
    unfold Py.dict_get at 1 2 3 4; rewrite Hnone; simpl;
    rewrite ?andb_false_r; reflexivity.
Qed.

(** C7 as stated fails for the early-exit scraper: without
    [start_episode] its [scrape] raises [ValueError] and returns no
    result. *)
Lemma C7_fast_scrape_raises_counterexample :
  Sites.no_start_episode !! "start_episode" = None
  /\ Fast.scrape Sites.empty_site Sites.no_start_episode []
     = (Fast.Raised
          (Fast.ValueError
             "Se requieren 'base_url', 'serie_name', 'start_episode' y 'end_episode'"),
        []).
Proof. split; reflexivity. Qed.

(** C7, amended.  For a criteria dictionary that lacks one of the four
    required fields, the exhaustive [scrape] returns its error result,
    with the empty torrent list, and the early-exit [scrape] raises
    [ValueError]; neither performs a network call. *)
Theorem C7_missing_field (criteria : gmap string Py.value) (k : string) :
  List.In k Props.required ->
  criteria !! k = None ->
  (forall (w : Exhaustive.world) (tr : Net.trace),
     Exhaustive.scrape w criteria tr
     = (Exhaustive.Failure
          "Faltan parámetros requeridos: base_url, serie_name, start_episode, end_episode"
          [], tr))
  /\ (forall (w : Fast.world) (tr : Net.trace),
        Fast.scrape w criteria tr
        = (Fast.Raised
             (Fast.ValueError
                "Se requieren 'base_url', 'serie_name', 'start_episode' y 'end_episode'"),
           tr)).
Proof.
  intros Hk Hnone. pose proof (guard_rejects criteria k Hk Hnone) as G.
  split; intros w tr.
  - unfold Exhaustive.scrape. rewrite G. reflexivity.
  - unfold Fast.scrape. rewrite G. reflexivity.
Qed.

Lemma C7_missing_field_witness :
  List.In "start_episode" Props.required
  /\ Sites.no_start_episode !! "start_episode" = None
  /\ Exhaustive.scrape Sites.catalogue Sites.no_start_episode []
     = (Exhaustive.Failure
          "Faltan parámetros requeridos: base_url, serie_name, start_episode, end_episode"
          [], []).
Proof.
  assert (Hin : List.In "start_episode" Props.required)
    by (simpl; tauto).
  split; [exact Hin|]. split; [reflexivity|].
  apply (C7_missing_field Sites.no_start_episode "start_episode" Hin eq_refl).
Defined.

End Criteria.

(* ===================================================================== *)
(** ** The range filter comes before the link resolver                     *)
(* ===================================================================== *)

Section Traces.

Ltac run := unfold mbind, M_bind, Net.bind, mret, M_ret, Net.ret, Net.ask.
Ltac none :=
  exists (@nil Net.event);
  split; [simpl; now rewrite app_nil_r | now left].

Lemma grows_ret {A} (a : A) : Props.grows (mret a).
Proof. intros tr. exists []. simpl. now rewrite app_nil_r. Qed.

Lemma grows_ask {A} (oracle : Net.trace -> A) (e : Net.event) :
  Props.grows (Net.ask oracle e).
Proof. intros tr. exists [e]. reflexivity. Qed.

Lemma grows_bind {A B} (m : Net.M A) (k : A -> Net.M B) :
  Props.grows m -> (forall a, Props.grows (k a)) -> Props.grows (m ≫= k).
Proof.
  intros Hm Hk tr. run. destruct (Hm tr) as [e1 H1].
  destruct (m tr) as [a tr1]. simpl in H1. subst tr1.
  destruct (Hk a (tr ++ e1)%list) as [e2 H2].
  exists (e1 ++ e2)%list. now rewrite H2, app_assoc.
Qed.

(** The events of a loop are those of its iterations, in order. *)
Lemma for_each_events {A S} (body : S -> A -> Net.M S)
    (P : A -> list Net.event -> Prop) :
  (forall acc x tr, exists evs, snd (body acc x tr) = (tr ++ evs)%list /\ P x evs) ->
  forall l acc tr,
  exists evss,
    snd (Net.for_each body l acc tr) = (tr ++ List.concat evss)%list
    /\ List.Forall2 P l evss.
Proof.
  intros Hbody. induction l as [|x l IH]; intros acc tr; simpl.
  - exists []. simpl. rewrite app_nil_r. split; [reflexivity|constructor].
  - unfold Net.bind. destruct (Hbody acc x tr) as (evs & H1 & HP).
    destruct (body acc x tr) as [acc1 tr1]. simpl in H1. subst tr1.
    destruct (IH acc1 (tr ++ evs)%list) as (evss & H2 & HF).
    exists (evs :: evss). simpl. rewrite H2, app_assoc.
    split; [reflexivity|now constructor].
Qed.

Section ExhaustiveCrawl.
Variable w : Exhaustive.world.
Variables (serie_data : Exhaustive.serie)
          (base_url start_episode end_episode calidad : Py.value).

(** A row whose code is out of range is dropped with no event. *)
Lemma exhaustive_row_out_of_range
    (episode_format format_string : string)
    (columnas : list Exhaustive.cell) (code : string) (tr : Net.trace) :
  Props.row_code episode_format columnas = Some code ->
  Exhaustive._is_in_range code start_episode end_episode = false ->
  Exhaustive.episode_of_row w serie_data base_url start_episode end_episode
    episode_format format_string columnas tr
  = (None, tr).
Proof.
  unfold Props.row_code, Exhaustive.episode_of_row.
  destruct columnas as [|c0 [|c1 rest]]; try discriminate.
  destruct (Exhaustive._extract_episode_code _) as [c|]; [|discriminate].
  intros H; injection H as <-. intros ->.
  destruct (negb (Exhaustive._is_valid_status_format _)); reflexivity.
Qed.

Lemma exhaustive_row_events (episode_format format_string : string)
    (columnas : list Exhaustive.cell) (tr : Net.trace) :
  exists evs,
    snd (Exhaustive.episode_of_row w serie_data base_url start_episode
           end_episode episode_format format_string columnas tr)
    = (tr ++ evs)%list
    /\ Props.row_events start_episode end_episode base_url episode_format
         columnas evs.
Proof.
  unfold Exhaustive.episode_of_row, Props.row_events, Props.row_code,
    Props.row_content_id.
  destruct columnas as [|c0 [|c1 rest]]; try none.
  destruct (Exhaustive._extract_episode_code _) as [c|]; [|none].
  destruct (Exhaustive._is_valid_status_format _) eqn:V; [|none].
  destruct (Exhaustive._is_in_range _ _ _) eqn:R; [|none].
  cbn [negb]. destruct (Exhaustive.cell_anchor c1) as [[cid|]|]; try none.
  destruct (Py.truthy (Some cid)); [|none].
  cbn [negb]. run. exists [Net.EvResolve cid base_url]. split.
  - destruct (Exhaustive.protected_download_url w tr cid base_url); reflexivity.
  - right. exists (episode_format ++ c), cid. auto.
Qed.

(** The trace of [_get_episodes]: the fetch of the page, then the
    events of its rows, row by row. *)
Lemma exhaustive_crawl_events (tr : Net.trace) (page : Exhaustive.series_page)
    (filas : list (list Exhaustive.cell)) :
  Exhaustive.fetch_page w tr (Exhaustive.serie_url serie_data) = Some page ->
  Exhaustive.table_rows page = Some (Some filas) ->
  exists evss,
    snd (Exhaustive._get_episodes w serie_data base_url start_episode
           end_episode calidad tr)
    = (tr ++ [Net.EvFetch (Exhaustive.serie_url serie_data)]
          ++ List.concat evss)%list
    /\ List.Forall2
         (Props.row_events start_episode end_episode base_url
            (fst (Exhaustive._extract_series_format_category
                    (Exhaustive.raw_format page))))
         filas evss.
Proof.
  intros Hpage Hrows. unfold Exhaustive._get_episodes. run.
  rewrite Hpage.
  destruct (Exhaustive._extract_series_format_category _)
    as [episode_format format_string]. rewrite Hrows. simpl.
  match goal with
  | |- context [Net.for_each ?body filas [] ?t] =>
      destruct (for_each_events body
                  (Props.row_events start_episode end_episode base_url
                     episode_format)) with (l := filas) (acc := @nil Exhaustive.torrent)
                  (tr := t) as (evss & H & HF)
  end.
  - intros acc x t.
    destruct (exhaustive_row_events episode_format format_string x t)
      as (evs & H & HP).
    exists evs. split; [|exact HP]. run.
    destruct (Exhaustive.episode_of_row _ _ _ _ _ _ _ _ _) as [r t1].
    exact H.
  - exists evss. rewrite H, <- app_assoc. split; [reflexivity|exact HF].
Qed.
End ExhaustiveCrawl.

Section FastCrawl.
Variable w : Fast.world.

Lemma grows_resolve (download_url : string) :
  Props.grows (Fast._get_protected_download_url w download_url).
Proof.
  unfold Fast._get_protected_download_url.
  apply grows_bind; [apply grows_ask|]. intros [[[ch|] d]|]; try apply grows_ret.
  apply grows_bind; [apply grows_ask|]. intros nonce.
  apply grows_bind; [apply grows_ask|]. intros [[[st|] u]|]; try apply grows_ret.
  destruct (String.eqb st "success"); apply grows_ret.
Qed.

Lemma grows_first_resolved (urls : list string) :
  Props.grows (Props.first_resolved w urls).
Proof.
  induction urls as [|u r IH]; simpl; [apply grows_ret|].
  apply grows_bind; [apply grows_resolve|].
  intros [[|c l]|]; auto using grows_ret.
Qed.

Lemma grows_best_torrent (episode_url episode_code episode_text base_url
    : string) (priority_order : list string) :
  Props.grows (Fast._get_best_torrent_for_episode w episode_url episode_code
                 episode_text base_url priority_order).
Proof.
  intros tr.
  destruct (Fast.get_html w tr episode_url) as [soup|] eqn:Hpage.
  - destruct (Fast.download_links soup) as [|first others] eqn:L.
    + unfold Fast._get_best_torrent_for_episode. run. rewrite Hpage, L.
      exists [Net.EvFetch episode_url]. reflexivity.
    + rewrite (best_torrent_refines w _ _ _ _ _ _ soup Hpage)
        by (rewrite L; discriminate).
      destruct (grows_first_resolved
                  (Props.attempt_order soup base_url priority_order)
                  (tr ++ [Net.EvFetch episode_url])%list) as [evs H].
      destruct (Props.first_resolved w _ _) as [r tr1]. simpl in *.
      exists ([Net.EvFetch episode_url] ++ evs)%list.
      now rewrite H, app_assoc.
  - unfold Fast._get_best_torrent_for_episode. run. rewrite Hpage.
    exists [Net.EvFetch episode_url]. reflexivity.
Qed.

(** An episode link whose code is out of range is dropped with no
    event: its page is not even fetched. *)
Lemma fast_link_out_of_range (start_episode end_episode : option string)
    (base_url : string) (link : string * string) (code : string)
    (tr : Net.trace) :
  Props.link_code link = Some code ->
  Fast._is_in_range code start_episode end_episode = false ->
  Fast.episode_of_link w start_episode end_episode base_url link tr
  = (None, tr).
Proof.
  unfold Props.link_code, Fast.episode_of_link. destruct link as [href text].
  simpl. destruct (Re.search _ text) as [[g1 g2]|]; [|discriminate].
  intros H; injection H as <-. intros ->. reflexivity.
Qed.

Lemma fast_link_events (start_episode end_episode : option string)
    (base_url : string) (link : string * string) (tr : Net.trace) :
  exists evs,
    snd (Fast.episode_of_link w start_episode end_episode base_url link tr)
    = (tr ++ evs)%list
    /\ Props.link_events start_episode end_episode link evs.
Proof.
  unfold Props.link_events, Props.link_code, Fast.episode_of_link.
  destruct link as [href text]. simpl.
  destruct (Re.search _ text) as [[g1 g2]|].
  - destruct (Fast._is_in_range _ _ _) eqn:R; simpl.
    + destruct (grows_best_torrent (base_url ++ href)
                  ("S" ++ Py.zfill 2 g1 ++ "E" ++ Py.zfill 2 g2) text base_url
                  Fast.PRIORITY_ORDER tr) as [evs H].
      exists evs. split; [exact H|]. right. eauto.
    + exists []. split; [now rewrite app_nil_r|now left].
  - exists []. split; [simpl; now rewrite app_nil_r|now left].
Qed.

Lemma fast_crawl_events (series_url : string) (season : Z)
    (start_episode end_episode : option string) (base_url : string)
    (tr : Net.trace) (soup : Fast.page) :
  let season_url :=
    series_url ++ "/temporada-" ++ Py.zfill 2 (Py.str_of_int season) in
  Fast.get_html w tr season_url = Some soup ->
  exists evss,
    snd (Fast._get_episodes w series_url season start_episode end_episode
           base_url tr)
    = (tr ++ [Net.EvFetch season_url] ++ List.concat evss)%list
    /\ List.Forall2 (Props.link_events start_episode end_episode)
         (Fast.episode_links soup) evss.
Proof.
  intros season_url Hpage. unfold Fast._get_episodes. run.
  fold season_url. rewrite Hpage.
  match goal with
  | |- context [Net.for_each ?body (Fast.episode_links soup) [] ?t] =>
      destruct (for_each_events body
                  (Props.link_events start_episode end_episode))
        with (l := Fast.episode_links soup) (acc := @nil Fast.torrent) (tr := t)
        as (evss & H & HF)
  end.
  - intros acc x t.
    destruct (fast_link_events start_episode end_episode base_url x t)
      as (evs & H & HP).
    exists evs. split; [|exact HP]. run.
    destruct (Fast.episode_of_link _ _ _ _ _ _) as [r t1]. exact H.
  - exists evss. split; [|exact HF].
    destruct (Net.for_each _ _ _ _) as [ts t1]. simpl in *.
    now rewrite H, <- app_assoc.
Qed.
End FastCrawl.

(** C6.  In both crawlers a row (an episode link) whose code is out of
    range is dropped before anything is asked of the network; and the
    trace of a crawl is the fetch of the page followed, row by row, by
    the events of the rows, which are none for a row out of range: in
    the exhaustive crawler a row has no event or the one call of the
    link resolver, and then its code is valid and in range; in the
    early-exit crawler a link has events only when its code is in
    range. *)
Theorem C6_range_filter_first :
  (forall (w : Exhaustive.world) serie_data base_url start_episode end_episode
          episode_format format_string columnas code tr,
     Props.row_code episode_format columnas = Some code ->
     Exhaustive._is_in_range code start_episode end_episode = false ->
     Exhaustive.episode_of_row w serie_data base_url start_episode end_episode
       episode_format format_string columnas tr = (None, tr))
  /\ (forall (w : Exhaustive.world) serie_data base_url start_episode
             end_episode calidad tr page filas,
        Exhaustive.fetch_page w tr (Exhaustive.serie_url serie_data) = Some page ->
        Exhaustive.table_rows page = Some (Some filas) ->
        exists evss,
          snd (Exhaustive._get_episodes w serie_data base_url start_episode
                 end_episode calidad tr)
          = (tr ++ [Net.EvFetch (Exhaustive.serie_url serie_data)]
                ++ List.concat evss)%list
          /\ List.Forall2
               (Props.row_events start_episode end_episode base_url
                  (fst (Exhaustive._extract_series_format_category
                          (Exhaustive.raw_format page))))
               filas evss)
  /\ (forall (w : Fast.world) start_episode end_episode base_url link code tr,
        Props.link_code link = Some code ->
        Fast._is_in_range code start_episode end_episode = false ->
        Fast.episode_of_link w start_episode end_episode base_url link tr
        = (None, tr))
  /\ (forall (w : Fast.world) series_url season start_episode end_episode
             base_url tr soup,
        Fast.get_html w tr
          (series_url ++ "/temporada-" ++ Py.zfill 2 (Py.str_of_int season))
        = Some soup ->
        exists evss,
          snd (Fast._get_episodes w series_url season start_episode end_episode
                 base_url tr)
          = (tr ++ [Net.EvFetch
                      (series_url ++ "/temporada-"
                       ++ Py.zfill 2 (Py.str_of_int season))]
                ++ List.concat evss)%list
          /\ List.Forall2 (Props.link_events start_episode end_episode)
               (Fast.episode_links soup) evss).
Proof.
  split; [|split; [|split]].
  - intros. now apply exhaustive_row_out_of_range with (code := code).
  - intros. now apply exhaustive_crawl_events.
  - intros. now apply fast_link_out_of_range with (code := code).
  - intros. now apply fast_crawl_events.
Qed.

(** The catalogue crawled for S01E01 to S01E02: three calls of the
    resolver, none for the row of S01E03. *)
Lemma catalogue_crawl :
  snd (Exhaustive._get_episodes Sites.catalogue
         (Exhaustive.Serie "Serie" "Serie - 1 Temporada"
            "https://site.example/serie/1" "/serie/1")
         (Py.VStr Sites.base_url) (Py.VStr "S01E01") (Py.VStr "S01E02")
         Py.VNone [])
  = [Net.EvFetch "https://site.example/serie/1";
     Net.EvResolve "101" (Py.VStr Sites.base_url);
     Net.EvResolve "102" (Py.VStr Sites.base_url);
     Net.EvResolve "103" (Py.VStr Sites.base_url)].
Proof. vm_compute. reflexivity. Qed.

Lemma C6_range_filter_first_witness :
  Props.row_code "HD" (Sites.row "1x03" "104") = Some "HDS01E03"
  /\ Exhaustive._is_in_range "HDS01E03" (Py.VStr "S01E01") (Py.VStr "S01E02")
     = false
  /\ Exhaustive.episode_of_row Sites.catalogue
       (Exhaustive.Serie "Serie" "Serie - 1 Temporada"
          "https://site.example/serie/1" "/serie/1")
       (Py.VStr Sites.base_url) (Py.VStr "S01E01") (Py.VStr "S01E02")
       "HD" "720p" (Sites.row "1x03" "104") []
     = (None, []).
Proof.
  split; [reflexivity|]. split; [reflexivity|].
  destruct C6_range_filter_first as (Hrow & _).
  apply (Hrow Sites.catalogue _ _ _ _ "HD" "720p" _ "HDS01E03" []);
    reflexivity.
Defined.

(** The catalogue scraped for S01E01 to S01E02. *)
Lemma catalogue_scrape :
  let t (status content_id : string) :=
    Exhaustive.Torrent status "720p" "Serie" "Serie - 1 Temporada"
      ("https://site.example/torrents/" ++ content_id) status in
  fst (Exhaustive.scrape Sites.catalogue Sites.full_request [])
  = Exhaustive.Success [t "HDS01E01" "101"; t "HDS01E02" "103"]
      [t "HDS01E01" "102"] 2 3 1 (Py.VStr "Serie") (Py.VStr Sites.base_url).
Proof. vm_compute. reflexivity. Qed.

Lemma C9_exhaustive_result_partition_witness :
  let t (status content_id : string) :=
    Exhaustive.Torrent status "720p" "Serie" "Serie - 1 Temporada"
      ("https://site.example/torrents/" ++ content_id) status in
  let base_url := Py.dict_get Sites.full_request "base_url" in
  let name := Py.dict_get Sites.full_request "serie_name" in
  let gathered :=
    fst (Exhaustive.gather Sites.catalogue
           (Exhaustive.search_series Sites.catalogue [] base_url name) base_url
           (Py.dict_get Sites.full_request "start_episode")
           (Py.dict_get Sites.full_request "end_episode")
           (Py.dict_get Sites.full_request "calidad")
           ([] ++ [Net.EvSearch base_url name])%list) in
  fst (Exhaustive.scrape Sites.catalogue Sites.full_request [])
  = Exhaustive.Success [t "HDS01E01" "101"; t "HDS01E02" "103"]
      [t "HDS01E01" "102"] 2 3 1 (Py.VStr "Serie") (Py.VStr Sites.base_url)
  /\ gathered = [t "HDS01E01" "101"; t "HDS01E01" "102"; t "HDS01E02" "103"]
  /\ Permutation ([t "HDS01E01" "101"; t "HDS01E02" "103"] ++ [t "HDS01E01" "102"])
       gathered
  /\ List.NoDup
       (List.map Exhaustive.status [t "HDS01E01" "101"; t "HDS01E02" "103"])
  /\ (forall x, List.In x gathered ->
        exists t', List.In t' [t "HDS01E01" "101"; t "HDS01E02" "103"]
                   /\ Exhaustive.status t' = Exhaustive.status x).
Proof.
  intros t base_url name gathered.
  split; [exact catalogue_scrape|]. split; [vm_compute; reflexivity|].
  destruct (Exhaustive.scrape Sites.catalogue Sites.full_request [])
    as [r tr'] eqn:Hrun.
  pose proof catalogue_scrape as Hr. rewrite Hrun in Hr. simpl in Hr.
  rewrite Hr in Hrun.
  destruct (C9_exhaustive_result_partition _ _ _ _ _ _ _ _ _ _ _ Hrun)
    as (_ & Hperm & Hnd & Hall & _).
  split; [exact Hperm|]. split; [exact Hnd|exact Hall].
Defined.

End Traces.

(* ===================================================================== *)
(** ** The two range filters compared                                      *)
(* ===================================================================== *)

Section RangeAgreement.

Lemma after_D (b : ascii) :
  Py.eqb_nocase b "D" = true ->
  Py.is_digit b = false
  /\ Py.eqb_nocase b "S" = false
  /\ Py.eqb_nocase b "H" = false.
Proof.
  destruct b as [b0 b1 b2 b3 b4 b5 b6 b7].
  destruct b0, b1, b2, b3, b4, b5, b6, b7; intros H;
    try discriminate H; repeat split; reflexivity.
Qed.

Lemma quality_prefix_inv (nocase : bool) (s t : string) :
  Re.quality_prefix nocase s = Some t ->
  exists a b, s = String a (String b t) /\ Py.eqb_nocase b "D" = true.
Proof.
  unfold Re.quality_prefix. destruct s as [|a [|b r]]; try discriminate.
  destruct nocase.
  - destruct (_ || _); [|discriminate].
    destruct (Py.eqb_nocase b "D") eqn:E; [|discriminate].
    intros H; injection H as <-. eauto.
  - destruct (_ || _); [|discriminate].
    destruct (Ascii.eqb b "D") eqn:E; [|discriminate].
    apply Ascii.eqb_eq in E. subst b.
    intros H; injection H as <-. eauto.
Qed.

(** No code starts at the H or at the D of a quality prefix. *)
Lemma long_at_prefix (a b : ascii) (t : string) :
  Py.eqb_nocase b "D" = true ->
  Re.season_episode_long_at (String a (String b t)) = None
  /\ Re.season_episode_long_at (String b t) = None.
Proof.
  intros Hb. destruct (after_D b Hb) as (Hd & Hs & _). split.
  - unfold Re.season_episode_long_at.
    destruct (Py.eqb_nocase a "S"); [|reflexivity].
    cbn [Py.span_digits]. rewrite Hd. reflexivity.
  - unfold Re.season_episode_long_at. now rewrite Hs.
Qed.

Lemma search_cons {A} (at_pos : string -> option A) (c : ascii) (s : string) :
  Re.search at_pos (String c s)
  = match at_pos (String c s) with
    | Some r => Some r
    | None => Re.search at_pos s
    end.
Proof. reflexivity. Qed.

Lemma search_step {A} (at_pos : string -> option A) (c : ascii) (s : string) :
  at_pos (String c s) = None ->
  Re.search at_pos (String c s) = Re.search at_pos s.
Proof. intros H. now rewrite search_cons, H. Qed.

(** Dropping the HD or SD written before a code changes nothing of what
    the pattern finds. *)
Lemma strip_then_search (s : string) :
  Re.search Re.season_episode_long_at (Re.strip_quality_prefix s)
  = Re.search Re.season_episode_long_at s.
Proof.
  unfold Re.strip_quality_prefix.
  destruct (Re.quality_prefix false s) as [t|] eqn:E; [|reflexivity].
  apply quality_prefix_inv in E as (a & b & -> & Hb).
  destruct (long_at_prefix a b t Hb) as [H1 H2].
  now rewrite (search_step _ _ _ H1), (search_step _ _ _ H2).
Qed.

(** The optional group [(?:HD|SD)?] changes nothing either. *)
Lemma prefixed_search (s : string) :
  Re.search Re.prefixed_season_episode_at s
  = Re.search Re.season_episode_long_at s.
Proof.
  remember (String.length s) as n eqn:Hn. revert s Hn.
  induction n as [n IH] using lt_wf_ind. intros s ->.
  destruct s as [|a s]; [reflexivity|].
  destruct (Re.quality_prefix true (String a s)) as [t|] eqn:Q.
  - apply quality_prefix_inv in Q as Q'.
    destruct Q' as (a' & b & Heq & Hb). injection Heq as <- ->.
    destruct (long_at_prefix a b t Hb) as [H1 H2].
    destruct (after_D b Hb) as (_ & Hs & Hh).
    rewrite (search_step _ _ _ H1), (search_step _ _ _ H2).
    assert (Hb' : Re.prefixed_season_episode_at (String b t) = None).
    { unfold Re.prefixed_season_episode_at.
      assert (Re.quality_prefix true (String b t) = None) as ->; [|exact H2].
      unfold Re.quality_prefix. destruct t as [|c t]; [reflexivity|].
      now rewrite Hh, Hs. }
    rewrite search_cons. unfold Re.prefixed_season_episode_at at 1. rewrite Q, H1.
    destruct (Re.season_episode_long_at t) as [g|] eqn:T.
    + symmetry. now apply search_head.
    + rewrite (search_step _ _ _ Hb').
      apply (IH (String.length t)); [simpl; lia|reflexivity].
  - rewrite !search_cons. unfold Re.prefixed_season_episode_at at 1. rewrite Q.
    destruct (Re.season_episode_long_at (String a s)); [reflexivity|].
    apply (IH (String.length s)); [simpl; lia|reflexivity].
Qed.

(** X1.  Given as strings of which one at least is not empty, the bounds
    make both [_is_in_range] answer alike on every code, as long as no
    run of digits in the code or in a bound is longer than [int]
    converts. *)
Theorem range_filters_agree (episode_code start end_ : string) :
  Terms.int_sized_str episode_code ->
  Terms.int_sized_str start ->
  Terms.int_sized_str end_ ->
  Py.truthy (Some start) || Py.truthy (Some end_) = true ->
  Exhaustive._is_in_range episode_code (Py.VStr start) (Py.VStr end_)
  = Fast._is_in_range episode_code (Some start) (Some end_).
Proof.
  intros _ _ _ Hne. unfold Exhaustive._is_in_range, Fast._is_in_range.
  assert (negb (Py.truthy (Some start)) && negb (Py.truthy (Some end_)) = false)
    as ->.
  { destruct (Py.truthy (Some start)), (Py.truthy (Some end_));
      simpl in *; congruence. }
  rewrite !strip_then_search, !prefixed_search.
  destruct (Re.search Re.season_episode_long_at episode_code) as [[g1 g2]|];
    [|reflexivity].
  cbn [from_option id].
  assert (Hs : (if Py.truthy (Some start)
                then Range.after_start (Py.int_of_digits g1) (Py.int_of_digits g2)
                       (Re.search Re.season_episode_long_at start)
                else true)
               = Range.after_start (Py.int_of_digits g1) (Py.int_of_digits g2)
                   (Re.search Re.season_episode_long_at start)).
  { destruct start; reflexivity. }
  rewrite Hs.
  destruct (negb (Range.after_start _ _ _)); [reflexivity|].
  destruct end_; reflexivity.
Qed.

Lemma range_filters_agree_witness :
  Exhaustive._is_in_range "hds02e05 extra" (Py.VStr "SDS01E10") (Py.VStr EmptyString)
  = Fast._is_in_range "hds02e05 extra" (Some "SDS01E10") (Some EmptyString).
Proof. apply range_filters_agree; reflexivity. Defined.

End RangeAgreement.

(* ===================================================================== *)
(** ** The range as an interval                                            *)
(* ===================================================================== *)

Section RangeInterval.

Lemma after_start_spec (cs ce : Z) (g1 g2 : string) :
  Range.after_start cs ce (Some (g1, g2)) = true
  <-> Py.int_of_digits g1 < cs
      \/ (Py.int_of_digits g1 = cs /\ Py.int_of_digits g2 <= ce).
Proof.
  unfold Range.after_start.
  destruct (Z.ltb_spec cs (Py.int_of_digits g1));
  destruct (Z.eqb_spec cs (Py.int_of_digits g1));
  destruct (Z.ltb_spec ce (Py.int_of_digits g2));
    cbn; split; intros; try discriminate; try lia; reflexivity.
Qed.

Lemma before_end_spec (cs ce : Z) (g1 g2 : string) :
  Range.before_end cs ce (Some (g1, g2)) = true
  <-> cs < Py.int_of_digits g1
      \/ (cs = Py.int_of_digits g1 /\ ce <= Py.int_of_digits g2).
Proof.
  unfold Range.before_end. rewrite !Z.gtb_ltb.
  destruct (Z.ltb_spec (Py.int_of_digits g1) cs);
  destruct (Z.eqb_spec cs (Py.int_of_digits g1));
  destruct (Z.ltb_spec (Py.int_of_digits g2) ce);
    cbn; split; intros; try discriminate; try lia; reflexivity.
Qed.

(** The answer of both filters on a well-formed code, from what the
    bounds parse to. *)
Lemma in_range_bounds (cs ce : Z) (s e : option (string * string)) :
  (if negb (Range.after_start cs ce s) then false else Range.before_end cs ce e)
  = true
  <-> Range.after_start cs ce s = true /\ Range.before_end cs ce e = true.
Proof.
  destruct (Range.after_start cs ce s), (Range.before_end cs ce e);
    cbn; split; intros; try discriminate; intuition congruence.
Qed.

Lemma exhaustive_in_range_wf (c : Props.code) (start end_ : string) :
  Props.well_formed c = true ->
  Exhaustive._is_in_range (Props.render c) (Py.VStr start) (Py.VStr end_) = true
  <-> Range.after_start (Props.season_number c) (Props.episode_number c)
        (Re.search Re.season_episode_long_at start) = true
      /\ Range.before_end (Props.season_number c) (Props.episode_number c)
           (Re.search Re.season_episode_long_at end_) = true.
Proof.
  intros Hc. unfold Exhaustive._is_in_range.
  rewrite (exhaustive_reads c Hc), !strip_then_search.
  apply in_range_bounds.
Qed.

Lemma after_start_convex (a b : Props.code) (s : option (string * string)) :
  Terms.not_after a b ->
  Range.after_start (Props.season_number a) (Props.episode_number a) s = true ->
  Range.after_start (Props.season_number b) (Props.episode_number b) s = true.
Proof.
  destruct s as [[g1 g2]|]; [|reflexivity].
  rewrite !after_start_spec. unfold Terms.not_after. lia.
Qed.

Lemma before_end_convex (b c : Props.code) (e : option (string * string)) :
  Terms.not_after b c ->
  Range.before_end (Props.season_number c) (Props.episode_number c) e = true ->
  Range.before_end (Props.season_number b) (Props.episode_number b) e = true.
Proof.
  destruct e as [[g1 g2]|]; [|reflexivity].
  rewrite !before_end_spec. unfold Terms.not_after. lia.
Qed.

(** X2.  The codes the exhaustive filter lets through form an interval:
    between two codes that are in range, whatever the bounds are, every
    code is in range.  The codes and the bounds have no run of digits
    longer than [int] converts. *)
Theorem exhaustive_range_is_convex (a b c : Props.code) (start end_ : Py.value) :
  Props.well_formed a = true ->
  Props.well_formed b = true ->
  Props.well_formed c = true ->
  Terms.int_sized a ->
  Terms.int_sized b ->
  Terms.int_sized c ->
  Terms.int_sized_value start ->
  Terms.int_sized_value end_ ->
  Terms.not_after a b ->
  Terms.not_after b c ->
  Exhaustive._is_in_range (Props.render a) start end_ = true ->
  Exhaustive._is_in_range (Props.render c) start end_ = true ->
  Exhaustive._is_in_range (Props.render b) start end_ = true.
Proof.
  intros Ha Hb Hc _ _ _ _ _ Hab Hbc.
  destruct start as [|start| |]; try (intros H; discriminate H).
  destruct end_ as [|end_| |]; try (intros H; discriminate H).
  rewrite !exhaustive_in_range_wf by assumption.
  intros [Ha1 _] [_ Hc2]. split.
  - now apply (after_start_convex a b).
  - now apply (before_end_convex b c).
Qed.

Lemma exhaustive_range_is_convex_witness :
  Exhaustive._is_in_range "HDS01E07" (Py.VStr "S01E05") (Py.VStr "S02E03") = true.
Proof.
  apply (exhaustive_range_is_convex
           (Props.Code EmptyString "01" "05") (Props.Code "HD" "01" "07")
           (Props.Code "SD" "02" "03") (Py.VStr "S01E05") (Py.VStr "S02E03"));
    try reflexivity; try (split; unfold Builtins.int_max_str_digits; simpl; lia).
  - right. split; [reflexivity|]. vm_compute. discriminate.
  - left. reflexivity.
Defined.

(** X3.  Degenerate ranges.  With the bounds on the same episode the filters
    let through the codes of that episode and no other; with the end
    before the start they let nothing through.  The code and the bounds
    have no more digits than [int] converts. *)
Theorem range_single_or_empty (c start end_ : Props.code) :
  Props.well_formed c = true ->
  Props.well_formed start = true ->
  Props.well_formed end_ = true ->
  Terms.int_sized c ->
  Terms.int_sized start ->
  Terms.int_sized end_ ->
  let exhaustive :=
    Exhaustive._is_in_range (Props.render c) (Py.VStr (Props.render start))
      (Py.VStr (Props.render end_)) in
  let fast :=
    Fast._is_in_range (Props.render c) (Some (Props.render start))
      (Some (Props.render end_)) in
  (Terms.same_episode start end_ ->
   (exhaustive = true <-> Terms.same_episode c start)
   /\ (fast = true <-> Terms.same_episode c start))
  /\ (~ Terms.not_after start end_ -> exhaustive = false /\ fast = false).
Proof.
  intros Hc Hs He _ _ _ exhaustive fast.
  pose proof (exhaustive_in_range_excluded c start end_ Hc Hs He) as HX.
  pose proof (fast_in_range_excluded c start end_ Hc Hs He) as HF.
  fold exhaustive in HX. fold fast in HF.
  unfold Props.excluded in HX, HF.
  unfold Terms.same_episode, Terms.not_after. split.
  - intros [H1 H2]. split.
    + destruct exhaustive.
      * split; [intros _|reflexivity].
        assert (~ (Props.season_number c < Props.season_number start
                   \/ Props.season_number c > Props.season_number end_
                   \/ (Props.season_number c = Props.season_number start
                       /\ Props.episode_number c < Props.episode_number start)
                   \/ (Props.season_number c = Props.season_number end_
                       /\ Props.episode_number c > Props.episode_number end_)))
          by (intros X; apply HX in X; discriminate).
        lia.
      * split; [discriminate|]. intros X.
        destruct HX as [HX _]. specialize (HX eq_refl). lia.
    + destruct fast.
      * split; [intros _|reflexivity].
        assert (~ (Props.season_number c < Props.season_number start
                   \/ Props.season_number c > Props.season_number end_
                   \/ (Props.season_number c = Props.season_number start
                       /\ Props.episode_number c < Props.episode_number start)
                   \/ (Props.season_number c = Props.season_number end_
                       /\ Props.episode_number c > Props.episode_number end_)))
          by (intros X; apply HF in X; discriminate).
        lia.
      * split; [discriminate|]. intros X.
        destruct HF as [HF _]. specialize (HF eq_refl). lia.
  - intros Hrev. split.
    + apply HX. lia.
    + apply HF. lia.
Qed.

Lemma range_single_or_empty_witness :
  (Exhaustive._is_in_range "HDS02E04" (Py.VStr "S02E05") (Py.VStr "S02E03") = false
   /\ Fast._is_in_range "HDS02E04" (Some "S02E05") (Some "S02E03") = false)
  /\ (Exhaustive._is_in_range "HDS02E05" (Py.VStr "S02E05") (Py.VStr "SDS2E005")
      = true
      /\ Fast._is_in_range "HDS02E05" (Some "S02E05") (Some "SDS2E005") = true).
Proof.
  split.
  - destruct (range_single_or_empty (Props.Code "HD" "02" "04")
                (Props.Code EmptyString "02" "05")
                (Props.Code EmptyString "02" "03")
                eq_refl eq_refl eq_refl) as [_ H];
      try (split; unfold Builtins.int_max_str_digits; simpl; lia).
    apply H. unfold Terms.not_after. vm_compute.
    intros [X|[_ X]]; [discriminate X|apply X; reflexivity].
  - destruct (range_single_or_empty (Props.Code "HD" "02" "05")
                (Props.Code EmptyString "02" "05") (Props.Code "SD" "2" "005")
                eq_refl eq_refl eq_refl) as [H _];
      try (split; unfold Builtins.int_max_str_digits; simpl; lia).
    destruct H as [[_ H1] [_ H2]]; [split; reflexivity|].
    split; [apply H1|apply H2]; split; reflexivity.
Defined.

(** X4.  Bounds in which no S-digits-E-digits is found bound nothing: the
    exhaustive filter lets through every well-formed code that has no
    more digits than [int] converts.  The labels of the rows may be
    written 1x05; the bounds may not. *)
Theorem exhaustive_unparsed_bounds_are_ignored (c : Props.code)
    (start end_ : string) :
  Props.well_formed c = true ->
  Terms.int_sized c ->
  Re.search Re.season_episode_long_at start = None ->
  Re.search Re.season_episode_long_at end_ = None ->
  Exhaustive._is_in_range (Props.render c) (Py.VStr start) (Py.VStr end_) = true.
Proof.
  intros Hc _ Hs He. apply exhaustive_in_range_wf; [exact Hc|].
  rewrite Hs, He. split; reflexivity.
Qed.

Lemma exhaustive_unparsed_bounds_are_ignored_witness :
  Exhaustive._extract_episode_code "1x05" = Some "S01E05"
  /\ Exhaustive._is_in_range "HDS07E09" (Py.VStr "1x01") (Py.VStr "1x05") = true.
Proof.
  split; [reflexivity|].
  apply (exhaustive_unparsed_bounds_are_ignored (Props.Code "HD" "07" "09"));
    try reflexivity.
  split; unfold Builtins.int_max_str_digits; simpl; lia.
Defined.

End RangeInterval.

(* ===================================================================== *)
(** ** The two solvers compared                                            *)
(* ===================================================================== *)

Section Solvers.

Lemma fast_pow_beyond_digest (challenge : string) (difficulty : Z) :
  64 < difficulty -> Fast._compute_proof_of_work challenge difficulty = -1.
Proof.
  intros Hd.
  destruct (fast_pow_correct challenge difficulty) as [_ [(_ & Hhit & _)|[H _]]];
    [|exact H].
  change (Fast.pow_hit challenge (Py.repeat_char "0" difficulty)
            (Fast._compute_proof_of_work challenge difficulty))
    with (Exhaustive.pow_hit challenge (Py.repeat_char "0" difficulty)
            (Fast._compute_proof_of_work challenge difficulty)) in Hhit.
  rewrite pow_hit_long_target in Hhit by lia. discriminate.
Qed.




End Solvers.

(* ===================================================================== *)
(** ** One resolution of the early-exit scraper                            *)
(* ===================================================================== *)

Section FastResolution.
Variable w : Fast.world.

Ltac run := unfold mbind, M_bind, Net.bind, mret, M_ret, Net.ret, Net.ask.

(** X6.  The exchange for one protected link.  Either the challenge request
    is the only event and no link comes out; or the site gave a
    challenge, and the events are that request, one solve at the
    difficulty the site asked for (4 when it asked for none) and the
    POST of the solver's answer, whatever it is: a link comes out only
    when the site answers that POST with the status success, and for a
    difficulty above 64 what is posted is the sentinel -1. *)
Theorem fast_resolution_protocol (download_url : string) (tr : Net.trace) :
  let res := Fast._get_protected_download_url w download_url tr in
  (fst res = None /\ snd res = (tr ++ [Net.EvChallenge download_url])%list)
  \/ exists challenge difficulty,
       Fast.get_json w tr download_url
       = Some (Fast.ChallengeData (Some challenge) difficulty)
       /\ snd res
          = (tr ++ Props.resolution_events download_url challenge
                     (default 4 difficulty))%list
       /\ (forall link, fst res = Some link ->
             Fast.post_json w
               (tr ++ [Net.EvChallenge download_url;
                       Net.EvPow challenge (default 4 difficulty)])%list
               (Py.replace "/generate/" "/validate/" download_url)
               (Fast._compute_proof_of_work challenge (default 4 difficulty))
             = Some (Fast.ValidateData (Some "success") (Some link)))
       /\ (64 < default 4 difficulty ->
           Fast._compute_proof_of_work challenge (default 4 difficulty) = -1).
Proof.
  unfold Fast._get_protected_download_url. run. cbv beta iota zeta.
  destruct (Fast.get_json w tr download_url) as [[[ch|] d]|] eqn:G;
    try (left; split; reflexivity).
  right. exists ch, d. split; [reflexivity|].
  rewrite <- !app_assoc. cbn [app].
  split; [|split].
  - destruct (Fast.post_json w _ _ _) as [[[st|] u]|]; try reflexivity.
    destruct (String.eqb st "success"); reflexivity.
  - intros link.
    destruct (Fast.post_json w _ _ _) as [[[st|] u]|]; try discriminate.
    destruct (String.eqb st "success") eqn:S; [|discriminate].
    apply String.eqb_eq in S. subst st. cbn [fst].
    intros ->. reflexivity.
  - apply fast_pow_beyond_digest.
Qed.

End FastResolution.

Lemma fast_resolution_protocol_witness :
  Fast._compute_proof_of_work "abc" 65 = -1.
Proof.
  destruct (fast_resolution_protocol
              (Fast.World (fun _ _ => None)
                 (fun _ _ => Some (Fast.ChallengeData (Some "abc") (Some 65)))
                 (fun _ _ _ => None))
              "u" []) as [[_ H]|(ch & d & G & _ & _ & H)].
  - discriminate H.
  - injection G as <- <-. apply H. reflexivity.
Defined.

(* ===================================================================== *)
(** ** Category and quality of an early-exit candidate                     *)
(* ===================================================================== *)

Section FastQuality.

(** X7.  The two quality fields of a candidate.  The category is HD or SD;
    a candidate of category SD has the quality SD; and the category HD
    goes with the quality SD exactly when none of the seven format words
    is in the text of the page.  The title ends with the quality. *)
Theorem fast_candidate_quality (soup : Fast.page)
    (episode_code episode_text final_link : string) :
  let t := Fast.candidate soup episode_code episode_text final_link in
  (Fast.category t = "HD" \/ Fast.category t = "SD")
  /\ (Fast.category t = "SD" -> Fast.format t = "SD")
  /\ (Fast.category t = "HD" /\ Fast.format t = "SD"
      <-> Fast._extract_series_format (Fast.page_text soup) = None)
  /\ Fast.title t = episode_text ++ " " ++ Fast.format t
  /\ Props.canonical (Fast.format t).
Proof.
  intros t. subst t. unfold Fast.candidate, Fast._extract_series_format_category.
  destruct (Fast._extract_series_format (Fast.page_text soup)) as [f|] eqn:E.
  - apply List.find_some in E as [Hin _]. unfold Fast.formats in Hin.
    simpl in Hin.
    destruct Hin as [<-|[<-|[<-|[<-|[<-|[<-|[<-|[]]]]]]]]; cbn;
      (split; [auto|]); (split; [try discriminate; auto|]);
      (split; [split; [intros [? ?]; discriminate|discriminate]|]);
      (split; [reflexivity|]); unfold Props.canonical; auto.
  - cbn. split; [auto|]. split; [discriminate|].
    split; [tauto|]. split; [reflexivity|]. unfold Props.canonical. auto.
Qed.

End FastQuality.

(* ===================================================================== *)
(** ** Codes in normal form                                                *)
(* ===================================================================== *)

Section NormalForm.

Lemma zfill_one (a : ascii) :
  Py.zfill 2 (String a EmptyString) = String "0" (String a EmptyString).
Proof. reflexivity. Qed.

Lemma zfill_two (a b : ascii) (r : string) :
  Py.zfill 2 (String a (String b r)) = String a (String b r).
Proof. reflexivity. Qed.

Lemma int_of_zfill (g : string) :
  Props.one_or_two g \/ Props.three g ->
  Py.int_of_digits (Py.zfill 2 g) = Py.int_of_digits g.
Proof.
  intros [[(a & -> & _)|(a & b & -> & _)]|(a & b & c & -> & _)].
  - rewrite zfill_one. unfold Py.int_of_digits. cbn [Py.int_of_digits_from].
    replace (Py.digit_val "0") with 0 by reflexivity. lia.
  - now rewrite zfill_two.
  - now rewrite zfill_two.
Qed.

Lemma digits_of_shape (g : string) :
  Props.one_or_two g \/ Props.three g -> Props.digits (Py.zfill 2 g) = true.
Proof.
  unfold Props.digits.
  intros [[(a & -> & Ha)|(a & b & -> & Ha & Hb)]|(a & b & c & -> & Ha & Hb & Hc)].
  - rewrite zfill_one. simpl. now rewrite Ha.
  - rewrite zfill_two. simpl. now rewrite Ha, Hb.
  - rewrite zfill_two. simpl. now rewrite Ha, Hb, Hc.
Qed.

(** X8.  The code made from a row label is in normal form: made into a code
    again it does not change.  The range filter reads in it the season
    and the episode of the label, as numbers: the zeros added change
    neither. *)
Theorem episode_code_normal_form (title code : string) :
  Exhaustive._extract_episode_code title = Some code ->
  Exhaustive._extract_episode_code code = Some code
  /\ exists g1 g2,
       Exhaustive.episode_groups title = Some (g1, g2)
       /\ Re.search Re.season_episode_long_at code
          = Some (Py.zfill 2 g1, Py.zfill 2 g2)
       /\ Py.int_of_digits (Py.zfill 2 g1) = Py.int_of_digits g1
       /\ Py.int_of_digits (Py.zfill 2 g2) = Py.int_of_digits g2.
Proof.
  unfold Exhaustive._extract_episode_code at 1.
  destruct (Exhaustive.episode_groups title) as [[g1 g2]|] eqn:G;
    [|discriminate].
  intros H; injection H as <-.
  pose proof (episode_groups_shape _ _ _ G) as [H1 H2].
  split.
  - unfold Exhaustive._extract_episode_code, Exhaustive.episode_groups.
    assert (Re.season_episode_at
              ("S" ++ Py.zfill 2 g1 ++ "E" ++ Py.zfill 2 g2)
            = Some (Py.zfill 2 g1, Py.zfill 2 g2)) as Hat.
    { destruct H1 as [(a & -> & Ha)|(a & b & -> & Ha & Hb)];
      destruct H2 as [[(c & -> & Hc)|(c & d & -> & Hc & Hd)]
                     |(c & d & e & -> & Hc & Hd & He)];
        repeat rewrite zfill_one; repeat rewrite zfill_two;
        cbv beta iota delta [String.append];
        unfold Re.season_episode_at, Re.digits12_then, Re.digits13;
        repeat (simpl; rewrite ?Ha, ?Hb, ?Hc, ?Hd, ?He); reflexivity. }
    rewrite (search_head _ _ _ Hat).
    destruct H1 as [(a & -> & Ha)|(a & b & -> & Ha & Hb)];
    destruct H2 as [[(c & -> & Hc)|(c & d & -> & Hc & Hd)]
                   |(c & d & e & -> & Hc & Hd & He)];
      reflexivity.
  - exists g1, g2. split; [reflexivity|]. split.
    + apply search_head, long_at_bare.
      * apply digits_of_shape. now left.
      * now apply digits_of_shape.
    + split; apply int_of_zfill; auto.
Qed.

Lemma episode_code_normal_form_witness :
  Exhaustive._extract_episode_code "S03E07"  = Some "S03E07"
  /\ Re.search Re.season_episode_long_at "S03E07" = Some ("03", "07").
Proof.
  destruct (episode_code_normal_form "Capitulo 3x7" "S03E07" eq_refl)
    as (H & g1 & g2 & G & R & _).
  split; [exact H|].
  injection G as <- <-. exact R.
Defined.

End NormalForm.

(* ===================================================================== *)
(** ** What a crawl collects                                               *)
(* ===================================================================== *)

Section Collecting.

Ltac run := unfold mbind, M_bind, Net.bind, mret, M_ret, Net.ret, Net.ask.

(** A loop that appends the candidate of each item, when there is one:
    what it adds to the list and to the trace. *)
Lemma for_each_collects {A B} (f : A -> Net.M (option B)) (P : B -> Prop)
    (Q : Net.event -> bool) :
  (forall x tr,
     exists evs,
       snd (f x tr) = (tr ++ evs)%list
       /\ forallb Q evs = true
       /\ match fst (f x tr) with
          | Some t => P t /\ (1 <= List.length evs)%nat
          | None => True
          end) ->
  forall l acc tr,
  exists new evs,
    Net.for_each
      (fun acc x =>
         t ← f x;
         mret (match t with
               | Some t => (acc ++ [t])%list
               | None => acc
               end)) l acc tr
    = ((acc ++ new)%list, (tr ++ evs)%list)
    /\ forallb Q evs = true
    /\ List.Forall P new
    /\ (List.length new <= List.length evs)%nat
    /\ (List.length new <= List.length l)%nat.
Proof.
  intros Hf. induction l as [|x l IH]; intros acc tr.
  - exists [], []. simpl. unfold Net.ret. rewrite !app_nil_r.
    repeat split; auto.
  - cbn [Net.for_each]. unfold Net.bind at 1. run.
    destruct (Hf x tr) as (evs & H1 & HQ & HP).
    destruct (f x tr) as [r tr1]. simpl in H1, HP. subst tr1.
    destruct r as [t|].
    + destruct (IH (acc ++ [t])%list (tr ++ evs)%list)
        as (new & evs2 & E & HQ2 & HP2 & Hlen & Hl).
      exists (t :: new), (evs ++ evs2)%list.
      unfold mbind, M_bind, Net.bind, mret, M_ret, Net.ret in E. rewrite E.
      rewrite <- !app_assoc. split; [reflexivity|].
      rewrite forallb_app, HQ, HQ2. split; [reflexivity|].
      destruct HP as [HP Hone].
      split; [now constructor|]. rewrite List.length_app. simpl. lia.
    + destruct (IH acc (tr ++ evs)%list)
        as (new & evs2 & E & HQ2 & HP2 & Hlen & Hl).
      exists new, (evs ++ evs2)%list.
      unfold mbind, M_bind, Net.bind, mret, M_ret, Net.ret in E. rewrite E.
      rewrite <- !app_assoc. split; [reflexivity|].
      rewrite forallb_app, HQ, HQ2. split; [reflexivity|].
      split; [assumption|]. rewrite List.length_app. simpl. lia.
Qed.

Lemma startswith_app (p s : string) : Py.startswith (p ++ s) p = true.
Proof.
  induction p as [|a p IH]; [apply startswith_nil|].
  change (String a p ++ s) with (String a (p ++ s)). simpl.
  now rewrite Ascii.eqb_refl.
Qed.

Lemma category_of_format (raw_format : option string) :
  let '(episode_format, format_string) :=
    Exhaustive._extract_series_format_category raw_format in
  Props.canonical format_string
  /\ ((episode_format = "HD" /\ format_string <> "SD")
      \/ (episode_format = "SD" /\ format_string = "SD")).
Proof.
  unfold Exhaustive._extract_series_format_category.
  destruct (exhaustive_normalize_canonical raw_format) as [H|[H|[H|H]]];
    rewrite H; cbn; unfold Props.canonical;
    (split; [auto|]); (left + right); split; (reflexivity || discriminate).
Qed.

Section ExhaustiveRows.
Variable w : Exhaustive.world.
Variables (serie_data : Exhaustive.serie)
          (base_url start_episode end_episode calidad : Py.value).

Lemma exhaustive_row_candidate (episode_format format_string : string)
    (columnas : list Exhaustive.cell) (tr : Net.trace) :
  Props.canonical format_string ->
  (episode_format = "HD" /\ format_string <> "SD")
  \/ (episode_format = "SD" /\ format_string = "SD") ->
  exists evs,
    snd (Exhaustive.episode_of_row w serie_data base_url start_episode
           end_episode episode_format format_string columnas tr)
    = (tr ++ evs)%list
    /\ forallb Terms.is_resolve evs = true
    /\ match fst (Exhaustive.episode_of_row w serie_data base_url
                    start_episode end_episode episode_format format_string
                    columnas tr) with
       | Some t =>
           Terms.listed serie_data base_url start_episode end_episode t
           /\ (1 <= List.length evs)%nat
       | None => True
       end.
Proof.
  intros Hcanon Hcat. unfold Exhaustive.episode_of_row.
  assert (Hnone : exists evs : list Net.event,
             tr = (tr ++ evs)%list /\ forallb Terms.is_resolve evs = true /\ True).
  { exists []. now rewrite app_nil_r. }
  destruct columnas as [|c0 [|c1 rest]]; try exact Hnone.
  destruct (Exhaustive._extract_episode_code _) as [code|]; [|exact Hnone].
  destruct (Exhaustive._is_valid_status_format _) eqn:V; [|exact Hnone].
  destruct (Exhaustive._is_in_range _ _ _) eqn:R; [|exact Hnone].
  cbn [negb]. destruct (Exhaustive.cell_anchor c1) as [[cid|]|]; try exact Hnone.
  destruct (Py.truthy (Some cid)); [|exact Hnone].
  cbn [negb]. run. exists [Net.EvResolve cid base_url].
  destruct (Exhaustive.protected_download_url w tr cid base_url) as [u|];
    cbn [fst snd]; (split; [reflexivity|]); (split; [reflexivity|]);
    [|exact I].
  split; [|simpl; lia].
  unfold Terms.listed. cbn [Exhaustive.status Exhaustive.episode_code
    Exhaustive.format Exhaustive.title Exhaustive.title_original
    Exhaustive.link].
  split; [reflexivity|]. split; [exact V|]. split; [exact R|].
  split; [exact Hcanon|]. split; [|split; [reflexivity|]].
  - destruct Hcat as [[-> Hf]|[-> Hf]].
    + rewrite startswith_app. tauto.
    + change ("SD" ++ code) with (String "S" (String "D" code)).
      split; [discriminate|]. intros X. now elim X.
  - split; [reflexivity|]. apply startswith_app.
Qed.

(** What [_get_episodes] asks of the network. *)
Lemma get_episodes_requests (tr : Net.trace) :
  let res :=
    Exhaustive._get_episodes w serie_data base_url start_episode end_episode
      calidad tr in
  exists evs,
    snd res = (tr ++ Net.EvFetch (Exhaustive.serie_url serie_data) :: evs)%list
    /\ forallb Terms.is_resolve evs = true
    /\ (List.length (fst res) <= List.length evs)%nat.
Proof.
  unfold Exhaustive._get_episodes. run. cbv beta iota zeta.
  assert (Hnone : exists evs,
            snd (@nil Exhaustive.torrent,
                 (tr ++ [Net.EvFetch (Exhaustive.serie_url serie_data)])%list)
            = (tr ++ Net.EvFetch (Exhaustive.serie_url serie_data) :: evs)%list
            /\ forallb Terms.is_resolve evs = true
            /\ (List.length
                  (fst (@nil Exhaustive.torrent,
                        (tr ++ [Net.EvFetch (Exhaustive.serie_url serie_data)])%list))
                <= List.length evs)%nat).
  { exists []. simpl. auto. }
  destruct (Exhaustive.fetch_page w tr _) as [page|]; [|exact Hnone].
  pose proof (category_of_format (Exhaustive.raw_format page)) as Hcat.
  destruct (Exhaustive._extract_series_format_category _)
    as [episode_format format_string].
  destruct Hcat as [Hcanon Hcat].
  destruct (Exhaustive.table_rows page) as [[filas|]|]; try exact Hnone.
  destruct (for_each_collects
              (Exhaustive.episode_of_row w serie_data base_url start_episode
                 end_episode episode_format format_string)
              (Terms.listed serie_data base_url start_episode end_episode)
              Terms.is_resolve)
    with (l := filas) (acc := @nil Exhaustive.torrent)
         (tr := (tr ++ [Net.EvFetch (Exhaustive.serie_url serie_data)])%list)
    as (new & evs & E & HQ & _ & Hlen & _).
  { intros x t. now apply exhaustive_row_candidate. }
  unfold mbind, M_bind, Net.bind, mret, M_ret, Net.ret in E.
  rewrite E. cbn [fst snd app].
  exists evs. rewrite <- app_assoc. auto.
Qed.

(** X9.  Every candidate that [_get_episodes] returns has a valid
    status, in range, which is its episode code; a canonical quality, HD
    in the status exactly when the quality is not SD; the titles of the
    series; a link on the base address.  The requests are the fetch of
    the page and then nothing but calls of the link resolver, one at
    least for each candidate. *)
Theorem exhaustive_candidates_are_listed (tr : Net.trace) :
  let res :=
    Exhaustive._get_episodes w serie_data base_url start_episode end_episode
      calidad tr in
  List.Forall (Terms.listed serie_data base_url start_episode end_episode)
    (fst res)
  /\ exists evs,
       snd res
       = (tr ++ Net.EvFetch (Exhaustive.serie_url serie_data) :: evs)%list
       /\ forallb Terms.is_resolve evs = true
       /\ (List.length (fst res) <= List.length evs)%nat.
Proof.
  unfold Exhaustive._get_episodes. run. cbv beta iota zeta.
  assert (Hnone : forall t : Net.trace,
            List.Forall (Terms.listed serie_data base_url start_episode
                           end_episode) (fst (@nil Exhaustive.torrent, t))
            /\ exists evs,
                 snd (@nil Exhaustive.torrent,
                      (tr ++ [Net.EvFetch (Exhaustive.serie_url serie_data)])%list)
                 = (tr ++ Net.EvFetch (Exhaustive.serie_url serie_data) :: evs)%list
                 /\ forallb Terms.is_resolve evs = true
                 /\ (List.length (fst (@nil Exhaustive.torrent, t))
                     <= List.length evs)%nat).
  { intros t. split; [constructor|]. exists []. simpl. auto. }
  destruct (Exhaustive.fetch_page w tr _) as [page|]; [|apply (Hnone tr)].
  pose proof (category_of_format (Exhaustive.raw_format page)) as Hcat.
  destruct (Exhaustive._extract_series_format_category _)
    as [episode_format format_string].
  destruct Hcat as [Hcanon Hcat].
  destruct (Exhaustive.table_rows page) as [[filas|]|];
    try apply (Hnone tr).
  destruct (for_each_collects
              (Exhaustive.episode_of_row w serie_data base_url start_episode
                 end_episode episode_format format_string)
              (Terms.listed serie_data base_url start_episode end_episode)
              Terms.is_resolve)
    with (l := filas) (acc := @nil Exhaustive.torrent)
         (tr := (tr ++ [Net.EvFetch (Exhaustive.serie_url serie_data)])%list)
    as (new & evs & E & HQ & HP & Hlen & _).
  { intros x t. now apply exhaustive_row_candidate. }
  unfold mbind, M_bind, Net.bind, mret, M_ret, Net.ret in E.
  rewrite E. cbn [fst snd app]. split; [exact HP|].
  exists evs. rewrite <- app_assoc. auto.
Qed.

End ExhaustiveRows.

End Collecting.

Lemma exhaustive_candidates_are_listed_witness :
  List.Forall
    (Terms.listed
       (Exhaustive.Serie "Serie" "Serie - 1 Temporada"
          "https://site.example/serie/1" "/serie/1")
       (Py.VStr Sites.base_url) (Py.VStr "S01E01") (Py.VStr "S01E02"))
    (fst (Exhaustive._get_episodes Sites.catalogue
            (Exhaustive.Serie "Serie" "Serie - 1 Temporada"
               "https://site.example/serie/1" "/serie/1")
            (Py.VStr Sites.base_url) (Py.VStr "S01E01") (Py.VStr "S01E02")
            Py.VNone [])).
Proof.
  apply (exhaustive_candidates_are_listed Sites.catalogue
           (Exhaustive.Serie "Serie" "Serie - 1 Temporada"
              "https://site.example/serie/1" "/serie/1")
           (Py.VStr Sites.base_url) (Py.VStr "S01E01") (Py.VStr "S01E02")
           Py.VNone []).
Defined.

(* ===================================================================== *)
(** ** Order in the two lists of the exhaustive result                     *)
(* ===================================================================== *)

Section AlternativesOrder.







End AlternativesOrder.

(* ===================================================================== *)
(** ** The requests of an exhaustive scrape                                *)
(* ===================================================================== *)

Section ExhaustiveRequests.
Variable w : Exhaustive.world.

Ltac run := unfold mbind, M_bind, Net.bind, mret, M_ret, Net.ret, Net.ask.

Lemma filter_resolve_all (evs : list Net.event) :
  forallb Terms.is_resolve evs = true ->
  List.filter Terms.is_resolve evs = evs
  /\ List.filter Terms.is_fetch evs = []
  /\ forallb (fun e => Terms.is_fetch e || Terms.is_resolve e) evs = true.
Proof.
  induction evs as [|e evs IH]; simpl; [auto|].
  intros H. apply andb_prop in H as [He H]. destruct (IH H) as (H1 & H2 & H3).
  rewrite He, H1, H3. destruct e; try discriminate He. simpl. now rewrite H2.
Qed.

Lemma gather_requests (base_url start_episode end_episode calidad : Py.value)
    (series_found : list Exhaustive.serie) :
  forall acc tr,
  exists new evs,
    Net.for_each
      (fun all_torrents serie_data =>
         episodes ← Exhaustive._get_episodes w serie_data base_url
                      start_episode end_episode calidad;
         mret (all_torrents ++ episodes)%list) series_found acc tr
    = ((acc ++ new)%list, (tr ++ evs)%list)
    /\ forallb (fun e => Terms.is_fetch e || Terms.is_resolve e) evs = true
    /\ List.length (List.filter Terms.is_fetch evs) = List.length series_found
    /\ (List.length new <= List.length (List.filter Terms.is_resolve evs))%nat.
Proof.
  induction series_found as [|s l IH]; intros acc tr.
  - exists [], []. simpl. unfold Net.ret. rewrite !app_nil_r. auto.
  - cbn [Net.for_each]. unfold Net.bind at 1. run.
    destruct (get_episodes_requests w s base_url start_episode
                end_episode calidad tr) as (evs & H1 & HQ & Hlen).
    destruct (Exhaustive._get_episodes w s base_url start_episode end_episode
                calidad tr) as [episodes tr1].
    cbn [fst snd] in H1, Hlen. subst tr1.
    destruct (IH (acc ++ episodes)%list
                (tr ++ Net.EvFetch (Exhaustive.serie_url s) :: evs)%list)
      as (new & evs2 & E & HQ2 & Hf & Hr).
    unfold mbind, M_bind, Net.bind, mret, M_ret, Net.ret in E. rewrite E.
    exists (episodes ++ new)%list,
           (Net.EvFetch (Exhaustive.serie_url s) :: evs ++ evs2)%list.
    destruct (filter_resolve_all evs HQ) as (F1 & F2 & F3).
    rewrite <- !app_assoc. split; [reflexivity|].
    cbn [forallb List.filter Terms.is_fetch Terms.is_resolve orb andb].
    rewrite forallb_app, F3, HQ2, !List.filter_app, F1, F2.
    split; [reflexivity|]. cbn [app List.length]. rewrite Hf.
    split; [reflexivity|]. rewrite !List.length_app. lia.
Qed.

(** X11.  The requests of [scrape].  An error result comes without any
    request, and so does no other; a result without series comes after
    the search alone; a successful result comes after the search, then
    page fetches and calls of the link resolver only: one fetch for each
    series found, and for each candidate returned, in either list, a call
    of the resolver. *)
Theorem exhaustive_scrape_requests (criteria : gmap string Py.value)
    (tr : Net.trace) :
  let base_url := Py.dict_get criteria "base_url" in
  let serie_name := Py.dict_get criteria "serie_name" in
  let res := Exhaustive.scrape w criteria tr in
  match fst res with
  | Exhaustive.Failure _ _ => snd res = tr
  | Exhaustive.NotFound _ _ _ =>
      snd res = (tr ++ [Net.EvSearch base_url serie_name])%list
  | Exhaustive.Success torrents rest _ _ _ _ _ =>
      exists evs,
        snd res = (tr ++ Net.EvSearch base_url serie_name :: evs)%list
        /\ forallb (fun e => Terms.is_fetch e || Terms.is_resolve e) evs = true
        /\ List.length (List.filter Terms.is_fetch evs)
           = List.length (Exhaustive.search_series w tr base_url serie_name)
        /\ (List.length torrents + List.length rest
            <= List.length (List.filter Terms.is_resolve evs))%nat
  end.
Proof.
  intros base_url serie_name. unfold Exhaustive.scrape.
  fold base_url serie_name.
  destruct (negb _); [reflexivity|].
  run. cbv beta iota zeta.
  destruct (Exhaustive.search_series w tr base_url serie_name)
    as [|s0 l] eqn:S; [reflexivity|].
  unfold Exhaustive.gather.
  destruct (gather_requests base_url (Py.dict_get criteria "start_episode")
              (Py.dict_get criteria "end_episode")
              (Py.dict_get criteria "calidad") (s0 :: l) []
              (tr ++ [Net.EvSearch base_url serie_name])%list)
    as (new & evs & E & HQ & Hf & Hr).
  rewrite E. cbn [app fst snd].
  destruct (select_spec new serie_name base_url)
    as (ts & rs & Hsel & _ & Hperm & _).
  rewrite Hsel. cbn [fst snd]. exists evs.
  rewrite <- app_assoc. split; [reflexivity|]. split; [exact HQ|].
  split; [exact Hf|].
  apply Permutation_length in Hperm. rewrite List.length_app in Hperm. lia.
Qed.

End ExhaustiveRequests.

(* ===================================================================== *)
(** ** What the early-exit scrape returns                                  *)
(* ===================================================================== *)

Section FastResult.

Ltac run := unfold mbind, M_bind, Net.bind, mret, M_ret, Net.ret, Net.ask.

Lemma insert_sorted_perm_any {A} (le : A -> A -> bool) (x : A) (l : list A) :
  Permutation (Py.insert_sorted le x l) (x :: l).
Proof.
  induction l as [|y l IH]; simpl; [reflexivity|].
  destruct (le x y); [reflexivity|].
  rewrite IH. apply perm_swap.
Qed.

Lemma stable_sort_perm_any {A} (le : A -> A -> bool) (l : list A) :
  Permutation (Py.stable_sort le l) l.
Proof.
  induction l as [|x l IH]; simpl; [reflexivity|].
  rewrite insert_sorted_perm_any. now constructor.
Qed.

Lemma insert_sorted_locally {A} (le : A -> A -> bool) (x : A) (l : list A) :
  (forall a b, le a b = false -> le b a = true) ->
  Sorted (fun a b => le a b = true) l ->
  Sorted (fun a b => le a b = true) (Py.insert_sorted le x l).
Proof.
  intros Htotal. induction l as [|y l IH]; simpl; intros Hs.
  - repeat constructor.
  - destruct (le x y) eqn:E.
    + constructor; [exact Hs|]. now constructor.
    + apply Sorted_inv in Hs as [Hs Hhd]. constructor; [now apply IH|].
      destruct l as [|z l]; simpl.
      * constructor. now apply Htotal.
      * destruct (le x z).
        -- constructor. now apply Htotal.
        -- constructor. now apply HdRel_inv in Hhd.
Qed.

Lemma sort_by_episode_sorted (l : list Fast.torrent) :
  Sorted Terms.by_code (Fast.sort_by_episode l).
Proof.
  unfold Fast.sort_by_episode.
  induction l as [|x l IH]; simpl; [constructor|].
  apply (insert_sorted_locally
           (fun a b => String.leb (Fast.episode_code a) (Fast.episode_code b)));
    [|exact IH].
  intros a b H.
  destruct (String.leb_total (Fast.episode_code a) (Fast.episode_code b));
    congruence.
Qed.

Lemma sort_by_episode_forall (P : Fast.torrent -> Prop) (l : list Fast.torrent) :
  List.Forall P l -> List.Forall P (Fast.sort_by_episode l).
Proof.
  intros H. rewrite List.Forall_forall in *. intros x Hx. apply H.
  eapply Permutation_in; [|exact Hx]. apply stable_sort_perm_any.
Qed.

(** A loop that appends the candidate of each item, when there is one. *)
Lemma for_each_keeps {A B} (f : A -> Net.M (option B)) (P : B -> Prop) :
  (forall x tr t, fst (f x tr) = Some t -> P t) ->
  forall l acc tr,
  List.Forall P acc ->
  List.Forall P
    (fst (Net.for_each
            (fun acc x =>
               t ← f x;
               mret (match t with
                     | Some t => (acc ++ [t])%list
                     | None => acc
                     end)) l acc tr)).
Proof.
  intros Hf. induction l as [|x l IH]; intros acc tr Hacc; [exact Hacc|].
  cbn [Net.for_each]. unfold Net.bind at 1. run.
  pose proof (Hf x tr) as Hx. destruct (f x tr) as [[t|] tr1]; apply IH.
  - rewrite List.Forall_app. split; [exact Hacc|].
    constructor; [|constructor]. now apply Hx.
  - exact Hacc.
Qed.

(** A loop that appends the candidates of each item. *)
Lemma for_each_extends {A B} (g : A -> Net.M (list B)) (P : B -> Prop) :
  (forall x tr, List.Forall P (fst (g x tr))) ->
  forall l acc tr,
  List.Forall P acc ->
  List.Forall P
    (fst (Net.for_each
            (fun acc x => ts ← g x; mret (acc ++ ts)%list) l acc tr)).
Proof.
  intros Hg. induction l as [|x l IH]; intros acc tr Hacc; [exact Hacc|].
  cbn [Net.for_each]. unfold Net.bind at 1. run.
  pose proof (Hg x tr) as Hx. destruct (g x tr) as [ts tr1]. apply IH.
  rewrite List.Forall_app. now split.
Qed.

Section OneSite.
Variable w : Fast.world.

Lemma first_resolved_nonempty (urls : list string) (tr : Net.trace) (x : string) :
  fst (Props.first_resolved w urls tr) = Some x -> Py.truthy (Some x) = true.
Proof.
  revert tr. induction urls as [|u r IH]; intros tr; simpl; [discriminate|].
  run. destruct (Fast._get_protected_download_url w u tr) as [[[|c l]|] tr1];
    try apply IH.
  simpl. intros H; injection H as <-. reflexivity.
Qed.

Lemma best_torrent_offered (episode_url episode_code episode_text base_url
    : string) (priority_order : list string) (tr : Net.trace) (t : Fast.torrent) :
  fst (Fast._get_best_torrent_for_episode w episode_url episode_code
         episode_text base_url priority_order tr) = Some t ->
  Fast.episode_code t = episode_code
  /\ Py.truthy (Some (Fast.link t)) = true
  /\ Props.canonical (Fast.format t)
  /\ Fast.title t = Fast.status t ++ " " ++ Fast.format t.
Proof.
  destruct (Fast.get_html w tr episode_url) as [soup|] eqn:Hpage.
  - destruct (Fast.download_links soup) as [|first others] eqn:L.
    + unfold Fast._get_best_torrent_for_episode. run. rewrite Hpage, L.
      discriminate.
    + rewrite (best_torrent_refines w _ _ _ _ _ _ soup Hpage)
        by (rewrite L; discriminate).
      pose proof (first_resolved_nonempty
                    (Props.attempt_order soup base_url priority_order)
                    (tr ++ [Net.EvFetch episode_url])%list) as Hne.
      destruct (Props.first_resolved w _ _) as [[x|] tr1]; [|discriminate].
      simpl. intros H; injection H as <-. specialize (Hne x eq_refl).
      rewrite candidate_format, candidate_link. split.
      * unfold Fast.candidate.
        destruct (Fast._extract_series_format_category _); reflexivity.
      * split; [exact Hne|]. split; [apply fast_normalize_canonical|].
        unfold Fast.candidate, Props.page_format.
        destruct (Fast._extract_series_format_category _); reflexivity.
  - unfold Fast._get_best_torrent_for_episode. run. rewrite Hpage.
    discriminate.
Qed.

Lemma episode_of_link_offered (start_episode end_episode : option string)
    (base_url : string) (link : string * string) (tr : Net.trace)
    (t : Fast.torrent) :
  fst (Fast.episode_of_link w start_episode end_episode base_url link tr)
  = Some t ->
  Terms.offered start_episode end_episode t.
Proof.
  unfold Fast.episode_of_link. destruct link as [href text].
  destruct (Re.search _ text) as [[g1 g2]|]; [|discriminate].
  destruct (Fast._is_in_range _ _ _) eqn:R; [|discriminate].
  cbn [negb]. intros H. apply best_torrent_offered in H as (H1 & H2 & H3 & H4).
  unfold Terms.offered. rewrite H1. auto.
Qed.

Lemma get_episodes_offered (series_url : string) (season : Z)
    (start_episode end_episode : option string) (base_url : string)
    (tr : Net.trace) :
  List.Forall (Terms.offered start_episode end_episode)
    (fst (Fast._get_episodes w series_url season start_episode end_episode
            base_url tr)).
Proof.
  unfold Fast._get_episodes. run. cbv beta iota zeta.
  destruct (Fast.get_html w tr _) as [soup|]; [|constructor].
  pose proof (for_each_keeps
                (Fast.episode_of_link w start_episode end_episode base_url)
                (Terms.offered start_episode end_episode)
                (episode_of_link_offered start_episode end_episode base_url)
                (Fast.episode_links soup) []
                (tr ++ [Net.EvFetch
                          (series_url ++ "/temporada-"
                           ++ Py.zfill 2 (Py.str_of_int season))])%list
                (List.Forall_nil _)) as H.
  unfold mbind, M_bind, Net.bind, mret, M_ret, Net.ret in H.
  destruct (Net.for_each _ _ _ _) as [ts tr1]. cbn [fst] in *.
  now apply sort_by_episode_forall.
Qed.

(** X12.  A result of the early-exit [scrape] lists its candidates in the
    order of their codes, counts them, and holds only candidates whose
    code is within the range asked for, with a link that is not empty, a
    canonical quality and a title made of the episode text and the
    quality; it repeats the name and the address of the request. *)
Theorem fast_scrape_result (criteria : gmap string Py.value) (tr : Net.trace)
    (r : Fast.result) :
  fst (Fast.scrape w criteria tr) = Fast.Returned r ->
  Fast.count r = List.length (Fast.torrents r)
  /\ Sorted Terms.by_code (Fast.torrents r)
  /\ List.Forall
       (Terms.offered (Fast.as_str (Py.dict_get criteria "start_episode"))
          (Fast.as_str (Py.dict_get criteria "end_episode")))
       (Fast.torrents r)
  /\ Fast.serie_name r = Py.dict_get criteria "serie_name"
  /\ Fast.source r = Py.dict_get criteria "base_url".
Proof.
  unfold Fast.scrape.
  destruct (negb _); [discriminate|].
  destruct (Fast._extract_season_from_episode _) as [start_season|e];
    [|discriminate].
  destruct (if Py.value_truthy _ then _ else _) as [end_season|e];
    [|discriminate].
  run. cbv beta iota zeta.
  destruct (Fast._search_series w _ _ _ tr) as [[[[|c s]|]|e] tr1];
    try discriminate;
    try (cbn [fst]; intros H; injection H as <-; cbn;
         repeat split; constructor).
  pose proof (for_each_extends
                (fun season =>
                   Fast._get_episodes w (String c s) season
                     (Fast.as_str (Py.dict_get criteria "start_episode"))
                     (Fast.as_str (Py.dict_get criteria "end_episode"))
                     (Py.format_value (Py.dict_get criteria "base_url")))
                (Terms.offered
                   (Fast.as_str (Py.dict_get criteria "start_episode"))
                   (Fast.as_str (Py.dict_get criteria "end_episode")))
                (fun season t => get_episodes_offered _ _ _ _ _ t)
                (Fast.seasons start_season end_season) [] tr1
                (List.Forall_nil _)) as H.
  unfold mbind, M_bind, Net.bind, mret, M_ret, Net.ret in H.
  destruct (Net.for_each _ _ _ _) as [ts tr2]. cbn [fst] in *.
  intros E; injection E as <-. cbn.
  split; [reflexivity|]. split; [apply sort_by_episode_sorted|].
  split; [now apply sort_by_episode_forall|]. split; reflexivity.
Qed.

(** X13.  A [start_episode] that does not begin with a code, with or without
    HD or SD before it, makes the early-exit [scrape] raise [ValueError]
    before any request. *)
Theorem fast_scrape_rejects_unparsed_start (criteria : gmap string Py.value)
    (start : string) (tr : Net.trace) :
  criteria !! "start_episode" = Some (Py.VStr start) ->
  Re.prefixed_season_episode_at (Py.upper start) = None ->
  exists message,
    Fast.scrape w criteria tr = (Fast.Raised (Fast.ValueError message), tr).
Proof.
  intros Hk Hstart.
  assert (Hs : Py.dict_get criteria "start_episode" = Py.VStr start)
    by (unfold Py.dict_get; now rewrite Hk).
  unfold Fast.scrape. rewrite Hs.
  destruct (negb _); [eexists; reflexivity|].
  unfold Fast._extract_season_from_episode at 1.
  destruct (negb (Py.value_truthy (Py.VStr start))); [eexists; reflexivity|].
  rewrite Hstart. eexists; reflexivity.
Qed.

End OneSite.

End FastResult.

Lemma fast_scrape_result_witness :
  let t (code : string) :=
    Fast.Torrent code ("Serie " ++ code ++ " 720p")
      "released:https://site.example/download-torrent/validate/7" "720p" "HD"
      ("Serie " ++ code) in
  let r :=
    Fast.Result [t "S01E01"; t "S01E02"] 2 (Py.VStr "Serie")
      (Py.VStr Sites.base_url) in
  fst (Fast.scrape Servers.listing_site Servers.hd_request []) = Fast.Returned r
  /\ Fast.count r = List.length (Fast.torrents r)
  /\ Sorted Terms.by_code (Fast.torrents r)
  /\ List.Forall
       (Terms.offered
          (Fast.as_str (Py.dict_get Servers.hd_request "start_episode"))
          (Fast.as_str (Py.dict_get Servers.hd_request "end_episode")))
       (Fast.torrents r).
Proof.
  intros t r.
  assert (E : fst (Fast.scrape Servers.listing_site Servers.hd_request [])
              = Fast.Returned r) by (vm_compute; reflexivity).
  split; [exact E|].
  destruct (fast_scrape_result Servers.listing_site Servers.hd_request [] r E)
    as (Hc & Hs & Ho & _).
  split; [exact Hc|]. split; [exact Hs|exact Ho].
Defined.

Lemma fast_scrape_rejects_unparsed_start_witness :
  exists message,
    Fast.scrape Sites.empty_site
      (<["start_episode" := Py.VStr "1x01"]> Sites.full_request) []
    = (Fast.Raised (Fast.ValueError message), []).
Proof.
  apply (fast_scrape_rejects_unparsed_start Sites.empty_site _ "1x01" []);
    reflexivity.
Defined.

(* ===================================================================== *)
(** ** Validation of the criteria and the guard of [scrape]                *)
(* ===================================================================== *)

Section Validation.

Lemma has_key_spec {V} (d : gmap string V) (k : string) :
  Builtins.has_key d k = true <-> d !! k <> None.
Proof.
  unfold Builtins.has_key. destruct (d !! k); split; intros; congruence.
Qed.

Lemma forallb_false {A} (f : A -> bool) (l : list A) :
  forallb f l = false -> exists x, List.In x l /\ f x = false.
Proof.
  induction l as [|a l IH]; simpl; [discriminate|].
  destruct (f a) eqn:E; simpl.
  - intros H. destruct (IH H) as (x & Hx & Hf). eauto.
  - intros _. eauto.
Qed.

Lemma guard_spec (criteria : gmap string Py.value) :
  forallb Py.value_truthy
    [Py.dict_get criteria "base_url"; Py.dict_get criteria "serie_name";
     Py.dict_get criteria "start_episode"; Py.dict_get criteria "end_episode"]
  = false
  <-> exists k, List.In k Dontorrent.required
                /\ Py.value_truthy (Py.dict_get criteria k) = false.
Proof.
  unfold Dontorrent.required. cbn [forallb]. split.
  - intros H.
    destruct (Py.value_truthy (Py.dict_get criteria "base_url")) eqn:E1;
      [|exists "base_url"; simpl; auto].
    destruct (Py.value_truthy (Py.dict_get criteria "serie_name")) eqn:E2;
      [|exists "serie_name"; simpl; auto].
    destruct (Py.value_truthy (Py.dict_get criteria "start_episode")) eqn:E3;
      [|exists "start_episode"; simpl; auto].
    destruct (Py.value_truthy (Py.dict_get criteria "end_episode")) eqn:E4;
      [|exists "end_episode"; simpl; auto 6].
    discriminate H.
  - intros (k & Hk & Hf). simpl in Hk.
    destruct Hk as [<-|[<-|[<-|[<-|[]]]]]; rewrite Hf;
      rewrite ?andb_false_r; reflexivity.
Qed.

(** X14.  [validate_criteria] looks at the keys only, in both scrapers: it
    accepts exactly the dictionaries that have the four keys.  The
    guard of [scrape] looks at the values: the exhaustive [scrape]
    returns its error result exactly when one of the four is missing or
    is an empty or null value.  So a dictionary that fails validation
    gets the error result, without any request; the converse fails. *)
Theorem validation_is_weaker_than_the_guard (criteria : gmap string Py.value) :
  (Dontorrent.validate_criteria criteria = true
   <-> forall k, List.In k Dontorrent.required -> criteria !! k <> None)
  /\ DontorrentFast.validate_criteria criteria
     = Dontorrent.validate_criteria criteria
  /\ forall (w : Exhaustive.world) (tr : Net.trace),
       ((exists e, fst (Exhaustive.scrape w criteria tr) = Exhaustive.Failure e [])
        <-> exists k, List.In k Dontorrent.required
                      /\ Py.value_truthy (Py.dict_get criteria k) = false)
       /\ (Dontorrent.validate_criteria criteria = false ->
           exists e, Exhaustive.scrape w criteria tr = (Exhaustive.Failure e [], tr)).
Proof.
  split; [|split; [reflexivity|]].
  - unfold Dontorrent.validate_criteria. rewrite forallb_forall.
    split; intros H k Hk; apply has_key_spec; auto.
  - intros w tr. split.
    + rewrite <- guard_spec. unfold Exhaustive.scrape.
      destruct (forallb _ _) eqn:G; cbn [negb].
      * split; [|discriminate]. intros [e H]. exfalso. revert H.
        unfold mbind, M_bind, Net.bind, mret, M_ret, Net.ret, Net.ask.
        cbv beta iota zeta.
        destruct (Exhaustive.search_series w tr _ _); [discriminate|].
        destruct (Exhaustive.gather _ _ _ _ _ _ _) as [g tr1].
        unfold Exhaustive.select.
        destruct (Exhaustive.split_by_status _ _ _). discriminate.
      * split; [reflexivity|]. intros _. eexists. reflexivity.
    + intros H.
      assert (G : forallb Py.value_truthy
                    [Py.dict_get criteria "base_url";
                     Py.dict_get criteria "serie_name";
                     Py.dict_get criteria "start_episode";
                     Py.dict_get criteria "end_episode"] = false).
      { apply guard_spec.
        unfold Dontorrent.validate_criteria in H.
        apply forallb_false in H as (k & Hk & Hf).
        exists k. split; [exact Hk|].
        unfold Builtins.has_key in Hf. unfold Py.dict_get.
        destruct (criteria !! k); [discriminate|reflexivity]. }
      unfold Exhaustive.scrape. rewrite G. eexists. reflexivity.
Qed.

End Validation.

(* ===================================================================== *)
(** ** The manager                                                         *)
(* ===================================================================== *)

Section ManagerFacts.

Ltac run := unfold mbind, M_bind, Net.bind, mret, M_ret, Net.ret, Net.ask.
Ltac keys :=
  unfold Manager.dict in *;
  repeat (rewrite lookup_insert_eq
          || (rewrite lookup_insert_ne by discriminate)
          || rewrite lookup_empty).

(** X15.  [ScraperManager.scrape] always answers with a dictionary that has a
    status.  For a site without scraper, and for criteria the scraper
    does not validate, the status is failed and the scraper is not run:
    there is no request.  Otherwise the requests are those of the
    scraper; the answer names the site; when the scraper raised the
    status is failed, and when it returned a dictionary the status is
    the one this dictionary has, or else failed or success as the
    dictionary has the key error or not, and the other keys are those of
    the dictionary. *)
Theorem manager_scrape_reports (scrapers : Manager.registry) (site : string)
    (criteria : gmap string Py.value) (tr : Net.trace) :
  let res := Manager.scrape scrapers site criteria tr in
  (exists status, fst res !! "status" = Some status)
  /\ (Manager.get_scraper scrapers site = None ->
      snd res = tr
      /\ fst res !! "status" = Some Manager.failed
      /\ fst res !! "available_scrapers"
         = Some (Manager.Names (List.map fst scrapers)))
  /\ (forall s, Manager.get_scraper scrapers site = Some s ->
      Manager.validate_criteria s criteria <> Manager.Returned true ->
      snd res = tr /\ fst res !! "status" = Some Manager.failed)
  /\ (forall s, Manager.get_scraper scrapers site = Some s ->
      Manager.validate_criteria s criteria = Manager.Returned true ->
      snd res = snd (Manager.scrape_with s criteria tr)
      /\ fst res !! "site" = Some (Manager.Str site)
      /\ match fst (Manager.scrape_with s criteria tr) with
         | Manager.Raised e => fst res !! "status" = Some Manager.failed
         | Manager.Returned d =>
             fst res !! "status"
             = Some (default
                       (Manager.Str (if Builtins.has_key d "error"
                                     then "failed" else "success"))
                       (d !! "status"))
             /\ forall k, k <> "site" -> k <> "status" ->
                          fst res !! k = d !! k
         end).
Proof.
  unfold Manager.scrape.
  destruct (Manager.get_scraper scrapers site) as [s|].
  - destruct (Manager.validate_criteria s criteria) as [[|]|e] eqn:V.
    + run. destruct (Manager.scrape_with s criteria tr) as [[d|e] tr1] eqn:R;
        cbn [fst snd].
      * split; [eexists; keys; reflexivity|].
        split; [discriminate|]. split.
        { intros s' Hs. injection Hs as <-. congruence. }
        intros s' Hs _. injection Hs as <-. rewrite R. cbn [fst snd].
        split; [reflexivity|]. split; [keys; reflexivity|]. split.
        -- keys. destruct (d !! "status"); cbn [from_option id];
             [reflexivity|].
           destruct (Builtins.has_key d "error"); reflexivity.
        -- intros k H1 H2. unfold Manager.dict in *.
           now rewrite !lookup_insert_ne by congruence.
      * split; [eexists; keys; reflexivity|].
        split; [discriminate|]. split.
        { intros s' Hs. injection Hs as <-. congruence. }
        intros s' Hs _. injection Hs as <-. rewrite R. cbn [fst snd].
        split; [reflexivity|]. split; keys; reflexivity.
    + cbn [fst snd]. split; [eexists; keys; reflexivity|].
      split; [discriminate|]. split.
      * intros s' Hs _. split; [reflexivity|]. keys. reflexivity.
      * intros s' Hs. injection Hs as <-. congruence.
    + cbn [fst snd]. split; [eexists; keys; reflexivity|].
      split; [discriminate|]. split.
      * intros s' Hs _. split; [reflexivity|]. keys. reflexivity.
      * intros s' Hs. injection Hs as <-. congruence.
  - cbn [fst snd]. split; [eexists; keys; reflexivity|]. split.
    + intros _. split; [reflexivity|]. split; keys; reflexivity.
    + split; intros s Hs; discriminate Hs.
Qed.

(** X16.  The exhaustive scraper behind the manager.  The status is success
    exactly when the four required values are all there and not empty,
    also when no series is found.  Criteria that lack a key are refused
    by the manager, with its own error and no request; criteria with the
    four keys, one of them empty, get the error of the scraper, again
    with no request. *)
Theorem dontorrent_through_the_manager (w : Exhaustive.world)
    (scrapers : Manager.registry) (site : string)
    (criteria : gmap string Py.value) (tr : Net.trace) :
  Manager.get_scraper scrapers site = Some (Manager.dontorrent w) ->
  let res := Manager.scrape scrapers site criteria tr in
  let guard :=
    forallb Py.value_truthy
      [Py.dict_get criteria "base_url"; Py.dict_get criteria "serie_name";
       Py.dict_get criteria "start_episode"; Py.dict_get criteria "end_episode"] in
  fst res !! "status"
  = Some (Manager.Str (if guard then "success" else "failed"))
  /\ (Dontorrent.validate_criteria criteria = false ->
      snd res = tr
      /\ fst res !! "error"
         = Some (Manager.Str ("Invalid criteria for scraper '" ++ site ++ "'"))
      /\ fst res !! "criteria" = Some (Manager.Criteria criteria))
  /\ (Dontorrent.validate_criteria criteria = true -> guard = false ->
      snd res = tr
      /\ fst res !! "error"
         = Some (Manager.Str
                   "Faltan parámetros requeridos: base_url, serie_name, start_episode, end_episode")
      /\ fst res !! "site" = Some (Manager.Str site))
  /\ (guard = true ->
      snd res = snd (Exhaustive.scrape w criteria tr)
      /\ fst res !! "error" = None
      /\ fst res !! "site" = Some (Manager.Str site)).
Proof.
  intros Hget res guard. subst res. unfold Manager.scrape. rewrite Hget.
  cbn [Manager.validate_criteria Manager.scrape_with Manager.dontorrent].
  destruct (Dontorrent.validate_criteria criteria) eqn:V.
  - run. unfold Exhaustive.scrape. fold guard.
    destruct guard eqn:G; cbn [negb].
    + run. cbv beta iota zeta.
      destruct (Exhaustive.search_series w tr _ _) as [|s0 l].
      * cbn [fst snd Manager.result_dict]. unfold Builtins.has_key. keys.
        cbn [negb]. keys.
        split; [reflexivity|]. split; [discriminate|].
        split; [discriminate|]. intros _. auto.
      * destruct (Exhaustive.gather _ _ _ _ _ _ _) as [g tr1].
        unfold Exhaustive.select.
        destruct (Exhaustive.split_by_status _ _ _) as [u r].
        cbn [fst snd Manager.result_dict]. unfold Builtins.has_key. keys.
        cbn [negb]. keys.
        split; [reflexivity|]. split; [discriminate|].
        split; [discriminate|]. intros _. auto.
    + cbn [fst snd Manager.result_dict]. unfold Builtins.has_key. keys.
      cbn [negb]. keys.
      split; [reflexivity|]. split; [discriminate|].
      split; [|discriminate]. intros _ _. auto.
  - assert (G : guard = false).
    { apply guard_spec. unfold Dontorrent.validate_criteria in V.
      apply forallb_false in V as (k & Hk & Hf). exists k.
      split; [exact Hk|]. unfold Builtins.has_key in Hf. unfold Py.dict_get.
      destruct (criteria !! k); [discriminate|reflexivity]. }
    rewrite G. cbn [fst snd]. keys.
    split; [reflexivity|]. split; [intros _; auto|].
    split; [discriminate|]. discriminate.
Qed.

End ManagerFacts.

Lemma dontorrent_through_the_manager_witness :
  fst (Manager.scrape [("dontorrent", Manager.dontorrent Sites.catalogue)]
         "dontorrent" Sites.no_start_episode []) !! "status"
  = Some (Manager.Str "failed")
  /\ snd (Manager.scrape [("dontorrent", Manager.dontorrent Sites.catalogue)]
            "dontorrent" Sites.no_start_episode []) = [].
Proof.
  destruct (dontorrent_through_the_manager Sites.catalogue
              [("dontorrent", Manager.dontorrent Sites.catalogue)]
              "dontorrent" Sites.no_start_episode [] eq_refl)
    as (H1 & H2 & _).
  split; [exact H1|]. apply H2. reflexivity.
Defined.

(* ===================================================================== *)
(** ** The link resolver of the exhaustive scraper                         *)
(* ===================================================================== *)

Section ExhaustiveResolver.
Variable s : Dontorrent.pow_site.

Lemma exhaustive_pow_loop_running (challenge target : string) (fuel : nat) :
  forall start,
  Exhaustive.pow_loop fuel challenge target start = None ->
  forall m, start <= m < start + Z.of_nat fuel ->
            Exhaustive.pow_hit challenge target m = false.
Proof.
  induction fuel as [|fuel IH]; intros start H m Hm; [lia|].
  cbn [Exhaustive.pow_loop] in H.
  destruct (Exhaustive.pow_hit challenge target start) eqn:E; [discriminate|].
  destruct (Z.eq_dec m start) as [->|Hne]; [exact E|].
  apply (IH (start + 1) H). lia.
Qed.

(** X17.  The exchange for the link of a row.  A content identifier in
    ASCII that [int] does not convert makes the call raise before any
    request.  A
    call that returns has made two requests: the generation of a
    challenge for the identifier, and the validation, for the challenge
    the site gave in its answer, of the smallest nonce whose digest
    starts with four zeros, the difficulty being fixed; the link
    returned is the one the site gave in its second answer.  A call that
    is still running has made the first request only, and for the
    challenge of its answer no nonce below the fuel spent qualifies. *)
Theorem exhaustive_resolver_exchange (fuel : nat) (content_id tabla : string)
    (base_url : Py.value) (tr : list Dontorrent.request) :
  let res :=
    Dontorrent._get_protected_download_url s fuel content_id tabla base_url tr in
  let url := Py.format_value base_url ++ "/api_validate_pow.php" in
  (Builtins.is_ascii content_id = true ->
   Builtins.int_of_str content_id = None -> res = (Dontorrent.Raises, tr))
  /\ (forall link, fst res = Dontorrent.Returns link ->
      exists id generated challenge nonce validated,
        Builtins.int_of_str content_id = Some id
        /\ Dontorrent.post s tr (Dontorrent.Generate url id tabla)
           = Some generated
        /\ Dontorrent.challenge generated = Some challenge
        /\ snd res
           = (tr ++ [Dontorrent.Generate url id tabla;
                     Dontorrent.Validate url challenge nonce])%list
        /\ Dontorrent.post s (tr ++ [Dontorrent.Generate url id tabla])%list
             (Dontorrent.Validate url challenge nonce)
           = Some validated
        /\ Dontorrent.download_url validated = Some link
        /\ 0 <= nonce
        /\ Exhaustive.pow_hit challenge (Py.repeat_char "0" 4) nonce = true
        /\ forall m, 0 <= m < nonce ->
             Exhaustive.pow_hit challenge (Py.repeat_char "0" 4) m = false)
  /\ (fst res = Dontorrent.Running ->
      exists id generated challenge,
        Builtins.int_of_str content_id = Some id
        /\ Dontorrent.post s tr (Dontorrent.Generate url id tabla)
           = Some generated
        /\ Dontorrent.challenge generated = Some challenge
        /\ snd res = (tr ++ [Dontorrent.Generate url id tabla])%list
        /\ forall m, 0 <= m < Z.of_nat fuel ->
             Exhaustive.pow_hit challenge (Py.repeat_char "0" 4) m = false).
Proof.
  intros res url. subst res. unfold Dontorrent._get_protected_download_url.
  fold url. destruct (Builtins.int_of_str content_id) as [id|].
  - split; [intros _; discriminate|].
    destruct (Dontorrent.post s tr _) as [result|] eqn:G;
      [|split; [intros link|]; discriminate].
    destruct (negb (Dontorrent.ok result) || _);
      [split; [intros link|]; discriminate|].
    destruct (Dontorrent.challenge result) as [challenge|] eqn:C;
      [|split; [intros link|]; discriminate].
    destruct (Exhaustive._compute_proof_of_work fuel challenge 4)
      as [nonce|] eqn:P.
    + unfold Exhaustive._compute_proof_of_work in P.
      apply exhaustive_pow_loop_sound in P as (Hle & Hhit & Hmin).
      destruct (Dontorrent.post s (tr ++ _)%list _) as [result2|] eqn:V;
        [|split; [intros link|]; discriminate].
      destruct (negb (Dontorrent.ok result2) || _);
        [split; [intros link|]; discriminate|].
      destruct (Dontorrent.download_url result2) as [u|] eqn:D;
        [|split; [intros link|]; discriminate].
      split; [|discriminate].
      cbn [fst snd]. intros link E. injection E as <-.
      exists id, result, challenge, nonce, result2.
      rewrite <- app_assoc.
      split; [reflexivity|]. split; [exact G|]. split; [exact C|].
      split; [reflexivity|]. split; [exact V|]. split; [exact D|].
      split; [exact Hle|]. split; [exact Hhit|exact Hmin].
    + split; [intros link; discriminate|]. intros _.
      exists id, result, challenge.
      split; [reflexivity|]. split; [exact G|]. split; [exact C|].
      split; [reflexivity|]. intros m Hm.
      unfold Exhaustive._compute_proof_of_work in P.
      apply (exhaustive_pow_loop_running _ _ _ _ P). lia.
  - split; [intros _ _; reflexivity|]. split; [intros link|]; discriminate.
Qed.

End ExhaustiveResolver.

Lemma exhaustive_resolver_exchange_witness :
  let url := "https://site.example/api_validate_pow.php" in
  let res :=
    Dontorrent._get_protected_download_url Servers.pow_endpoint 10 "101"
      "series" (Py.VStr Sites.base_url) [] in
  Dontorrent._get_protected_download_url Servers.pow_endpoint 10 "12a"
    "series" (Py.VStr Sites.base_url) []
  = (Dontorrent.Raises, [])
  /\ res = (Dontorrent.Returns "/torrents/101.torrent",
            [Dontorrent.Generate url 101 "series";
             Dontorrent.Validate url "ch5795" 3])
  /\ exists nonce,
       snd res
       = ([] ++ [Dontorrent.Generate
                   (Py.format_value (Py.VStr Sites.base_url)
                    ++ "/api_validate_pow.php") 101 "series";
                 Dontorrent.Validate
                   (Py.format_value (Py.VStr Sites.base_url)
                    ++ "/api_validate_pow.php") "ch5795" nonce])%list
       /\ Exhaustive.pow_hit "ch5795" (Py.repeat_char "0" 4) nonce = true
       /\ forall m, 0 <= m < nonce ->
            Exhaustive.pow_hit "ch5795" (Py.repeat_char "0" 4) m = false.
Proof.
  intros url res.
  assert (E : res = (Dontorrent.Returns "/torrents/101.torrent",
                     [Dontorrent.Generate url 101 "series";
                      Dontorrent.Validate url "ch5795" 3]))
    by (vm_compute; reflexivity).
  split.
  { apply (exhaustive_resolver_exchange Servers.pow_endpoint 10 "12a"
             "series" (Py.VStr Sites.base_url) []); reflexivity. }
  split; [exact E|].
  destruct (exhaustive_resolver_exchange Servers.pow_endpoint 10 "101"
              "series" (Py.VStr Sites.base_url) [])
    as (_ & H & _).
  destruct (H "/torrents/101.torrent") as
    (id & generated & challenge & nonce & validated & Hid & Hg & Hc & Htr & _
     & _ & _ & Hhit & Hmin).
  { fold res. now rewrite E. }
  assert (Hi : id = 101).
  { assert (X : Builtins.int_of_str "101" = Some 101) by (vm_compute; reflexivity).
    rewrite X in Hid. now injection Hid as <-. }
  subst id. cbn [Dontorrent.post Servers.pow_endpoint] in Hg.
  injection Hg as <-. cbn [Dontorrent.challenge] in Hc. injection Hc as <-.
  exists nonce. fold res in Htr.
  split; [exact Htr|]. split; [exact Hhit|exact Hmin].
Defined.

(* ===================================================================== *)
(** ** Episode numbers                                                     *)
(* ===================================================================== *)

Section EpisodeNumbers.

Lemma digit_class (d : ascii) :
  Py.is_digit d = true ->
  Ascii.eqb d "S" = false /\ Ascii.eqb d "E" = false
  /\ Py.is_space d = false
  /\ Ascii.eqb d "+" = false /\ Ascii.eqb d "-" = false
  /\ 0 <= Py.digit_val d <= 9.
Proof.
  destruct d as [b0 b1 b2 b3 b4 b5 b6 b7].
  destruct b0, b1, b2, b3, b4, b5, b6, b7; intros H;
    try discriminate H;
    (do 5 (split; [reflexivity|])); cbv; split; intros X; discriminate X.
Qed.

Lemma int_of_digits_from_nonneg (s : string) (acc : Z) :
  Props.all_digits s = true -> 0 <= acc -> 0 <= Py.int_of_digits_from acc s.
Proof.
  revert acc. induction s as [|d s IH]; simpl; intros acc H Hacc; [exact Hacc|].
  apply andb_prop in H as [Hd H]. apply IH; [exact H|].
  destruct (digit_class d Hd) as (_ & _ & _ & _ & _ & Hv). lia.
Qed.

Lemma episode_number_nonneg (c : Props.code) :
  Props.well_formed c = true -> 0 <= Props.episode_number c.
Proof.
  unfold Props.well_formed, Props.digits. intros H.
  apply andb_prop in H as [_ H]. apply andb_prop in H as [_ H].
  now apply int_of_digits_from_nonneg.
Qed.

Lemma split_S_digits (e : string) :
  Props.all_digits e = true -> Builtins.split_char "S" e = [e].
Proof.
  induction e as [|d e IH]; simpl; intros H; [reflexivity|].
  apply andb_prop in H as [Hd H].
  destruct (digit_class d Hd) as (-> & _). now rewrite (IH H).
Qed.

Lemma split_E_digits (e : string) :
  Props.all_digits e = true -> Builtins.split_char "E" e = [e].
Proof.
  induction e as [|d e IH]; simpl; intros H; [reflexivity|].
  apply andb_prop in H as [Hd H].
  destruct (digit_class d Hd) as (_ & -> & _). now rewrite (IH H).
Qed.

Lemma split_S_body (s e : string) :
  Props.all_digits s = true -> Props.all_digits e = true ->
  Builtins.split_char "S" (s ++ String "E" e) = [s ++ String "E" e].
Proof.
  intros Hs He. induction s as [|d s IH].
  - change (EmptyString ++ String "E" e) with (String "E" e).
    cbn [Builtins.split_char]. change (Ascii.eqb "E" "S") with false.
    cbn iota. now rewrite (split_S_digits e He).
  - change (String d s ++ String "E" e) with (String d (s ++ String "E" e)).
    simpl in Hs. apply andb_prop in Hs as [Hd Hs].
    cbn [Builtins.split_char]. destruct (digit_class d Hd) as (-> & _).
    now rewrite (IH Hs).
Qed.

Lemma split_E_body (s e : string) :
  Props.all_digits s = true -> Props.all_digits e = true ->
  Builtins.split_char "E" (s ++ String "E" e) = [s; e].
Proof.
  intros Hs He. induction s as [|d s IH].
  - change (EmptyString ++ String "E" e) with (String "E" e).
    cbn [Builtins.split_char]. change (Ascii.eqb "E" "E") with true.
    cbn iota. now rewrite (split_E_digits e He).
  - change (String d s ++ String "E" e) with (String d (s ++ String "E" e)).
    simpl in Hs. apply andb_prop in Hs as [Hd Hs].
    cbn [Builtins.split_char]. destruct (digit_class d Hd) as (_ & -> & _).
    now rewrite (IH Hs).
Qed.

Lemma rstrip_digits (s : string) :
  Props.all_digits s = true -> Py.rstrip s = s.
Proof.
  induction s as [|d s IH]; simpl; intros H; [reflexivity|].
  apply andb_prop in H as [Hd H]. rewrite (IH H).
  destruct (digit_class d Hd) as (_ & _ & -> & _). now destruct s.
Qed.

Lemma strip_digits (s : string) :
  Props.all_digits s = true -> Py.strip s = s.
Proof.
  intros H. unfold Py.strip.
  assert (Py.lstrip s = s) as ->; [|now apply rstrip_digits].
  destruct s as [|d s]; [reflexivity|]. simpl in *.
  apply andb_prop in H as [Hd _].
  now destruct (digit_class d Hd) as (_ & _ & -> & _).
Qed.

Lemma digits_value_digits (s : string) :
  forall (after_digit : bool) (acc : Z),
  Props.all_digits s = true ->
  Re.nonempty s || after_digit = true ->
  Builtins.digits_value after_digit acc s = Some (Py.int_of_digits_from acc s).
Proof.
  induction s as [|d s IH]; simpl; intros b acc H Hne.
  - now rewrite Hne.
  - apply andb_prop in H as [Hd H]. rewrite Hd. apply IH; [exact H|].
    apply orb_true_r.
Qed.

Lemma count_digits_all (s : string) :
  Props.all_digits s = true -> Builtins.count_digits s = String.length s.
Proof.
  induction s as [|d s IH]; simpl; intros H; [reflexivity|].
  apply andb_prop in H as [Hd H]. rewrite Hd. now rewrite (IH H).
Qed.

(** [int] of a run of digits: the value within the limit, [ValueError]
    beyond. *)
Lemma int_of_str_digits (s : string) :
  Props.digits s = true -> Builtins.int_of_str s = Builtins.int_of_group s.
Proof.
  unfold Props.digits. intros H. apply andb_prop in H as [Hne H].
  unfold Builtins.int_of_str, Builtins.int_of_group.
  rewrite (strip_digits s H).
  destruct s as [|d s]; [discriminate|].
  pose proof H as H'. simpl in H'. apply andb_prop in H' as [Hd _].
  destruct (digit_class d Hd) as (_ & _ & _ & -> & -> & _).
  unfold Builtins.limited_digits. rewrite (count_digits_all _ H).
  destruct (_ <? _)%nat; [reflexivity|].
  now apply digits_value_digits.
Qed.

Lemma int_of_group_sized (g : string) :
  (String.length g <= Builtins.int_max_str_digits)%nat ->
  Builtins.int_of_group g = Some (Py.int_of_digits g).
Proof.
  intros H. unfold Builtins.int_of_group.
  destruct (Nat.ltb_spec Builtins.int_max_str_digits (String.length g));
    [lia|reflexivity].
Qed.

Lemma int_of_group_beyond (g : string) :
  (Builtins.int_max_str_digits < String.length g)%nat ->
  Builtins.int_of_group g = None.
Proof.
  intros H. unfold Builtins.int_of_group.
  destruct (Nat.ltb_spec Builtins.int_max_str_digits (String.length g));
    [reflexivity|lia].
Qed.

Lemma strip_prefix_render (c : Props.code) :
  Props.well_formed c = true ->
  Re.strip_quality_prefix (Props.render c)
  = String "S" (Props.season c ++ String "E" (Props.episode c)).
Proof.
  destruct c as [q s e]. unfold Props.well_formed, Props.render. simpl.
  intros H. apply andb_prop in H as [H He]. apply andb_prop in H as [Hq Hs].
  destruct (quality_cases q Hq) as [->|[->| ->]]; try reflexivity.
  destruct (first_digit s Hs) as (d & r & -> & Hd).
  unfold Re.strip_quality_prefix, Re.quality_prefix. simpl.
  destruct (digit_class d Hd) as (_ & _).
  destruct (digit_is_not_D d Hd) as [-> _]. reflexivity.
Qed.

Lemma contains_later (c : ascii) (r p : string) :
  Py.contains r p = true -> Py.contains (String c r) p = true.
Proof. intros H. cbn [Py.contains]. rewrite H. apply orb_true_r. Qed.

Lemma contains_E (s e : string) :
  Py.contains (s ++ String "E" e) "E" = true.
Proof.
  induction s as [|d s IH].
  - change (EmptyString ++ String "E" e) with (String "E" e).
    cbn [Py.contains Py.startswith]. now rewrite startswith_nil.
  - change (String d s ++ String "E" e) with (String d (s ++ String "E" e)).
    now apply contains_later.
Qed.

(** On a well-formed code both versions of [_episode_to_number] convert
    the season, then the episode. *)
Lemma episode_to_number_reads (c : Props.code) :
  Props.well_formed c = true ->
  let number :=
    season ← Builtins.int_of_group (Props.season c);
    episode ← Builtins.int_of_group (Props.episode c);
    Some (season * 1000 + episode) in
  Dontorrent._episode_to_number (Props.render c) = number
  /\ DontorrentFast._episode_to_number (Props.render c) = number.
Proof.
  intros Hc number. split.
  - unfold Dontorrent._episode_to_number.
    rewrite (strip_prefix_render c Hc).
    pose proof Hc as Hc'. unfold Props.well_formed in Hc'.
    apply andb_prop in Hc' as [Hq He]. apply andb_prop in Hq as [_ Hs].
    pose proof Hs as Hs'. pose proof He as He'.
    unfold Props.digits in Hs', He'.
    apply andb_prop in Hs' as [_ Hs']. apply andb_prop in He' as [_ He'].
    assert (Py.contains
              (String "S" (Props.season c ++ String "E" (Props.episode c))) "S"
            = true) as ->
      by (cbn [Py.contains Py.startswith]; now rewrite startswith_nil).
    rewrite (contains_later _ _ _ (contains_E _ _)). cbn [andb].
    cbn [Builtins.split_char]. change (Ascii.eqb "S" "S") with true.
    change (Ascii.eqb "S" "E") with false. cbn iota.
    rewrite (split_S_body _ _ Hs' He'), (split_E_body _ _ Hs' He').
    unfold Builtins.item. cbn [List.nth].
    rewrite (split_E_body _ _ Hs' He'). cbn [List.nth].
    rewrite (int_of_str_digits _ Hs), (int_of_str_digits _ He). reflexivity.
  - unfold DontorrentFast._episode_to_number.
    now rewrite (fast_reads c Hc).
Qed.

(** X18.  [_episode_to_number] on codes of the form optional HD/SD then
    SxxEyy.  When the season and the episode have no more digits than
    [int] converts, both versions give a thousand times the season plus
    the episode; when one of them has more, both raise [ValueError].
    As long as the episode numbers stay below a thousand, the numbers
    order the codes as the range filter does. *)
Theorem episode_numbers (a b : Props.code) :
  Props.well_formed a = true ->
  Props.well_formed b = true ->
  (Terms.int_sized a ->
   Dontorrent._episode_to_number (Props.render a) = Some (Terms.episode_rank a)
   /\ DontorrentFast._episode_to_number (Props.render a)
      = Some (Terms.episode_rank a))
  /\ (~ Terms.int_sized a ->
      Dontorrent._episode_to_number (Props.render a) = None
      /\ DontorrentFast._episode_to_number (Props.render a) = None)
  /\ (Terms.int_sized a -> Terms.int_sized b ->
      Props.episode_number a < 1000 -> Props.episode_number b < 1000 ->
      exists m n,
        DontorrentFast._episode_to_number (Props.render a) = Some m
        /\ DontorrentFast._episode_to_number (Props.render b) = Some n
        /\ (m <= n <-> Terms.not_after a b)).
Proof.
  intros Ha Hb.
  destruct (episode_to_number_reads a Ha) as [Ea Fa].
  destruct (episode_to_number_reads b Hb) as [_ Fb].
  assert (Hsized : forall c, Terms.int_sized c ->
            (season ← Builtins.int_of_group (Props.season c);
             episode ← Builtins.int_of_group (Props.episode c);
             Some (season * 1000 + episode))
            = Some (Terms.episode_rank c)).
  { intros c [Hs He].
    now rewrite (int_of_group_sized _ Hs), (int_of_group_sized _ He). }
  split; [|split].
  - intros Hsa. rewrite Ea, Fa. split; now apply Hsized.
  - intros Hna. rewrite Ea, Fa. unfold Terms.int_sized in Hna.
    destruct (Nat.le_gt_cases (String.length (Props.season a))
                Builtins.int_max_str_digits) as [Hs|Hs].
    + rewrite (int_of_group_sized _ Hs).
      rewrite (int_of_group_beyond (Props.episode a)) by lia.
      split; reflexivity.
    + rewrite (int_of_group_beyond _ Hs). split; reflexivity.
  - intros Hsa Hsb H1 H2. exists (Terms.episode_rank a), (Terms.episode_rank b).
    rewrite Fa, Fb. split; [now apply Hsized|]. split; [now apply Hsized|].
    pose proof (episode_number_nonneg a Ha).
    pose proof (episode_number_nonneg b Hb).
    unfold Terms.episode_rank, Terms.not_after. lia.
Qed.

Lemma episode_numbers_witness :
  (Dontorrent._episode_to_number "HDS02E05" = Some 2005
   /\ DontorrentFast._episode_to_number "HDS02E05" = Some 2005)
  /\ (Dontorrent._episode_to_number ("S1E" ++ Py.repeat_char "0" 4301) = None
      /\ DontorrentFast._episode_to_number ("S1E" ++ Py.repeat_char "0" 4301)
         = None).
Proof.
  split.
  - destruct (episode_numbers (Props.Code "HD" "02" "05")
                (Props.Code "SD" "02" "07") eq_refl eq_refl) as (H & _).
    apply H. split; unfold Builtins.int_max_str_digits; simpl; lia.
  - assert (W : Props.well_formed
                  (Props.Code EmptyString "1" (Py.repeat_char "0" 4301)) = true)
      by (vm_compute; reflexivity).
    destruct (episode_numbers _ (Props.Code "SD" "02" "07") W eq_refl)
      as (_ & H & _).
    apply H. intros [_ X]. apply Nat.leb_le in X. vm_compute in X.
    discriminate X.
Defined.

End EpisodeNumbers.

(* ===================================================================== *)
(** ** Series names and the search                                         *)
(* ===================================================================== *)

Section SeriesNames.

Ltac run := unfold mbind, M_bind, Net.bind, mret, M_ret, Net.ret, Net.ask.

Lemma append_empty_l (s : string) : EmptyString ++ s = s.
Proof. reflexivity. Qed.

Lemma substring_all (s : string) : substring 0 (String.length s) s = s.
Proof. induction s as [|c s IH]; simpl; [reflexivity|]. now rewrite IH. Qed.

Lemma lower_spaces (s : string) :
  Terms.only_spaces s = true -> Builtins.lower s = s.
Proof.
  induction s as [|c s IH]; simpl; intros H; [reflexivity|].
  apply andb_prop in H as [Hc H]. apply Ascii.eqb_eq in Hc. subst c.
  now rewrite (IH H).
Qed.

Lemma replace_spaces (s : string) :
  Terms.only_spaces s = true ->
  forall fuel, (String.length s < fuel)%nat ->
  Py.replace_from fuel " " EmptyString s = EmptyString.
Proof.
  induction s as [|c s IH]; intros H fuel Hfuel.
  - destruct fuel; [lia|]. reflexivity.
  - simpl in H. apply andb_prop in H as [Hc H]. apply Ascii.eqb_eq in Hc.
    subst c. destruct fuel as [|fuel]; [lia|]. cbn [Py.replace_from].
    assert (Py.startswith (String " " s) " " = true) as ->.
    { cbn [Py.startswith]. rewrite Ascii.eqb_refl. now destruct s. }
    rewrite append_empty_l.
    change (String.length " ") with 1%nat.
    change (substring 1 (String.length (String " " s) - 1) (String " " s))
      with (substring 0 (String.length s - 0) s).
    rewrite Nat.sub_0_r, substring_all. apply IH; [exact H|]. simpl in Hfuel. lia.
Qed.

(** X19.  A name of spaces only matches every title. *)
Theorem blank_name_matches_every_title (title search_name : string) :
  Terms.only_spaces search_name = true ->
  fst (Dontorrent._matches_series_name title search_name) = true.
Proof.
  intros H. unfold Dontorrent._matches_series_name. cbn [fst].
  rewrite (lower_spaces _ H). unfold Py.replace at 2 4 5.
  rewrite (replace_spaces _ H) by lia.
  rewrite startswith_nil, orb_true_r. reflexivity.
Qed.

Lemma blank_name_matches_every_title_witness :
  Py.value_truthy (Py.VStr "  ") = true
  /\ fst (Dontorrent._matches_series_name "Otra Serie - 2 Temporada" "  ") = true.
Proof.
  split; [reflexivity|].
  apply blank_name_matches_every_title. reflexivity.
Defined.

Lemma series_loop_spec (base_url : Py.value) (serie_name : string)
    (series_links : list (string * string)) :
  forall series_found,
  Dontorrent.series_loop base_url serie_name series_links series_found
  = (series_found
     ++ List.map (Terms.series_of_link base_url)
          (List.filter (Terms.link_matches serie_name) series_links))%list.
Proof.
  induction series_links as [|[href text] l IH]; intros acc.
  - simpl. now rewrite app_nil_r.
  - cbn [Dontorrent.series_loop List.filter].
    unfold Terms.link_matches at 1. cbn [snd].
    destruct (Dontorrent._matches_series_name (Py.strip text) serie_name)
      as [m n] eqn:E.
    cbn [fst]. rewrite IH.
    unfold Dontorrent._matches_series_name in E. injection E as _ <-.
    destruct m; [|reflexivity].
    cbn [List.map]. unfold Terms.series_of_link at 2. cbn [fst snd].
    rewrite <- app_assoc. reflexivity.
Qed.

(** X20.  [_search_series] makes one request, the search, and returns the
    entries of the links whose text matches the name, all of them, in
    the order of the page: the text stripped is the original title, the
    address is the base address followed by the [href].  It returns the
    empty list when the request fails, or when the name is no string. *)
Theorem search_returns_the_matching_links (s : Dontorrent.search_site)
    (base_url serie_name : Py.value) (tr : Net.trace) :
  let res := Dontorrent._search_series s base_url serie_name tr in
  snd res = (tr ++ [Net.EvSearch base_url serie_name])%list
  /\ fst res
     = match Dontorrent.post_search s tr (Py.format_value base_url ++ "/buscar")
               serie_name, serie_name with
       | Some series_links, Py.VStr name =>
           List.map (Terms.series_of_link base_url)
             (List.filter (Terms.link_matches name) series_links)
       | _, _ => []
       end.
Proof.
  unfold Dontorrent._search_series. run. cbv beta iota zeta.
  destruct (Dontorrent.post_search s tr _ serie_name) as [links|];
    [|split; reflexivity].
  destruct serie_name; try (split; reflexivity).
  cbn [fst snd]. split; [reflexivity|]. now rewrite series_loop_spec.
Qed.

(** *** The name taken from a title *)

Lemma lstrip_fixed (s : string) : Py.lstrip (Py.lstrip s) = Py.lstrip s.
Proof.
  induction s as [|c s IH]; [reflexivity|]. cbn [Py.lstrip].
  destruct (Py.is_space c) eqn:E; [exact IH|]. cbn [Py.lstrip]. now rewrite E.
Qed.

Lemma rstrip_fixed (s : string) : Py.rstrip (Py.rstrip s) = Py.rstrip s.
Proof.
  induction s as [|c s IH]; [reflexivity|]. cbn [Py.rstrip].
  destruct (Py.rstrip s) as [|d r] eqn:E.
  - destruct (Py.is_space c) eqn:C; [reflexivity|].
    cbn [Py.rstrip]. now rewrite C.
  - cbn [Py.rstrip]. cbn [Py.rstrip] in IH.
    destruct (Py.rstrip r) as [|d' r'] eqn:E'.
    + destruct (Py.is_space d); [discriminate IH|]. now rewrite IH.
    + now rewrite IH.
Qed.

Lemma lstrip_rstrip (s : string) :
  Py.lstrip s = s -> Py.lstrip (Py.rstrip s) = Py.rstrip s.
Proof.
  destruct s as [|c s]; [reflexivity|]. cbn [Py.lstrip].
  destruct (Py.is_space c) eqn:C.
  - intros H. exfalso.
    assert (Hlen : forall t, (String.length (Py.lstrip t) <= String.length t)%nat).
    { induction t as [|x t IHt]; simpl; [lia|]. destruct (Py.is_space x);
        simpl; lia. }
    pose proof (Hlen s) as L. rewrite H in L. simpl in L. lia.
  - intros _. cbn [Py.rstrip].
    destruct (Py.rstrip s); rewrite ?C; cbn [Py.lstrip]; now rewrite C.
Qed.

Lemma strip_fixed (s : string) : Py.strip (Py.strip s) = Py.strip s.
Proof.
  unfold Py.strip.
  rewrite (lstrip_rstrip (Py.lstrip s) (lstrip_fixed s)). apply rstrip_fixed.
Qed.

Lemma all_kept_clean (s : string) : Terms.all_kept (Dontorrent.clean s) = true.
Proof.
  induction s as [|c s IH]; [reflexivity|]. simpl.
  destruct (Dontorrent.kept c) eqn:E; [|exact IH]. simpl. now rewrite E.
Qed.

Lemma all_kept_lstrip (s : string) :
  Terms.all_kept s = true -> Terms.all_kept (Py.lstrip s) = true.
Proof.
  induction s as [|c s IH]; [reflexivity|]. intros H. cbn [Py.lstrip].
  destruct (Py.is_space c); [|exact H].
  simpl in H. apply andb_prop in H as [_ H]. auto.
Qed.

Lemma all_kept_rstrip (s : string) :
  Terms.all_kept s = true -> Terms.all_kept (Py.rstrip s) = true.
Proof.
  induction s as [|c s IH]; [reflexivity|]. intros H. cbn [Py.rstrip].
  simpl in H. apply andb_prop in H as [Hc H]. specialize (IH H).
  destruct (Py.rstrip s).
  - destruct (Py.is_space c); [reflexivity|]. simpl. now rewrite Hc.
  - cbn [Terms.all_kept]. now rewrite Hc.
Qed.

Lemma name_before_form (title : string) (separators : list string) (n : string) :
  Dontorrent.name_before title separators = Some n ->
  exists x, n = Py.strip (Dontorrent.clean x).
Proof.
  induction separators as [|sep rest IH]; simpl; [discriminate|].
  destruct (Py.contains _ _); [|exact IH].
  destruct (Builtins.split_once sep title) as [[head tail]|]; [|exact IH].
  intros H; injection H as <-. eauto.
Qed.

Lemma name_before_uncut (title : string) (separators : list string) :
  (forall sep, List.In sep separators -> Builtins.split_once sep title = None) ->
  Dontorrent.name_before title separators = None.
Proof.
  induction separators as [|sep rest IH]; simpl; intros H; [reflexivity|].
  rewrite (H sep) by now left.
  destruct (Py.contains _ _); apply IH; intros x Hx; apply H; now right.
Qed.

(** X21.  The name [_extract_series_name_from_title] gives has no whitespace
    at its ends and no character that the cleaning removes.  The
    separators are looked for without regard to case but the title is
    cut with regard to it: a title in which no separator is written as it
    is in the list is not cut, and the name is the whole title,
    cleaned. *)
Theorem series_name_is_trimmed_and_clean (title : string) :
  let name := Dontorrent._extract_series_name_from_title title in
  Py.strip name = name
  /\ Terms.all_kept name = true
  /\ ((forall sep, List.In sep Dontorrent.separators ->
                   Builtins.split_once sep title = None) ->
      name = Py.strip (Dontorrent.clean title)).
Proof.
  intros name. subst name. unfold Dontorrent._extract_series_name_from_title.
  assert (Hform : exists x,
            match Dontorrent.name_before title Dontorrent.separators with
            | Some series_name => series_name
            | None => Py.strip (Dontorrent.clean title)
            end = Py.strip (Dontorrent.clean x)).
  { destruct (Dontorrent.name_before title Dontorrent.separators) as [n|] eqn:E.
    - now apply name_before_form in E.
    - eauto. }
  destruct Hform as [x Hx]. split; [|split].
  - rewrite Hx. apply strip_fixed.
  - rewrite Hx. unfold Py.strip.
    apply all_kept_rstrip, all_kept_lstrip, all_kept_clean.
  - intros H. now rewrite (name_before_uncut title _ H).
Qed.

Lemma series_name_is_trimmed_and_clean_witness :
  Py.contains (Builtins.lower "Serie Temporada 2") " temporada " = true
  /\ Dontorrent._extract_series_name_from_title "Serie Temporada 2"
     = "Serie Temporada 2".
Proof.
  split; [reflexivity|].
  destruct (series_name_is_trimmed_and_clean "Serie Temporada 2") as (_ & _ & H).
  rewrite H; [reflexivity|].
  intros sep Hin. unfold Dontorrent.separators in Hin. simpl in Hin.
  destruct Hin as [<-|[<-|[<-|[<-|[<-|[<-|[]]]]]]]; reflexivity.
Defined.

End SeriesNames.

(* ===================================================================== *)
(** ** The quality a series page shows                                     *)
(* ===================================================================== *)

Section PageQuality.

Lemma digit_letters (d : ascii) :
  Py.is_digit d = true ->
  Py.upper_char d = d
  /\ Ascii.eqb "K" d = false /\ Ascii.eqb "U" d = false
  /\ Py.is_space d = false.
Proof.
  destruct d as [b0 b1 b2 b3 b4 b5 b6 b7].
  destruct b0, b1, b2, b3, b4, b5, b6, b7; intros H;
    try discriminate H; repeat split; reflexivity.
Qed.

Lemma upper_digits (s : string) :
  Props.all_digits s = true -> Py.upper s = s.
Proof.
  induction s as [|d s IH]; simpl; intros H; [reflexivity|].
  apply andb_prop in H as [Hd H].
  destruct (digit_letters d Hd) as (-> & _). now rewrite (IH H).
Qed.

Lemma upper_app (a b : string) : Py.upper (a ++ b) = Py.upper a ++ Py.upper b.
Proof.
  induction a as [|c a IH]; [reflexivity|].
  change (String c a ++ b) with (String c (a ++ b)).
  cbn [Py.upper]. rewrite IH. reflexivity.
Qed.

Lemma upper_nocase (p c : ascii) :
  Py.eqb_nocase p c = true -> Py.upper_char p = Py.upper_char c.
Proof. unfold Py.eqb_nocase. apply Ascii.eqb_eq. Qed.

(** What [(\d{3,4}p|4K)] captures, in upper case. *)
Lemma tag_shape (s g t : string) :
  Dontorrent.resolution_tag_at s = Some (g, t) -> Terms.raw_shape (Py.upper g).
Proof.
  unfold Dontorrent.resolution_tag_at.
  destruct (Py.take_digits 4 s) as [d t0] eqn:E.
  apply take_digits_spec in E as [Hd Hlen].
  assert (Halt : match s with
                 | String a (String k t') =>
                     if Ascii.eqb a "4" && Py.eqb_nocase k "K"
                     then Some (String a (String k EmptyString), t') else None
                 | _ => None
                 end = Some (g, t) -> Terms.raw_shape (Py.upper g)).
  { destruct s as [|a [|k t']]; try discriminate.
    destruct (Ascii.eqb a "4") eqn:A; [|discriminate].
    destruct (Py.eqb_nocase k "K") eqn:K; [|discriminate].
    intros H; injection H as <- <-. apply Ascii.eqb_eq in A. subst a.
    left. cbn [Py.upper]. now rewrite (upper_nocase _ _ K). }
  destruct t0 as [|p t']; [exact Halt|].
  destruct ((3 <=? String.length d)%nat && Py.eqb_nocase p "p") eqn:C;
    [|exact Halt].
  apply andb_prop in C as [C1 C2]. apply Nat.leb_le in C1.
  intros H; injection H as <- <-. right. exists d.
  split; [exact Hd|]. split; [lia|].
  rewrite upper_app, (upper_digits d Hd). cbn [Py.upper].
  now rewrite (upper_nocase _ _ C2).
Qed.

Lemma bracketed_shape (text : option string) (g : string) :
  Dontorrent.bracketed_tag text = Some g -> Terms.raw_shape (Py.upper g).
Proof.
  destruct text as [text|]; [|discriminate]. simpl. intros H.
  apply search_found in H as [t H]. unfold Dontorrent.bracketed_tag_at in H.
  destruct t as [|b r]; [discriminate|].
  destruct (Ascii.eqb b "["); [|discriminate].
  destruct (Dontorrent.resolution_tag_at r) as [[g' [|c u]]|] eqn:T;
    try discriminate.
  destruct (Ascii.eqb c "]"); [|discriminate].
  injection H as <-. eapply tag_shape; eauto.
Qed.

Lemma upper_matched (s w : string) :
  Dontorrent.startswith_nocase s w = true ->
  Py.upper (substring 0 (String.length w) s) = Py.upper w.
Proof.
  revert s. induction w as [|a w IH]; intros s H.
  - now destruct s.
  - destruct s as [|b s]; [discriminate|]. simpl in H.
    apply andb_prop in H as [Hab H]. cbn [String.length substring Py.upper].
    rewrite (IH s H). f_equal. symmetry. now apply upper_nocase.
Qed.

Lemma word_found (s : string) :
  forall after_word g,
  Dontorrent.search_resolution_word after_word s = Some g ->
  exists t, Dontorrent.resolution_word_at t = Some g.
Proof.
  induction s as [|c s IH]; intros b g; cbn [Dontorrent.search_resolution_word].
  - destruct b; [discriminate|].
    destruct (Dontorrent.resolution_word_at EmptyString) eqn:E; [|discriminate].
    intros H; injection H as ->. eauto.
  - destruct (if b then None else Dontorrent.resolution_word_at (String c s))
      as [g'|] eqn:E.
    + intros H; injection H as ->. destruct b; [discriminate|]. eauto.
    + apply IH.
Qed.

Lemma word_shape (t g : string) :
  Dontorrent.resolution_word_at t = Some g ->
  Py.upper g = "4K" \/ Py.upper g = "2160P" \/ Py.upper g = "1080P"
  \/ Py.upper g = "720P".
Proof.
  unfold Dontorrent.resolution_word_at.
  destruct (List.find _ _) as [word|] eqn:F; [|discriminate].
  apply List.find_some in F as [Hin Hstart].
  assert (Hg : Py.upper (substring 0 (String.length word) t) = Py.upper word)
    by now apply upper_matched.
  intros H.
  assert (g = substring 0 (String.length word) t) as ->.
  { destruct (substring (String.length word) 1 t) as [|c u].
    - now injection H.
    - destruct (Dontorrent.word_char c); [discriminate|]. now injection H. }
  rewrite Hg. unfold Dontorrent.resolution_words in Hin. simpl in Hin.
  destruct Hin as [<-|[<-|[<-|[<-|[]]]]]; auto.
Qed.

(** The raw format of a page is 4K, or three or four digits and P. *)
Lemma raw_format_shape (soup : Dontorrent.format_sources) (raw : string) :
  Dontorrent._extract_series_format soup = Some raw -> Terms.raw_shape raw.
Proof.
  unfold Dontorrent._extract_series_format.
  destruct (Dontorrent.bracketed_tag (Dontorrent.title_text soup)) as [g|] eqn:M1.
  { intros H; injection H as <-. now apply bracketed_shape in M1. }
  destruct (Dontorrent.bracketed_tag (Dontorrent.h2_text soup)) as [g|] eqn:M2.
  { intros H; injection H as <-. now apply bracketed_shape in M2. }
  destruct (match Dontorrent.formato_text soup with
            | Some text => _
            | None => None
            end) as [g|] eqn:M3.
  { intros H; injection H as <-.
    destruct (Dontorrent.formato_text soup) as [text|]; [|discriminate].
    destruct (Re.search Dontorrent.formato_at text) as [full|]; [|discriminate].
    destruct (Re.search Dontorrent.resolution_tag_at full) as [[g' u]|] eqn:T;
      [|discriminate].
    injection M3 as <-. apply search_found in T as [t T].
    eapply tag_shape; eauto. }
  destruct (Dontorrent.search_resolution_word false _) as [g|] eqn:M4;
    [|discriminate].
  apply word_found in M4 as [t M4]. apply word_shape in M4.
  destruct M4 as [-> | [-> | [-> | ->]]]; cbn; intros H; injection H as <-.
  - now left.
  - now left.
  - right. exists "1080". repeat split; auto; simpl; lia.
  - right. exists "720". repeat split; auto; simpl; lia.
Qed.

Lemma rstrip_tag (d : string) :
  Props.all_digits d = true -> Py.rstrip (d ++ "P") = d ++ "P".
Proof.
  induction d as [|a d IH]; [reflexivity|]. intros H.
  change (String a d ++ "P") with (String a (d ++ "P")).
  simpl in H. apply andb_prop in H as [Ha H]. cbn [Py.rstrip].
  rewrite (IH H). destruct (d ++ "P") eqn:E; [|reflexivity].
  destruct d; discriminate E.
Qed.

Lemma strip_tag (d : string) :
  Props.all_digits d = true -> Py.strip (d ++ "P") = d ++ "P".
Proof.
  intros H. unfold Py.strip.
  assert (Py.lstrip (d ++ "P") = d ++ "P") as ->; [|now apply rstrip_tag].
  destruct d as [|a d]; [reflexivity|].
  change (String a d ++ "P") with (String a (d ++ "P")).
  simpl in H. apply andb_prop in H as [Ha _]. cbn [Py.lstrip].
  now destruct (digit_letters a Ha) as (_ & _ & _ & ->).
Qed.

(** The canonical quality of three or four digits and P is decided by
    the number. *)
Lemma normalize_tag (d : string) :
  Props.all_digits d = true ->
  (3 <= String.length d <= 4)%nat ->
  Exhaustive._normalize_format (Some (d ++ "P"))
  = match Exhaustive.resolution_bucket (Py.int_of_digits d) with
    | Some v => v
    | None => "SD"
    end.
Proof.
  intros Hd Hlen. unfold Exhaustive._normalize_format.
  assert (Py.truthy (Some (d ++ "P")) = true) as -> by now destruct d.
  cbn [negb from_option id].
  rewrite upper_app, (upper_digits d Hd).
  change (Py.upper "P") with "P". rewrite (strip_tag d Hd).
  destruct d as [|a [|b [|c [|e [|x r]]]]]; simpl in Hlen; try lia;
    simpl in Hd;
    repeat match type of Hd with
           | _ && _ = true => apply andb_prop in Hd as [? Hd]
           end;
    cbv beta iota delta [String.append];
    (destruct (Exhaustive.valid_formats _) as [v|] eqn:V;
     [ unfold Exhaustive.valid_formats in V;
       repeat match type of V with
              | (if String.eqb ?x ?y then _ else _) = _ =>
                  let Q := fresh "Q" in
                  destruct (String.eqb x y) eqn:Q;
                  [apply String.eqb_eq in Q; try discriminate Q;
                   injection Q; intros; subst; injection V as <-;
                   vm_compute; reflexivity|]
              end; discriminate V
     | ]).
  - assert (Re.search Re.resolution_at (String a (String b (String c "P")))
            = Some (String a (String b (String c EmptyString)))) as ->.
    { apply search_head. unfold Re.resolution_at. cbn [Py.take_digits].
      rewrite H, H0, H1. reflexivity. }
    destruct (Exhaustive.resolution_bucket _); [reflexivity|].
    cbn [Py.contains Py.startswith].
    destruct (digit_letters a H) as (_ & _ & -> & _).
    destruct (digit_letters b H0) as (_ & -> & -> & _).
    destruct (digit_letters c H1) as (_ & -> & -> & _).
    cbn. rewrite ?andb_false_r. reflexivity.
  - assert (Re.search Re.resolution_at
              (String a (String b (String c (String e "P"))))
            = Some (String a (String b (String c (String e EmptyString)))))
      as ->.
    { apply search_head. unfold Re.resolution_at. cbn [Py.take_digits].
      rewrite H, H0, H1, H2. reflexivity. }
    destruct (Exhaustive.resolution_bucket _); [reflexivity|].
    cbn [Py.contains Py.startswith].
    destruct (digit_letters a H) as (_ & _ & -> & _).
    destruct (digit_letters b H0) as (_ & -> & -> & _).
    destruct (digit_letters c H1) as (_ & -> & -> & _).
    destruct (digit_letters e H2) as (_ & -> & -> & _).
    cbn. rewrite ?andb_false_r. reflexivity.
Qed.

(** X22.  The quality of a series page.  The raw format [_extract_series_format]
    finds is 4K, or three or four digits and P; a tag in brackets in the
    title is taken before anything else on the page.  The category and
    the canonical quality follow from the number alone: HD with 4K from
    2160 on, HD with 1080p from 1080 on, HD with 720p from 720 on, and SD
    with SD below, as well as for a page that shows no format. *)
Theorem page_quality_follows_the_number (soup : Dontorrent.format_sources) :
  match Dontorrent._extract_series_format soup with
  | None => Exhaustive._extract_series_format_category None = ("SD", "SD")
  | Some raw =>
      (raw = "4K"
       /\ Exhaustive._extract_series_format_category (Some raw) = ("HD", "4K"))
      \/ exists d,
           Props.all_digits d = true
           /\ (3 <= String.length d <= 4)%nat
           /\ raw = d ++ "P"
           /\ Exhaustive._extract_series_format_category (Some raw)
              = match Exhaustive.resolution_bucket (Py.int_of_digits d) with
                | Some v => ("HD", v)
                | None => ("SD", "SD")
                end
  end
  /\ forall g,
       Dontorrent.bracketed_tag (Dontorrent.title_text soup) = Some g ->
       Dontorrent._extract_series_format soup = Some (Py.upper g).
Proof.
  split.
  - destruct (Dontorrent._extract_series_format soup) as [raw|] eqn:E;
      [|reflexivity].
    apply raw_format_shape in E as [->|(d & Hd & Hlen & ->)].
    + left. split; reflexivity.
    + right. exists d. split; [exact Hd|]. split; [exact Hlen|].
      split; [reflexivity|].
      unfold Exhaustive._extract_series_format_category.
      rewrite (normalize_tag d Hd Hlen).
      unfold Exhaustive.resolution_bucket.
      destruct (Py.int_of_digits d >=? 2160); [reflexivity|].
      destruct (Py.int_of_digits d >=? 1080); [reflexivity|].
      destruct (Py.int_of_digits d >=? 720); reflexivity.
  - intros g H. unfold Dontorrent._extract_series_format. now rewrite H.
Qed.

End PageQuality.

(* ===================================================================== *)
(** ** The series the early-exit search returns                            *)
(* ===================================================================== *)

Section FastSearch.
Variable w : Fast.world.

Ltac run := unfold mbind, M_bind, Net.bind, mret, M_ret, Net.ret, Net.ask.

Lemma first_series_spec (base_url calidad : Py.value) (links : list string) :
  forall tr series_url,
  fst (Fast.first_series w base_url calidad links tr) = Some series_url ->
  exists base before href after,
    base_url = Py.VStr base
    /\ links = (before ++ href :: after)%list
    /\ series_url = base ++ href
    /\ ((Py.value_truthy calidad = false
         /\ before = []
         /\ snd (Fast.first_series w base_url calidad links tr) = tr)
        \/ exists q soup,
             calidad = Py.VStr q
             /\ snd (Fast.first_series w base_url calidad links tr)
                = (tr ++ Terms.fetches base (before ++ [href]))%list
             /\ Fast.get_html w (tr ++ Terms.fetches base before)%list series_url
                = Some soup
             /\ Py.upper (fst (Fast._extract_series_format_category
                                 (Fast.page_text soup)))
                = Py.upper q).
Proof.
  induction links as [|href rest IH]; intros tr series_url;
    cbn [Fast.first_series]; [discriminate|].
  destruct base_url as [|base| |]; try discriminate.
  destruct (Py.value_truthy calidad) eqn:C; cbn [negb].
  - run. cbv beta iota zeta.
    assert (Hrest :
      fst (Fast.first_series w (Py.VStr base) calidad rest
             (tr ++ [Net.EvFetch (base ++ href)])%list) = Some series_url ->
      exists base0 before href0 after,
        Py.VStr base = Py.VStr base0
        /\ (href :: rest = before ++ href0 :: after)%list
        /\ series_url = base0 ++ href0
        /\ ((true = false
             /\ before = []
             /\ snd (Fast.first_series w (Py.VStr base) calidad rest
                       (tr ++ [Net.EvFetch (base ++ href)])%list) = tr)
            \/ exists q soup,
                 calidad = Py.VStr q
                 /\ snd (Fast.first_series w (Py.VStr base) calidad rest
                           (tr ++ [Net.EvFetch (base ++ href)])%list)
                    = (tr ++ Terms.fetches base0 (before ++ [href0]))%list
                 /\ Fast.get_html w (tr ++ Terms.fetches base0 before)%list
                      series_url = Some soup
                 /\ Py.upper (fst (Fast._extract_series_format_category
                                     (Fast.page_text soup)))
                    = Py.upper q)).
    { intros H.
      apply IH in H as (b & before & h & after & Hb & Hl & Hu & Hq).
      injection Hb as <-.
      exists base, (href :: before)%list, h, after.
      split; [reflexivity|]. split; [now rewrite Hl|]. split; [exact Hu|].
      right. destruct Hq as [(X & _)|(q & soup & Hc & Htr & Hg & Hcat)];
        [try rewrite C in X; discriminate X|].
      exists q, soup. split; [exact Hc|].
      unfold Terms.fetches in *. cbn [List.map app].
      rewrite <- app_assoc in Htr, Hg. cbn [app] in Htr, Hg.
      split; [exact Htr|]. split; [exact Hg|exact Hcat]. }
    destruct (Fast.get_html w tr (base ++ href)) as [soup|] eqn:G;
      [|destruct calidad; exact Hrest].
    destruct calidad as [|q| |]; try exact Hrest.
    destruct (Fast._extract_series_format_category (Fast.page_text soup))
      as [category f] eqn:E.
    destruct (String.eqb (Py.upper category) (Py.upper q)) eqn:Q;
      [|exact Hrest].
    cbn [fst snd]. intros H; injection H as <-.
    exists base, [], href, rest. split; [reflexivity|].
    split; [reflexivity|]. split; [reflexivity|]. right. exists q, soup.
    split; [reflexivity|]. unfold Terms.fetches. cbn [List.map app].
    rewrite app_nil_r. split; [reflexivity|]. split; [exact G|].
    rewrite E. cbn [fst]. now apply String.eqb_eq.
  - cbn [fst snd]. intros H; injection H as <-.
    exists base, [], href, rest. split; [reflexivity|].
    split; [reflexivity|]. split; [reflexivity|]. left. auto.
Qed.

(** X23.  The series [_search_series] returns is one of the links of the
    search page of this run, put after the base address.  Without a
    category asked for it is the first link, and the search is the only
    request.  With one, the requests after the search are the fetches of
    the series pages, link by link, up to the one returned, and the page
    this last fetch got has the category asked for, up to case: the
    search never returns a series of the other category. *)
Theorem fast_search_keeps_to_the_category (serie_name base_url calidad : Py.value)
    (tr : Net.trace) (series_url : string) :
  let res := Fast._search_series w serie_name base_url calidad tr in
  fst res = Fast.Returned (Some series_url) ->
  exists name base before href after search_soup,
    serie_name = Py.VStr name
    /\ base_url = Py.VStr base
    /\ Fast.get_html w tr (base ++ "/buscar/" ++ Py.replace " " "+" name)
       = Some search_soup
    /\ Fast.portfolio_links search_soup = (before ++ href :: after)%list
    /\ series_url = base ++ href
    /\ ((Py.value_truthy calidad = false
         /\ before = []
         /\ snd res
            = (tr ++ [Net.EvFetch
                        (base ++ "/buscar/" ++ Py.replace " " "+" name)])%list)
        \/ exists q soup,
             calidad = Py.VStr q
             /\ snd res
                = (tr ++ Net.EvFetch
                           (base ++ "/buscar/" ++ Py.replace " " "+" name)
                      :: Terms.fetches base (before ++ [href]))%list
             /\ Fast.get_html w
                  (tr ++ Net.EvFetch
                           (base ++ "/buscar/" ++ Py.replace " " "+" name)
                      :: Terms.fetches base before)%list
                  series_url
                = Some soup
             /\ Py.upper (fst (Fast._extract_series_format_category
                                 (Fast.page_text soup)))
                = Py.upper q).
Proof.
  intros res. subst res. unfold Fast._search_series.
  destruct serie_name as [|name| |]; try discriminate.
  run. cbv beta iota zeta.
  destruct (Fast.get_html w tr _) as [soup|] eqn:G; [|discriminate].
  pose proof (first_series_spec base_url calidad (Fast.portfolio_links soup)
                (tr ++ [Net.EvFetch
                          (Py.format_value base_url ++ "/buscar/"
                           ++ Py.replace " " "+" name)])%list) as F.
  destruct (Fast.first_series w base_url calidad (Fast.portfolio_links soup) _)
    as [r tr1].
  cbn [fst snd] in *. intros H; injection H as ->.
  destruct (F series_url eq_refl)
    as (base & before & href & after & -> & Hl & Hu & Hq).
  exists name, base, before, href, after, soup.
  split; [reflexivity|]. split; [reflexivity|]. split; [exact G|].
  split; [exact Hl|]. split; [exact Hu|].
  destruct Hq as [(Hc & Hb & Htr)|(q & page & Hc & Htr & Hg & Hcat)].
  - left. split; [exact Hc|]. split; [exact Hb|exact Htr].
  - right. exists q, page. split; [exact Hc|].
    rewrite <- app_assoc in Htr, Hg. cbn [app] in Htr, Hg.
    split; [exact Htr|]. split; [exact Hg|exact Hcat].
Qed.

End FastSearch.

Lemma fast_search_keeps_to_the_category_witness :
  let search := Net.EvFetch "https://site.example/buscar/Serie" in
  let res :=
    Fast._search_series Servers.listing_site (Py.VStr "Serie")
      (Py.VStr Sites.base_url) (Py.VStr "hd") [] in
  res = (Fast.Returned (Some "https://site.example/serie/1"),
         [search; Net.EvFetch "https://site.example/serie/0";
          Net.EvFetch "https://site.example/serie/1"])
  /\ exists before href soup,
       "https://site.example/serie/1" = Sites.base_url ++ href
       /\ snd res
          = ([] ++ Net.EvFetch
                     (Sites.base_url ++ "/buscar/" ++ Py.replace " " "+" "Serie")
                :: Terms.fetches Sites.base_url (before ++ [href]))%list
       /\ Fast.get_html Servers.listing_site
            ([] ++ Net.EvFetch
                     (Sites.base_url ++ "/buscar/" ++ Py.replace " " "+" "Serie")
                :: Terms.fetches Sites.base_url before)%list
            "https://site.example/serie/1"
          = Some soup
       /\ Py.upper (fst (Fast._extract_series_format_category
                           (Fast.page_text soup)))
          = Py.upper "hd".
Proof.
  intros search res.
  assert (E : res = (Fast.Returned (Some "https://site.example/serie/1"),
                     [search; Net.EvFetch "https://site.example/serie/0";
                      Net.EvFetch "https://site.example/serie/1"]))
    by (vm_compute; reflexivity).
  split; [exact E|].
  destruct (fast_search_keeps_to_the_category Servers.listing_site
              (Py.VStr "Serie") (Py.VStr Sites.base_url) (Py.VStr "hd") []
              "https://site.example/serie/1")
    as (name & base & before & href & after & page & Hn & Hb & _ & _ & Hu & Hq).
  { fold res. now rewrite E. }
  injection Hn as <-. injection Hb as <-.
  destruct Hq as [(X & _)|(q & soup & Hc & Htr & Hg & Hcat)];
    [discriminate X|].
  injection Hc as <-. exists before, href, soup. fold res in Htr.
  split; [exact Hu|]. split; [exact Htr|]. split; [exact Hg|exact Hcat].
Defined.

(* ===================================================================== *)
(** ** The registry of the manager                                         *)
(* ===================================================================== *)

Section Registry.

Lemma has_scraper_keys (scrapers : Manager.registry) (site : string) :
  Manager.has_scraper scrapers site = true <-> List.In site (List.map fst scrapers).
Proof.
  unfold Manager.has_scraper. rewrite existsb_exists. split.
  - intros ((k & v) & Hin & Heq). apply String.eqb_eq in Heq. simpl in Heq.
    subst. apply in_map_iff. exists (site, v). auto.
  - intros Hin. apply in_map_iff in Hin as ((k & v) & Heq & Hin).
    simpl in Heq. subst. exists (site, v). split; auto. apply String.eqb_refl.
Qed.

Lemma register_keys (site : string) (s : Manager.scraper)
    (scrapers : Manager.registry) :
  List.map fst (Manager.register_scraper site s scrapers)
  = if Manager.has_scraper scrapers site
    then List.map fst scrapers
    else (List.map fst scrapers ++ [site])%list.
Proof.
  induction scrapers as [|[k v] l IH]; [reflexivity|].
  cbn [Manager.register_scraper]. unfold Manager.has_scraper in *.
  cbn [existsb fst]. destruct (String.eqb k site) eqn:E; [reflexivity|].
  cbn [List.map fst orb]. rewrite IH. now destruct (existsb _ l).
Qed.

Lemma get_registered (site : string) (s : Manager.scraper)
    (scrapers : Manager.registry) (other : string) :
  Manager.get_scraper (Manager.register_scraper site s scrapers) other
  = if String.eqb other site then Some s else Manager.get_scraper scrapers other.
Proof.
  unfold Manager.get_scraper.
  induction scrapers as [|[k v] l IH]; cbn [Manager.register_scraper].
  - cbn [List.find fst]. rewrite String.eqb_sym.
    now destruct (String.eqb other site).
  - destruct (String.eqb k site) eqn:E.
    + apply String.eqb_eq in E. subst k. cbn [List.find fst].
      rewrite (String.eqb_sym site other).
      now destruct (String.eqb other site).
    + cbn [List.find fst]. destruct (String.eqb k other) eqn:O.
      * apply String.eqb_eq in O. subst k. now rewrite E.
      * exact IH.
Qed.

Lemma get_unregistered (site : string) (scrapers : Manager.registry)
    (other : string) :
  other <> site ->
  Manager.get_scraper
    (List.filter (fun kv => negb (String.eqb (fst kv) site)) scrapers) other
  = Manager.get_scraper scrapers other.
Proof.
  intros Hne. unfold Manager.get_scraper.
  induction scrapers as [|[k v] l IH]; [reflexivity|].
  cbn [List.filter fst]. destruct (String.eqb k site) eqn:E; cbn [negb].
  - apply String.eqb_eq in E. subst k. cbn [List.find fst].
    apply String.eqb_neq in Hne. rewrite String.eqb_sym, Hne. exact IH.
  - cbn [List.find fst]. destruct (String.eqb k other); [reflexivity|exact IH].
Qed.

Lemma has_unregistered (site : string) (scrapers : Manager.registry) :
  Manager.has_scraper
    (List.filter (fun kv => negb (String.eqb (fst kv) site)) scrapers) site
  = false.
Proof.
  unfold Manager.has_scraper.
  induction scrapers as [|[k v] l IH]; [reflexivity|].
  cbn [List.filter fst]. destruct (String.eqb k site) eqn:E; cbn [negb];
    [exact IH|].
  cbn [existsb fst]. now rewrite E.
Qed.

(** X24.  The registry behaves as the dictionary it is.  Registering keeps the
    sites distinct and the order of registration: a new site comes last,
    a site already there keeps its place and gets the new scraper.  The
    scraper registered is the one found for the site, the other sites
    keep theirs.  Unregistering a site returns whether it was there, and
    afterwards the site has no scraper while the others keep theirs. *)
Theorem registry_laws (scrapers : Manager.registry) (site : string)
    (s : Manager.scraper) :
  List.NoDup (List.map fst scrapers) ->
  let added := Manager.register_scraper site s scrapers in
  let removed := Manager.unregister_scraper site scrapers in
  List.NoDup (List.map fst added)
  /\ List.map fst added
     = (if Manager.has_scraper scrapers site
        then List.map fst scrapers
        else (List.map fst scrapers ++ [site])%list)
  /\ Manager.get_scraper added site = Some s
  /\ Manager.has_scraper added site = true
  /\ (forall other, other <> site ->
        Manager.get_scraper added other = Manager.get_scraper scrapers other)
  /\ fst removed = Manager.has_scraper scrapers site
  /\ Manager.has_scraper (snd removed) site = false
  /\ (forall other, other <> site ->
        Manager.get_scraper (snd removed) other
        = Manager.get_scraper scrapers other).
Proof.
  intros Hnd added removed. subst added removed.
  split; [|split; [apply register_keys|]].
  { rewrite register_keys.
    destruct (Manager.has_scraper scrapers site) eqn:H; [exact Hnd|].
    apply List.NoDup_app; [exact Hnd|repeat constructor; simpl; tauto|].
    intros k Hk [<-|[]]. apply has_scraper_keys in Hk. congruence. }
  split; [rewrite get_registered; now rewrite String.eqb_refl|].
  split.
  { apply has_scraper_keys. rewrite register_keys.
    destruct (Manager.has_scraper scrapers site) eqn:H.
    - now apply has_scraper_keys.
    - apply in_app_iff. right. now left. }
  split.
  { intros other Hne. rewrite get_registered.
    apply String.eqb_neq in Hne. now rewrite Hne. }
  unfold Manager.unregister_scraper.
  destruct (Manager.has_scraper scrapers site) eqn:H; cbn [fst snd].
  - split; [reflexivity|]. split; [apply has_unregistered|].
    intros other Hne. now apply get_unregistered.
  - split; [reflexivity|]. split; [exact H|]. reflexivity.
Qed.

Lemma registry_laws_witness :
  List.map fst
    (Manager.register_scraper "btdig" (Manager.dontorrent Sites.catalogue)
       [("dontorrent", Manager.dontorrent Sites.catalogue)])
  = ["dontorrent"; "btdig"].
Proof.
  destruct (registry_laws [("dontorrent", Manager.dontorrent Sites.catalogue)]
              "btdig" (Manager.dontorrent Sites.catalogue))
    as (_ & H & _).
  - repeat constructor; simpl; tauto.
  - exact H.
Defined.

End Registry.
